(** * PPT-Generator: the generation pipeline of [app.py]

    A shallow embedding of the classes [StructureBot], [ContentBot] and
    [PPTBot] of [src/app.py] and of the route [/api/generate-ppt] that
    calls them, the properties of the pipeline that the specification
    states about them, and further properties that their code shows.

    Conventions of the embedding.
    - Python text is a Rocq [string] that holds the UTF-8 encoding of
      the text. A character of the text is a code point, that is a byte
      and the continuation bytes after it: [len], slices, [strip] and
      the iteration of a text count and cut characters, not bytes.
    - Values whose type Python only fixes at run time (what [json.loads]
      returns, the slide outline) are [PyVal]s; operations on them raise
      the exception Python raises when the value has the wrong type.
    - A function of the source is a computation [M S A]: it runs on a state
      [S] and ends with a result or with a raised exception.
      [try: ... except Exception] is [try_except].
    - Everything outside the program (the language model, the image
      service, [uuid4], [json], PIL, python-pptx, the file system) is an
      [Env] of oracles; theorems quantify over it. A service answers its
      [k]-th call as the oracle says, so two calls with the same prompt
      may differ.
    - A reply of the language model carries text ([response.content] is
      a [str]).
    - python-pptx may raise where a shape is created ([add_textbox],
      [add_picture], [add_shape]). Setting the format of a shape that
      exists succeeds. Setting the text of a frame succeeds for text; for
      any other value it empties the frame and raises.
    - The disk is a map from paths to the bytes of the files. Folders are
      not tracked: the three folders exist once the module is loaded, and
      [os.makedirs(..., exist_ok=True)] then changes nothing.
    - [print] appends a line to the console of the state;
      [traceback.print_exc()] writes to the error stream, which is not
      part of the state. *)

From Stdlib Require Import ZArith String Ascii List QArith DecimalString Lia.
From stdpp Require Import base option list strings gmap.

Open Scope string_scope.
Open Scope list_scope.

(** ** Python text *)

Module PyText.

Definition chr (n : nat) : string := String (ascii_of_nat n) EmptyString.

(** The double quote and the line feed, which string literals of this
    file do not contain. *)
Definition dq : string := chr 34.
Definition nl : string := chr 10.

(** [str(n)] for an [int]. *)
Definition str_of_Z (z : Z) : string := NilZero.string_of_int (Z.to_int z).

(** [s.split(sep)] for a non-empty [sep]: the pieces between the
    occurrences of [sep], found from left to right without overlap.
    [skip] counts the bytes of a separator still to be passed. *)
Fixpoint split_go (sep : string) (skip : nat) (cur s : string) : list string :=
  match s with
  | EmptyString => [cur]
  | String c s' =>
      match skip with
      | S k => split_go sep k cur s'
      | O =>
          if String.prefix sep s
          then cur :: split_go sep (String.length sep - 1) EmptyString s'
          else split_go sep 0 (cur +:+ String c EmptyString) s'
      end
  end.

Definition split (s sep : string) : list string := split_go sep 0 EmptyString s.

(** [sep.join(l)]. *)
Fixpoint join (sep : string) (l : list string) : string :=
  match l with
  | [] => EmptyString
  | [x] => x
  | x :: l' => x +:+ sep +:+ join sep l'
  end.

(** A continuation byte of UTF-8: [10xxxxxx]. *)
Definition continuation (c : ascii) : bool :=
  let n := nat_of_ascii c in (128 <=? n)%nat && (n <? 192)%nat.

Definition continues (ch : string) : bool :=
  match ch with
  | String c _ => continuation c
  | EmptyString => false
  end.

(** The characters of [s] in order (iterating a [str]): each byte with
    the continuation bytes that follow it. *)
Fixpoint chars (s : string) : list string :=
  match s with
  | EmptyString => []
  | String c s' =>
      match chars s' with
      | ch :: rest =>
          if continues ch then String c ch :: rest
          else String c EmptyString :: ch :: rest
      | [] => [String c EmptyString]
      end
  end.

(** [len(s)]. *)
Definition len (s : string) : nat := length (chars s).

(** [s[:n]]. *)
Definition slice_to (n : nat) (s : string) : string := join EmptyString (take n (chars s)).

(** [ord(ch)]: the code point that the bytes of a character encode. *)
Definition lead_bits (n : N) : N :=
  if (n <? 128)%N then n
  else if (n <? 224)%N then N.land n 31
  else if (n <? 240)%N then N.land n 15
  else N.land n 7.

Fixpoint ord_go (acc : N) (s : string) : N :=
  match s with
  | EmptyString => acc
  | String c s' => ord_go (acc * 64 + N.land (N_of_ascii c) 63)%N s'
  end.

Definition ord (ch : string) : N :=
  match ch with
  | EmptyString => 0%N
  | String c s' => ord_go (lead_bits (N_of_ascii c)) s'
  end.

(** [ch.isspace()]: the white space of Unicode, which [strip] removes.
    Beside the ASCII range these are U+0085, U+00A0, U+1680, U+2000 to
    U+200A, U+2028, U+2029, U+202F, U+205F and U+3000. *)
Definition isspace (ch : string) : bool :=
  let n := ord ch in
  (((9 <=? n) && (n <=? 13)) || ((28 <=? n) && (n <=? 32))
   || (n =? 133) || (n =? 160) || (n =? 5760)
   || ((8192 <=? n) && (n <=? 8202))
   || (n =? 8232) || (n =? 8233) || (n =? 8239) || (n =? 8287) || (n =? 12288))%N.

Fixpoint lstrip (l : list string) : list string :=
  match l with
  | ch :: l' => if isspace ch then lstrip l' else l
  | [] => []
  end.

(** [s.strip()]. *)
Definition strip (s : string) : string :=
  join EmptyString (rev (lstrip (rev (lstrip (chars s))))).

(** [sub in s]. *)
Fixpoint contains (sub s : string) : bool :=
  String.prefix sub s ||
  match s with
  | String _ s' => contains sub s'
  | EmptyString => false
  end.

(** [s.replace(a, b)] for one-character [a] and [b]. *)
Fixpoint replace_char (a b : ascii) (s : string) : string :=
  match s with
  | String c s' => String (if Ascii.eqb c a then b else c) (replace_char a b s')
  | EmptyString => EmptyString
  end.

(** [range(n)]. *)
Definition range (n : Z) : list Z := map Z.of_nat (seq 0 (Z.to_nat n)).

End PyText.

(** ** Python values and exceptions *)

#[warnings="-register-all"]
Inductive PyVal : Type :=
| PyNone
| PyBool (b : bool)
| PyInt (z : Z)
| PyFloat (q : Q)
| PyStr (s : string)
| PyList (l : list PyVal)
| PyDict (d : list (string * PyVal)).

(** An exception: its class and [str(e)]. All exceptions of the model are
    subclasses of [Exception]. *)
Record Exn : Type := mkExn { exn_class : string; exn_msg : string }.

Definition AttributeError := mkExn "AttributeError".
Definition TypeError := mkExn "TypeError".
Definition KeyError := mkExn "KeyError".
Definition ValueError := mkExn "ValueError".

(** ** Computations: state and exceptions *)

Definition M (S A : Type) : Type := S -> (Exn + A) * S.

Definition ret {S A : Type} (a : A) : M S A := fun s => (inr a, s).

Definition bind {S A B : Type} (m : M S A) (k : A -> M S B) : M S B :=
  fun s =>
    match m s with
    | (inr a, s') => k a s'
    | (inl e, s') => (inl e, s')
    end.

Definition raise {S A : Type} (e : Exn) : M S A := fun s => (inl e, s).

(** [try: body  except Exception as e: handler e]. The handler starts in
    the state the body had reached when it raised. *)
Definition try_except {S A : Type} (body : M S A) (handler : Exn -> M S A) : M S A :=
  fun s =>
    match body s with
    | (inl e, s') => handler e s'
    | (inr a, s') => (inr a, s')
    end.

Definition gets {S A : Type} (f : S -> A) : M S A := fun s => (inr (f s), s).

Definition modify {S : Type} (f : S -> S) : M S unit := fun s => (inr tt, f s).

Notation "'let*' x ':=' m 'in' k" := (bind m (fun x => k))
  (at level 10, x pattern, m at level 100, k at level 200).

(** A state with a console. *)
Class Console (S : Type) := emit : string -> S -> S.

Definition print {S : Type} `{Console S} (line : string) : M S unit :=
  modify (emit line).

(** A run that ended with an exception. *)
Definition raises {S A : Type} (r : (Exn + A) * S) : Prop := exists e, r.1 = inl e.

(** ** Operations on Python values *)

Section Dynamic.
Context {S : Type}.
Import PyText.

(** [type(v).__name__]. *)
Definition type_name (v : PyVal) : string :=
  match v with
  | PyNone => "NoneType"
  | PyBool _ => "bool"
  | PyInt _ => "int"
  | PyFloat _ => "float"
  | PyStr _ => "str"
  | PyList _ => "list"
  | PyDict _ => "dict"
  end.

Definition no_attribute (v : PyVal) (name : string) : Exn :=
  AttributeError ("'" +:+ type_name v +:+ "' object has no attribute '" +:+ name +:+ "'").

(** [bool(v)]. *)
Definition truthy (v : PyVal) : bool :=
  match v with
  | PyNone => false
  | PyBool b => b
  | PyInt z => negb (z =? 0)%Z
  | PyFloat q => negb (Qeq_bool q 0)
  | PyStr s => negb (String.eqb s EmptyString)
  | PyList l => match l with [] => false | _ => true end
  | PyDict d => match d with [] => false | _ => true end
  end.

(** [v.split(sep)]: a method of [str] only. *)
Definition py_split (v : PyVal) (sep : string) : M S PyVal :=
  match v with
  | PyStr s =>
      if String.eqb sep EmptyString then raise (ValueError "empty separator")
      else ret (PyList (map PyStr (split s sep)))
  | _ => raise (no_attribute v "split")
  end.

(** [v.strip()]: a method of [str] only. *)
Definition py_strip (v : PyVal) : M S PyVal :=
  match v with
  | PyStr s => ret (PyStr (strip s))
  | _ => raise (no_attribute v "strip")
  end.

Definition is_str (s : string) (v : PyVal) : bool :=
  match v with
  | PyStr s' => String.eqb s' s
  | _ => false
  end.

(** [key in v] for a [str] key. *)
Definition py_contains (key : string) (v : PyVal) : M S bool :=
  match v with
  | PyStr s => ret (contains key s)
  | PyList l => ret (existsb (is_str key) l)
  | PyDict d => ret (existsb (fun kv => String.eqb kv.1 key) d)
  | _ => raise (TypeError ("argument of type '" +:+ type_name v +:+ "' is not iterable"))
  end.

Fixpoint assoc (key : string) (d : list (string * PyVal)) : option PyVal :=
  match d with
  | [] => None
  | (k, v) :: d' => if String.eqb k key then Some v else assoc key d'
  end.

(** [v[key]] for a [str] key. *)
Definition py_getitem (v : PyVal) (key : string) : M S PyVal :=
  match v with
  | PyDict d =>
      match assoc key d with
      | Some x => ret x
      | None => raise (KeyError ("'" +:+ key +:+ "'"))
      end
  | PyList _ => raise (TypeError "list indices must be integers or slices, not str")
  | PyStr _ => raise (TypeError "string indices must be integers, not 'str'")
  | _ => raise (TypeError ("'" +:+ type_name v +:+ "' object is not subscriptable"))
  end.

(** The elements [for x in v] visits. *)
Definition py_iter (v : PyVal) : M S (list PyVal) :=
  match v with
  | PyList l => ret l
  | PyStr s => ret (map PyStr (chars s))
  | PyDict d => ret (map (fun kv => PyStr kv.1) d)
  | _ => raise (TypeError ("'" +:+ type_name v +:+ "' object is not iterable"))
  end.

Fixpoint all_str (i : Z) (l : list PyVal) : Exn + list string :=
  match l with
  | [] => inr []
  | PyStr s :: l' =>
      match all_str (i + 1) l' with
      | inr r => inr (s :: r)
      | inl e => inl e
      end
  | v :: _ =>
      inl (TypeError ("sequence item " +:+ str_of_Z i +:+ ": expected str instance, "
                      +:+ type_name v +:+ " found"))
  end.

(** [sep.join(v)]. *)
Definition py_join (sep : string) (v : PyVal) : M S string :=
  let* items := py_iter v in
  match all_str 0 items with
  | inr l => ret (join sep l)
  | inl e => raise e
  end.

(** [len(v)]; a dictionary counts its keys. *)
Definition py_len (v : PyVal) : M S Z :=
  match v with
  | PyStr s => ret (Z.of_nat (len s))
  | PyList l => ret (Z.of_nat (length l))
  | PyDict d => ret (Z.of_nat (length (remove_dups (map fst d))))
  | _ => raise (TypeError ("object of type '" +:+ type_name v +:+ "' has no len()"))
  end.

(** [v[:n] + "..."]: text is cut and extended; a list cannot be extended
    by text and a dictionary takes no slice as a key. *)
Definition py_shorten (n : nat) (v : PyVal) : M S PyVal :=
  match v with
  | PyStr s => ret (PyStr (slice_to n s +:+ "..."))
  | PyList _ =>
      raise (TypeError ("can only concatenate list (not " +:+ dq +:+ "str" +:+ dq
                        +:+ ") to list"))
  | PyDict _ => raise (TypeError "unhashable type: 'slice'")
  | _ => raise (TypeError ("'" +:+ type_name v +:+ "' object is not subscriptable"))
  end.

(** [v[:n] + "..." if len(v) > n else v]. *)
Definition py_shortened (n : nat) (v : PyVal) : M S PyVal :=
  let* size := py_len v in
  if (Z.of_nat n <? size)%Z then py_shorten n v else ret v.

(** [for x in l: body x]. *)
Fixpoint for_each {A : Type} (l : list A) (body : A -> M S unit) : M S unit :=
  match l with
  | [] => ret tt
  | x :: l' => let* _ := body x in for_each l' body
  end.

End Dynamic.

(** ** The presentation document (python-pptx) *)

(** A length in inches, as the source writes it: [Inches(8.2)] is [8.2].
    Font sizes are in points. *)
Definition Inches (x : Q) : Q := x.
Definition Pt (n : Z) : Z := n.

Record Box : Type := mkBox { box_left : Q; box_top : Q; box_width : Q; box_height : Q }.

Inductive RGBColor : Type := RGB (r g b : Z).

Inductive Alignment : Type := PP_ALIGN_CENTER.

Inductive AutoShapeType : Type := ROUNDED_RECTANGLE.

Record Font : Type := mkFont {
  font_size : option Z;
  font_bold : option bool;
  font_italic : option bool;
  font_color : option RGBColor }.

Record Paragraph : Type := mkParagraph {
  par_text : string;
  par_font : Font;
  par_alignment : option Alignment }.

Inductive Shape : Type :=
| TextBox (box : Box) (paragraphs : list Paragraph) (word_wrap : option bool)
| Picture (image_file : string) (box : Box)
| AutoShape (kind : AutoShapeType) (box : Box) (fill : option RGBColor).

(** A slide: its position in the deck and its shapes, oldest first. *)
Record Slide : Type := mkSlide { slide_no : nat; shapes : list Shape }.

Record Presentation : Type := mkPresentation {
  slide_width : Q;
  slide_height : Q;
  slides : list Slide }.

Definition plain_font : Font := mkFont None None None None.
Definition empty_paragraph : Paragraph := mkParagraph EmptyString plain_font None.

Definition set_size (n : Z) (p : Paragraph) : Paragraph :=
  let f := par_font p in
  mkParagraph (par_text p) (mkFont (Some n) (font_bold f) (font_italic f) (font_color f))
              (par_alignment p).
Definition set_bold (b : bool) (p : Paragraph) : Paragraph :=
  let f := par_font p in
  mkParagraph (par_text p) (mkFont (font_size f) (Some b) (font_italic f) (font_color f))
              (par_alignment p).
Definition set_italic (b : bool) (p : Paragraph) : Paragraph :=
  let f := par_font p in
  mkParagraph (par_text p) (mkFont (font_size f) (font_bold f) (Some b) (font_color f))
              (par_alignment p).
Definition set_color (c : RGBColor) (p : Paragraph) : Paragraph :=
  let f := par_font p in
  mkParagraph (par_text p) (mkFont (font_size f) (font_bold f) (font_italic f) (Some c))
              (par_alignment p).
Definition set_alignment (a : Alignment) (p : Paragraph) : Paragraph :=
  mkParagraph (par_text p) (par_font p) (Some a).

(** What a call of [slide.shapes.add_textbox], [add_picture] or
    [add_shape] asks for. *)
Inductive ShapeRequest : Type :=
| AddTextbox (box : Box)
| AddPicture (image_file : string) (box : Box)
| AddShape (kind : AutoShapeType) (box : Box).

(** The shape a successful request puts on the slide: a text box starts
    with one empty paragraph. *)
Definition new_shape (r : ShapeRequest) : Shape :=
  match r with
  | AddTextbox b => TextBox b [empty_paragraph] None
  | AddPicture f b => Picture f b
  | AddShape k b => AutoShape k b None
  end.

Definition is_picture (s : Shape) : bool :=
  match s with
  | Picture _ _ => true
  | _ => false
  end.

(** ** The world outside the program *)

(** What writing a file did: the bytes that reached the disk, if any, and
    the exception the call ended with, if any. *)
Record SaveOutcome : Type := mkSave {
  written : option (list Byte.byte);
  save_error : option Exn }.

(** An image object returned by the image service. *)
Inductive PILImage : Type := PIL (handle : nat).

Record InferenceClient : Type := mkClient {
  (** the [k]-th call [client.text_to_image(prompt, model=...)]: raises,
      returns nothing usable, or returns an image *)
  text_to_image : nat -> string -> string -> Exn + option PILImage }.

Record Env : Type := mkEnv {
  (** the [k]-th call [llm.invoke(prompt)]: raises, or answers with
      [response.content] *)
  llm_invoke : nat -> string -> Exn + string;
  (** the module-level [client]; [None] when it could not be created *)
  client : option InferenceClient;
  (** [image.save(path, "PNG")] *)
  image_save : PILImage -> string -> SaveOutcome;
  (** the [k]-th [uuid.uuid4().hex] *)
  uuid4_hex : nat -> string;
  (** [json.loads] *)
  json_loads : string -> Exn + PyVal;
  (** [repr] of a value that is not a [str], as an f-string shows it *)
  py_repr : PyVal -> string;
  (** [Image.open(path)] then [img.verify()] on the bytes of the file *)
  pil_verify : list Byte.byte -> option Exn;
  (** whether a shape request on a slide raises *)
  pptx_fault : Slide -> ShapeRequest -> option Exn;
  (** [prs.save(path)] *)
  prs_save : Presentation -> string -> SaveOutcome }.

(** The state of a run: the files on disk, the console, and how many
    calls each service has received. *)
Record World : Type := mkWorld {
  fs : gmap string (list Byte.byte);
  stdout : list string;
  llm_calls : nat;
  image_calls : nat;
  uuid_calls : nat }.

#[global] Instance World_console : Console World :=
  fun line w =>
    mkWorld (fs w) (stdout w ++ [line]) (llm_calls w) (image_calls w) (uuid_calls w).

(** The state of a layout routine: the slide it draws on and the console. *)
Record Canvas : Type := mkCanvas { on_slide : Slide; cv_out : list string }.

#[global] Instance Canvas_console : Console Canvas :=
  fun line c => mkCanvas (on_slide c) (cv_out c ++ [line]).

(** [IMAGES_FOLDER] and [PPT_FOLDER]. *)
Definition IMAGES_FOLDER : string := "static/images".
Definition PPT_FOLDER : string := "static/presentations".

Module os.

(** [os.path.isabs]. *)
Definition isabs (p : string) : bool := String.prefix "/" p.

(** [os.path.join(a, b)]. *)
Definition join (a b : string) : string :=
  if isabs b then b
  else if String.eqb a EmptyString || String.prefix "/" (String.rev a) then a +:+ b
  else a +:+ "/" +:+ b.

(** [os.path.exists]. *)
Definition exists_ (disk : gmap string (list Byte.byte)) (p : string) : bool :=
  bool_decide (is_Some (disk !! p)).

(** [os.path.getsize]. *)
Definition getsize {S : Type} (disk : gmap string (list Byte.byte)) (p : string) : M S Z :=
  match disk !! p with
  | Some data => ret (Z.of_nat (length data))
  | None => raise (mkExn "FileNotFoundError" ("No such file or directory: '" +:+ p +:+ "'"))
  end.

End os.

(** ** The program *)

Section Pipeline.
Variable E : Env.
Import PyText.

(** [str(v)], as an f-string interpolates a value. *)
Definition py_str (v : PyVal) : string :=
  match v with
  | PyStr s => s
  | _ => py_repr E v
  end.

(** [json.loads(v)]. *)
Definition py_json_loads {S : Type} (v : PyVal) : M S PyVal :=
  match v with
  | PyStr s =>
      match json_loads E s with
      | inr j => ret j
      | inl e => raise e
      end
  | _ => raise (TypeError ("the JSON object must be str, bytes or bytearray, not "
                           +:+ type_name v))
  end.

(** [llm.invoke(prompt).content]. *)
Definition invoke (prompt : string) : M World string :=
  fun w =>
    (llm_invoke E (llm_calls w) prompt,
     mkWorld (fs w) (stdout w) (S (llm_calls w)) (image_calls w) (uuid_calls w)).

(** [uuid.uuid4().hex]. *)
Definition uuid4 : M World string :=
  fun w =>
    (inr (uuid4_hex E (uuid_calls w)),
     mkWorld (fs w) (stdout w) (llm_calls w) (image_calls w) (S (uuid_calls w))).

(** *** StructureBot *)

Definition structure_prompt (topic : string) (slides_count : Z) : string :=
  join nl [
    EmptyString;
    "        Create a structure for a " +:+ str_of_Z slides_count +:+ "-slide PowerPoint presentation on " +:+ dq +:+ topic +:+ dq +:+ ".";
    "        ";
    "        For each slide, provide:";
    "        1. Title (concise and engaging)";
    "        2. Design type (choose from: title, content, image_focus, conclusion)";
    "        3. Key points to cover";
    "        ";
    "        Make the presentation flow logically with:";
    "        - Slide 1: Always title slide introducing the topic";
    "        - Middle slides: Mix of content and image_focus slides";
    "        - Last slide: Always conclusion slide";
    "        ";
    "        Return ONLY a valid JSON array with this exact format:";
    "        [";
    "            {";
    "                " +:+ dq +:+ "slide_number" +:+ dq +:+ ": 1,";
    "                " +:+ dq +:+ "title" +:+ dq +:+ ": " +:+ dq +:+ "Slide Title" +:+ dq +:+ ",";
    "                " +:+ dq +:+ "design_type" +:+ dq +:+ ": " +:+ dq +:+ "title" +:+ dq +:+ ",";
    "                " +:+ dq +:+ "key_points" +:+ dq +:+ ": [" +:+ dq +:+ "point1" +:+ dq +:+ ", " +:+ dq +:+ "point2" +:+ dq +:+ ", " +:+ dq +:+ "point3" +:+ dq +:+ "]";
    "            }";
    "        ]";
    "        ";
    "        Do not include any text before or after the JSON.";
    "        " ].

(** The body of the [elif] branch: the text between the first and the
    second fence when there are two, the last piece otherwise. *)
Definition between_fences (structure_text : string) : string :=
  let parts := split structure_text "```" in
  if (3 <=? length parts)%nat then nth 1 parts EmptyString
  else List.last parts EmptyString.

(** "Clean up the response to extract JSON": the [if] tests the string
    constant itself; its branch splits the text and then calls [split]
    on the list that the first [split] returned. *)
Definition extract_json (structure_text : string) : M World PyVal :=
  if truthy (PyStr "```") then
    let* parts := py_split (PyStr structure_text) "```json" in
    py_split parts "```"
  else if contains "```" structure_text then
    ret (PyStr (between_fences structure_text))
  else ret (PyStr structure_text).

(** [all(key in slide for key in keys)]. *)
Fixpoint all_keys_in {S : Type} (keys : list string) (slide : PyVal) : M S bool :=
  match keys with
  | [] => ret true
  | key :: keys' =>
      let* found := py_contains key slide in
      if found then all_keys_in keys' slide else ret false
  end.

Definition validate_structure (structure : PyVal) : M World unit :=
  match structure with
  | PyList l =>
      for_each l (fun slide =>
        let* ok := all_keys_in ["slide_number"; "title"; "design_type"; "key_points"] slide in
        if ok then ret tt else raise (ValueError "Each slide must have required keys"))
  | _ => raise (ValueError "Structure must be a list")
  end.

(** The [try] block after [llm.invoke] has answered with [content]. *)
Definition parse_response (content : string) : M World PyVal :=
  let* structure_text := extract_json (strip content) in
  let* structure_text := py_strip structure_text in
  let* structure := py_json_loads structure_text in
  let* _ := validate_structure structure in
  ret structure.

(** One element of the fallback structure, for index [i] of the loop. *)
Definition fallback_slide (topic : string) (slides_count i : Z) : PyVal :=
  if (i =? 0)%Z then
    PyDict [("slide_number", PyInt 1);
            ("title", PyStr ("Introduction to " +:+ topic));
            ("design_type", PyStr "title");
            ("key_points", PyList [PyStr "Overview"; PyStr "Objectives"; PyStr "Key Topics"])]
  else if (i =? slides_count - 1)%Z then
    PyDict [("slide_number", PyInt (i + 1));
            ("title", PyStr "Conclusion");
            ("design_type", PyStr "conclusion");
            ("key_points", PyList [PyStr "Summary"; PyStr "Key Takeaways"; PyStr "Next Steps"])]
  else
    let design_type := if (i mod 2 =? 1)%Z then "content" else "image_focus" in
    PyDict [("slide_number", PyInt (i + 1));
            ("title", PyStr (topic +:+ " - Part " +:+ str_of_Z i));
            ("design_type", PyStr design_type);
            ("key_points", PyList [PyStr "Main concepts"; PyStr "Examples"; PyStr "Applications"])].

Definition fallback_structure (topic : string) (slides_count : Z) : PyVal :=
  PyList (map (fallback_slide topic slides_count) (range slides_count)).

(** The [except] block; [response] is the content of the reply when
    [llm.invoke] had returned (['response' in locals()]). *)
Definition structure_handler (topic : string) (slides_count : Z)
    (response : option string) (e : Exn) : M World PyVal :=
  let* _ := print ("Error creating slide structure: " +:+ exn_msg e) in
  let* _ := print ("Raw response: " +:+ default "No response" response) in
  ret (fallback_structure topic slides_count).

Definition create_slide_structure (topic : string) (slides_count : Z) : M World PyVal :=
  let prompt := structure_prompt topic slides_count in
  fun w =>
    match invoke prompt w with
    | (inl e, w') => structure_handler topic slides_count None e w'
    | (inr content, w') =>
        try_except (parse_response content)
                   (structure_handler topic slides_count (Some content)) w'
    end.

(** *** ContentBot *)

(** The non-ASCII characters of the source text are kept as written. *)
Definition content_prompt (topic title design_type key_points : string) : string :=
  join nl [
    EmptyString;
    "    You are a professional presentation writer tasked with creating highly engaging and novel slide content. ";
    "    Your goal is to transform the topic into compelling, audience-ready text that goes beyond generic explanations. ";
    EmptyString;
    "    Topic: " +:+ dq +:+ topic +:+ dq;
    "    Slide Title: " +:+ title;
    "    Design Type: " +:+ design_type;
    "    Key Points to Cover: " +:+ key_points;
    EmptyString;
    "    Instructions:";
    "    - Write 2–3 cohesive paragraphs that balance clarity with originality.";
    "    - Present the information in a narrative style that feels fresh and thought-provoking, ";
    "      avoiding clichés or textbook-like phrasing.";
    "    - Use vivid analogies, real-world examples, or surprising insights to make the content memorable.";
    "    - Maintain a professional, engaging tone that aligns with the design type ";
    "      (e.g., formal for informational slides, visionary for conclusion slides, ";
    "      energetic for introductory slides).";
    "    - Ensure the content is concise enough for a presentation, yet rich in substance.";
    "    - Focus on delivering value to the audience by highlighting practical relevance, ";
    "      broader implications, or unexpected connections.";
    "    - Return only the pure content text (no formatting, bullet points, or markdown).";
    "    " ].

Definition generate_slide_content (slide_info : PyVal) (topic : string) : M World string :=
  let* title := py_getitem slide_info "title" in
  let* design_type := py_getitem slide_info "design_type" in
  let* key_points := py_getitem slide_info "key_points" in
  let* points := py_join ", " key_points in
  let prompt := content_prompt topic (py_str title) (py_str design_type) points in
  try_except
    (let* content := invoke prompt in
     ret (strip content))
    (fun e =>
       let* _ := print ("Error generating slide content: " +:+ exn_msg e) in
       let* title := py_getitem slide_info "title" in
       let* key_points := py_getitem slide_info "key_points" in
       let* points := py_join ", " key_points in
       ret ("Content about " +:+ py_str title +:+ " related to " +:+ topic
            +:+ ". This slide covers " +:+ points +:+ ".")).

Definition image_prompt_prompt (topic title design_type : string) : string :=
  join nl [
    EmptyString;
    "        Create a detailed image prompt for generating a professional image for a PowerPoint slide.";
    "        ";
    "        Slide title: " +:+ title;
    "        Topic: " +:+ topic;
    "        Design type: " +:+ design_type;
    "        ";
    "        The image should be:";
    "        - Professional and suitable for business presentations";
    "        - High quality and visually appealing";
    "        - Relevant to the slide topic";
    "        - Clean and modern design";
    "        - No text or words in the image";
    "        ";
    "        Write a concise but descriptive prompt (max 50 words) for an AI image generator.";
    "        Only return the prompt text, no quotes or extra formatting.";
    "        " ].

Definition generate_image_prompt (slide_info : PyVal) (topic : string) : M World string :=
  let* title := py_getitem slide_info "title" in
  let* design_type := py_getitem slide_info "design_type" in
  let prompt := image_prompt_prompt topic (py_str title) (py_str design_type) in
  try_except
    (let* content := invoke prompt in
     ret (strip content))
    (fun e =>
       let* _ := print ("Error generating image prompt: " +:+ exn_msg e) in
       ret ("Professional illustration about " +:+ topic
            +:+ ", modern design, high quality, business presentation style")).

(** *** PPTBot: image acquisition *)

(** Writing a file: the bytes that were written replace the file, and the
    call raises when the outcome carries an exception. *)
Definition save_file (o : SaveOutcome) (path : string) : M World unit :=
fun w =>
  (match save_error o with Some e => inl e | None => inr tt end,
   mkWorld (match written o with Some data => <[path := data]> (fs w) | None => fs w end)
           (stdout w) (llm_calls w) (image_calls w) (uuid_calls w)).

(** [client.text_to_image(prompt, model=model)]. *)
Definition call_text_to_image (c : InferenceClient) (prompt model : string)
  : M World (option PILImage) :=
fun w =>
  (text_to_image c (image_calls w) prompt model,
   mkWorld (fs w) (stdout w) (llm_calls w) (S (image_calls w)) (uuid_calls w)).

(** [generate_image]. The directories of the model are not tracked:
    [os.makedirs(..., exist_ok=True)] on a folder that the module created
    when it was loaded changes nothing. *)
Definition generate_image (prompt : string) (slide_number : Z) : M World (option string) :=
try_except
  (match client E with
   | None =>
       let* _ := print "Image client not available" in
       ret None
   | Some c =>
       let enhanced_prompt :=
         prompt +:+ ", high quality, professional, clean design, presentation style, no text" in
       let* _ := print ("Generating image for slide " +:+ str_of_Z slide_number
                        +:+ " with prompt: " +:+ slice_to 100 enhanced_prompt +:+ "...") in
       let* image := call_text_to_image c enhanced_prompt "black-forest-labs/FLUX.1-dev" in
       match image with
       | None =>
           let* _ := print ("No image generated for slide " +:+ str_of_Z slide_number) in
           ret None
       | Some image =>
           let* hex := uuid4 in
           let image_filename :=
             "slide_" +:+ str_of_Z slide_number +:+ "_" +:+ slice_to 8 hex +:+ ".png" in
           let image_path := os.join IMAGES_FOLDER image_filename in
           let* _ := save_file (image_save E image image_path) image_path in
           let* disk := gets fs in
           if os.exists_ disk image_path then
             let* file_size := os.getsize disk image_path in
             let* _ := print ("Image saved successfully: " +:+ image_filename
                              +:+ " (Size: " +:+ str_of_Z file_size +:+ " bytes)") in
             ret (Some ("images/" +:+ image_filename))
           else
             let* _ := print ("Failed to save image for slide " +:+ str_of_Z slide_number) in
             ret None
       end
   end)
  (fun e =>
     let* _ := print ("Error generating image for slide " +:+ str_of_Z slide_number
                      +:+ ": " +:+ exn_msg e) in
     ret None).

(** *** PPTBot: drawing on a slide *)

(** A request to add a shape: it raises when the library does, and
    otherwise puts the new shape last and returns its position, by which
    the routine then sets its text and format. *)
Definition add_shape_request (r : ShapeRequest) : M Canvas nat :=
fun c =>
  match pptx_fault E (on_slide c) r with
  | Some e => (inl e, c)
  | None =>
      (inr (length (shapes (on_slide c))),
       mkCanvas (mkSlide (slide_no (on_slide c)) (shapes (on_slide c) ++ [new_shape r]))
                (cv_out c))
  end.

Definition update_shape (h : nat) (f : Shape -> Shape) : M Canvas unit :=
modify (fun c =>
  mkCanvas (mkSlide (slide_no (on_slide c)) (alter f h (shapes (on_slide c)))) (cv_out c)).

(** [text_frame.text = text]: one plain paragraph per line. *)
Definition set_text (text : string) (s : Shape) : Shape :=
match s with
| TextBox b _ ww => TextBox b (map (fun line => mkParagraph line plain_font None) (split text nl)) ww
| _ => s
end.

(** [text_frame.word_wrap = b]. *)
Definition set_word_wrap (b : bool) (s : Shape) : Shape :=
match s with
| TextBox bx ps _ => TextBox bx ps (Some b)
| _ => s
end.

(** Formatting [text_frame.paragraphs[0]]. *)
Definition format_first (f : Paragraph -> Paragraph) (s : Shape) : Shape :=
match s with
| TextBox b ps ww => TextBox b (alter f 0%nat ps) ww
| _ => s
end.

(** Formatting every paragraph of [text_frame.paragraphs]. *)
Definition format_all (f : Paragraph -> Paragraph) (s : Shape) : Shape :=
match s with
| TextBox b ps ww => TextBox b (map f ps) ww
| _ => s
end.

(** [shape.fill.solid()] and [shape.fill.fore_color.rgb = c]. *)
Definition set_fill (c : RGBColor) (s : Shape) : Shape :=
match s with
| AutoShape k b _ => AutoShape k b (Some c)
| _ => s
end.

(** [text_frame.text = v]: python-pptx empties the text frame and then
    splits [v] into lines, which only text can be; another value leaves
    the frame without a paragraph and raises. *)
Definition clear_content (s : Shape) : Shape :=
match s with
| TextBox b _ ww => TextBox b [] ww
| _ => s
end.

Definition assign_text (h : nat) (v : PyVal) : M Canvas unit :=
match v with
| PyStr text => update_shape h (set_text text)
| _ =>
    let* _ := update_shape h clear_content in
    raise (no_attribute v "split")
end.

(** One slide record of [slides_data]. *)
Record SlideData : Type := mkSlideData {
  slide_number : Z;
  title : PyVal;
  design_type : PyVal;
  content : PyVal;
  image_prompt : string;
  image_path : option string }.

(** [bool(slide_data['image_path'])]. *)
Definition path_given (image_path : option string) : bool :=
match image_path with
| Some p => negb (String.eqb p EmptyString)
| None => false
end.

(** "Convert relative path to absolute path". *)
Definition full_image_path (image_path : string) : string :=
if negb (os.isabs image_path) then os.join "static" image_path else image_path.

(** [add_image_to_slide]; [disk] is the file system it reads. *)
Definition add_image_to_slide (disk : gmap string (list Byte.byte))
    (image_path : option string) (box : Box) : M Canvas bool :=
try_except
  (match image_path with
   | None =>
       let* _ := print "No image path provided" in
       ret false
   | Some image_path =>
       if String.eqb image_path EmptyString then
         let* _ := print "No image path provided" in
         ret false
       else
         let full_image_path := full_image_path image_path in
         if negb (os.exists_ disk full_image_path) then
           let* _ := print ("Image file does not exist: " +:+ full_image_path) in
           ret false
         else
           let* file_size := os.getsize disk full_image_path in
           if (file_size =? 0)%Z then
             let* _ := print ("Image file is empty: " +:+ full_image_path) in
             ret false
           else
             match pil_verify E (default [] (disk !! full_image_path)) with
             | Some img_error =>
                 let* _ := print ("Invalid image file: " +:+ full_image_path
                                  +:+ ", Error: " +:+ exn_msg img_error) in
                 ret false
             | None =>
                 let* _ := add_shape_request (AddPicture full_image_path box) in
                 let* _ := print ("Successfully added image: " +:+ full_image_path) in
                 ret true
             end
   end)
  (fun e =>
     let* _ := print ("Error adding image to slide: " +:+ exn_msg e) in
     ret false).

Definition add_title_slide_content (disk : gmap string (list Byte.byte))
    (slide_data : SlideData) : M Canvas unit :=
let* subtitle_shape :=
  add_shape_request (AddTextbox (mkBox (Inches 2) (Inches 2.5) (Inches 12) (Inches 1))) in
let* subtitle := py_shortened 100 (content slide_data) in
let* _ := assign_text subtitle_shape subtitle in
let* _ := update_shape subtitle_shape
            (format_first (fun p =>
               set_alignment PP_ALIGN_CENTER (set_color (RGB 89 89 89) (set_size (Pt 24) p)))) in
if path_given (image_path slide_data) then
  let* _ := add_image_to_slide disk (image_path slide_data)
              (mkBox (Inches 6) (Inches 4) (Inches 4) (Inches 3)) in
  ret tt
else ret tt.

Definition add_content_slide (disk : gmap string (list Byte.byte))
    (slide_data : SlideData) : M Canvas unit :=
let* content_shape :=
  add_shape_request (AddTextbox (mkBox (Inches 0.5) (Inches 2) (Inches 7) (Inches 6))) in
let* _ := assign_text content_shape (content slide_data) in
let* _ := update_shape content_shape (set_word_wrap true) in
let* _ := update_shape content_shape
            (format_all (fun p => set_color (RGB 51 51 51) (set_size (Pt 16) p))) in
if path_given (image_path slide_data) then
  let* _ := add_image_to_slide disk (image_path slide_data)
              (mkBox (Inches 8.5) (Inches 2) (Inches 6.5) (Inches 5)) in
  ret tt
else ret tt.

Definition add_image_focus_slide (disk : gmap string (list Byte.byte))
    (slide_data : SlideData) : M Canvas unit :=
let* _ :=
  if path_given (image_path slide_data) then
    let* _ := add_image_to_slide disk (image_path slide_data)
                (mkBox (Inches 2) (Inches 2) (Inches 12) (Inches 6)) in
    ret tt
  else ret tt in
let* caption_shape :=
  add_shape_request (AddTextbox (mkBox (Inches 1) (Inches 8.2) (Inches 14) (Inches 0.8))) in
let* caption_text := py_shortened 150 (content slide_data) in
let* _ := assign_text caption_shape caption_text in
update_shape caption_shape
  (format_first (fun p =>
     set_alignment PP_ALIGN_CENTER
       (set_color (RGB 102 102 102) (set_italic true (set_size (Pt 14) p))))).

Definition add_conclusion_slide (disk : gmap string (list Byte.byte))
    (slide_data : SlideData) : M Canvas unit :=
let* content_shape :=
  add_shape_request (AddTextbox (mkBox (Inches 2) (Inches 2.5) (Inches 12) (Inches 4))) in
let* _ := assign_text content_shape (content slide_data) in
let* _ := update_shape content_shape
            (format_all (fun p =>
               set_alignment PP_ALIGN_CENTER (set_color (RGB 31 78 121) (set_size (Pt 20) p)))) in
let* _ :=
  if path_given (image_path slide_data) then
    let* _ := add_image_to_slide disk (image_path slide_data)
                (mkBox (Inches 6) (Inches 6.5) (Inches 4) (Inches 2)) in
    ret tt
  else ret tt in
try_except
  (let* shape :=
     add_shape_request
       (AddShape ROUNDED_RECTANGLE (mkBox (Inches 7) (Inches 7) (Inches 2) (Inches 0.5))) in
   update_shape shape (set_fill (RGB 31 78 121)))
  (fun e => print ("Error adding decorative shape: " +:+ exn_msg e)).

Definition add_default_slide (disk : gmap string (list Byte.byte))
    (slide_data : SlideData) : M Canvas unit :=
add_content_slide disk slide_data.

(** *** PPTBot: assembling the document *)

(** The five layout routines, and the one the [if]/[elif] chain on
    [slide_data['design_type']] selects. *)
Inductive LayoutRoutine : Type :=
| TitleLayout | ContentLayout | ImageFocusLayout | ConclusionLayout | DefaultLayout.

Definition select_layout (design_type : PyVal) : LayoutRoutine :=
if is_str "title" design_type then TitleLayout
else if is_str "content" design_type then ContentLayout
else if is_str "image_focus" design_type then ImageFocusLayout
else if is_str "conclusion" design_type then ConclusionLayout
else DefaultLayout.

Definition run_layout (r : LayoutRoutine) (disk : gmap string (list Byte.byte))
    (slide_data : SlideData) : M Canvas unit :=
match r with
| TitleLayout => add_title_slide_content disk slide_data
| ContentLayout => add_content_slide disk slide_data
| ImageFocusLayout => add_image_focus_slide disk slide_data
| ConclusionLayout => add_conclusion_slide disk slide_data
| DefaultLayout => add_default_slide disk slide_data
end.

Definition title_box : Box := mkBox (Inches 0.5) (Inches 0.5) (Inches 15) (Inches 1.5).

Definition format_title (p : Paragraph) : Paragraph :=
set_alignment PP_ALIGN_CENTER (set_color (RGB 31 78 121) (set_bold true (set_size (Pt 36) p))).

(** The title of a slide: the text box and its format. *)
Definition add_title (slide_data : SlideData) : M Canvas unit :=
let* title_shape := add_shape_request (AddTextbox title_box) in
let* _ := assign_text title_shape (title slide_data) in
update_shape title_shape (format_first format_title).

(** "Add content based on design type": the inner [try] of the loop. *)
Definition add_content (disk : gmap string (list Byte.byte)) (i : nat)
    (slide_data : SlideData) : M Canvas unit :=
try_except
  (let* _ := run_layout (select_layout (design_type slide_data)) disk slide_data in
   print ("Successfully created slide " +:+ str_of_Z (Z.of_nat i + 1)))
  (fun slide_error =>
     print ("Error creating slide " +:+ str_of_Z (Z.of_nat i + 1) +:+ ": "
            +:+ exn_msg slide_error)).

(** The body of the loop over [enumerate(slides_data)], on the blank
    slide that [prs.slides.add_slide] has added. *)
Definition create_slide (disk : gmap string (list Byte.byte)) (total i : nat)
    (slide_data : SlideData) : M Canvas unit :=
let* _ := print ("Creating slide " +:+ str_of_Z (Z.of_nat i + 1) +:+ " of "
                 +:+ str_of_Z (Z.of_nat total) +:+ ": " +:+ py_str (title slide_data)) in
let* _ := add_title slide_data in
add_content disk i slide_data.

(** Running a drawing on a slide of the presentation: it reads the disk
    of the world and prints on its console; the slide is returned as the
    drawing left it. *)
Definition on_canvas {A : Type} (s : Slide)
    (m : gmap string (list Byte.byte) -> M Canvas A) : M World (A * Slide) :=
fun w =>
  let '(r, c) := m (fs w) (mkCanvas s []) in
  (match r with inr a => inr (a, on_slide c) | inl e => inl e end,
   mkWorld (fs w) (stdout w ++ cv_out c) (llm_calls w) (image_calls w) (uuid_calls w)).

Definition with_slide (prs : Presentation) (s : Slide) : Presentation :=
mkPresentation (slide_width prs) (slide_height prs) (slides prs ++ [s]).

Fixpoint add_slides (total i : nat) (slides_data : list SlideData) (prs : Presentation)
  : M World Presentation :=
match slides_data with
| [] => ret prs
| slide_data :: rest =>
    let* drawn := on_canvas (mkSlide i []) (fun disk => create_slide disk total i slide_data) in
    add_slides total (S i) rest (with_slide prs drawn.2)
end.

Definition ppt_filename (topic hex : string) : string :=
replace_char "/" "_" (replace_char " " "_" topic) +:+ "_" +:+ slice_to 8 hex +:+ ".pptx".

Definition create_powerpoint (slides_data : list SlideData) (topic : string)
  : M World (option string) :=
try_except
  (let prs := mkPresentation (Inches 16) (Inches 9) [] in
   let* prs := add_slides (length slides_data) 0 slides_data prs in
   let* hex := uuid4 in
   let ppt_filename := ppt_filename topic hex in
   let ppt_path := os.join PPT_FOLDER ppt_filename in
   let* _ := save_file (prs_save E prs ppt_path) ppt_path in
   let* disk := gets fs in
   if os.exists_ disk ppt_path then
     let* file_size := os.getsize disk ppt_path in
     let* _ := print ("PowerPoint saved successfully: " +:+ ppt_filename
                      +:+ " (Size: " +:+ str_of_Z file_size +:+ " bytes)") in
     ret (Some ("presentations/" +:+ ppt_filename))
   else
     let* _ := print ("Failed to save PowerPoint: " +:+ ppt_path) in
     ret None)
  (fun e =>
     let* _ := print ("Error creating PowerPoint: " +:+ exn_msg e) in
     ret None).

(** *** PPTBot: the pipeline *)

(** The dictionary [generate_presentation] returns. *)
Inductive Result : Type :=
| Generated (slides_data : list SlideData) (ppt_path : option string) (message : string)
| Failed (error : string) (message : string).

Definition success (r : Result) : bool :=
match r with
| Generated _ _ _ => true
| Failed _ _ => false
end.

(** Step 2: one record per element of the outline. *)
Fixpoint write_slides (topic : string) (i : Z) (slide_structure : list PyVal)
  : M World (list SlideData) :=
match slide_structure with
| [] => ret []
| slide_info :: rest =>
    let* content := generate_slide_content slide_info topic in
    let* image_prompt := generate_image_prompt slide_info topic in
    let* title := py_getitem slide_info "title" in
    let* design_type := py_getitem slide_info "design_type" in
    let* slides_data := write_slides topic (i + 1) rest in
    ret (mkSlideData (i + 1) title design_type (PyStr content) image_prompt None
         :: slides_data)
end.

(** Step 3: each record gets the image reference [generate_image]
    returns, when there is a client. *)
Fixpoint make_images (total : nat) (slides_data : list SlideData) : M World (list SlideData) :=
match slides_data with
| [] => ret []
| slide_data :: rest =>
    let* _ := print ("Processing slide " +:+ str_of_Z (slide_number slide_data) +:+ " of "
                     +:+ str_of_Z (Z.of_nat total)) in
    let* slide_data :=
      match client E with
      | Some _ =>
          let* image_path := generate_image (image_prompt slide_data) (slide_number slide_data) in
          let* _ := print ("Image path for slide " +:+ str_of_Z (slide_number slide_data) +:+ ": "
                           +:+ default "None" image_path) in
          ret (mkSlideData (slide_number slide_data) (title slide_data) (design_type slide_data)
                           (content slide_data) (image_prompt slide_data) image_path)
      | None => ret slide_data
      end in
    let* rest := make_images total rest in
    ret (slide_data :: rest)
end.

Definition generate_presentation (topic : string) (slides_count : Z) : M World Result :=
try_except
  (let* _ := print "Generating slide structure..." in
   let* slide_structure := create_slide_structure topic slides_count in
   let* _ := print "Generating content for slides..." in
   let* slide_infos := py_iter slide_structure in
   let* slides_data := write_slides topic 0 slide_infos in
   let* _ := print "Generating images..." in
   let* slides_data := make_images (length slides_data) slides_data in
   let* _ := print "Creating PowerPoint presentation..." in
   let* ppt_path := create_powerpoint slides_data topic in
   ret (Generated slides_data ppt_path "Presentation generated successfully!"))
  (fun e =>
     let* _ := print ("Error in generate_presentation: " +:+ exn_msg e) in
     ret (Failed (exn_msg e) "Error generating presentation")).

End Pipeline.

(** ** Reading the outline and the document *)

(** The value under [key] of a slide descriptor. *)
Definition field (key : string) (slide : PyVal) : option PyVal :=
match slide with
| PyDict d => assoc key d
| _ => None
end.

Definition str_list (l : list string) : PyVal := PyList (map PyStr l).

(** The slide record [sd] with the image reference [ip]. *)
Definition with_image (sd : SlideData) (ip : option string) : SlideData :=
mkSlideData (slide_number sd) (title sd) (design_type sd) (content sd) (image_prompt sd) ip.

(** The slide record [sd] with the layout kind [content]. *)
Definition as_content (sd : SlideData) : SlideData :=
mkSlideData (slide_number sd) (title sd) (PyStr "content") (content sd) (image_prompt sd)
            (image_path sd).

(** The shapes of a slide that are not pictures, and those that are. *)
Definition non_pictures (l : list Shape) : list Shape :=
List.filter (fun s => negb (is_picture s)) l.

Definition pictures (l : list Shape) : list Shape := List.filter is_picture l.

(** The title of a slide as [create_powerpoint] draws it. *)
Definition drawn_title (text : string) : Shape :=
format_first format_title (set_text text (new_shape (AddTextbox title_box))).

(** The line the loop of [create_powerpoint] prints when the layout
    routine of slide [i] has ended with [res]. *)
Definition outcome_line (i : nat) (res : Exn + unit) : string :=
match res with
| inr _ => "Successfully created slide " +:+ PyText.str_of_Z (Z.of_nat i + 1)
| inl e => "Error creating slide " +:+ PyText.str_of_Z (Z.of_nat i + 1) +:+ ": " +:+ exn_msg e
end.

(** [slide] is what [create_powerpoint] makes of the record [sd] at
    position [i], with [log] printed: the slide starts with the title,
    and the shapes after it are those the layout routine of [sd] had
    added to the titled slide when it returned or raised; the outcome of
    the routine is in the log. *)
Definition drawn_from (E : Env) (disk : gmap string (list Byte.byte)) (i : nat)
    (sd : SlideData) (log : list string) (slide : Slide) : Prop :=
exists (text : string) (added : list Shape) (res : Exn + unit) (out0 out1 : list string),
  title sd = PyStr text /\
  slide = mkSlide i (drawn_title text :: added) /\
  run_layout E (select_layout (design_type sd)) disk sd
             (mkCanvas (mkSlide i [drawn_title text]) out0)
    = (res, mkCanvas (mkSlide i (drawn_title text :: added)) out1) /\
  (outcome_line i res ∈ log).

(** The inner [try] of the loop of [create_powerpoint] around a layout
    routine, for the slide at position [i]. *)
Definition guarded (i : nat) (routine : M Canvas unit) : M Canvas unit :=
try_except
  (let* _ := routine in
   print ("Successfully created slide " +:+ PyText.str_of_Z (Z.of_nat i + 1)))
  (fun slide_error =>
     print ("Error creating slide " +:+ PyText.str_of_Z (Z.of_nat i + 1) +:+ ": "
            +:+ exn_msg slide_error)).

(** The elements other than the image that the layout routines put on a
    slide for the text [text]: a paragraph per line, in a font of a size,
    a slant and a colour, aligned or not. *)
Definition plain (line : string) : Paragraph := mkParagraph line plain_font None.

Definition styled (size : Z) (italic : option bool) (color : RGBColor)
    (alignment : option Alignment) (line : string) : Paragraph :=
mkParagraph line (mkFont (Some size) None italic (Some color)) alignment.

Definition first_styled (f : string -> Paragraph) (text : string) : list Paragraph :=
match PyText.split text PyText.nl with
| line :: lines => f line :: map plain lines
| [] => []
end.

Definition all_styled (f : string -> Paragraph) (text : string) : list Paragraph :=
map f (PyText.split text PyText.nl).

(** A text of more than [n] characters is cut after [n] characters and
    ends in three dots. *)
Definition shortened (n : nat) (text : string) : string :=
if (n <? PyText.len text)%nat then PyText.slice_to n text +:+ "..." else text.

Definition rendering (r : LayoutRoutine) (text : string) : list Shape :=
match r with
| TitleLayout =>
    [TextBox (mkBox (Inches 2) (Inches 2.5) (Inches 12) (Inches 1))
             (first_styled (styled (Pt 24) None (RGB 89 89 89) (Some PP_ALIGN_CENTER))
                           (shortened 100 text))
             None]
| ContentLayout | DefaultLayout =>
    [TextBox (mkBox (Inches 0.5) (Inches 2) (Inches 7) (Inches 6))
             (all_styled (styled (Pt 16) None (RGB 51 51 51) None) text)
             (Some true)]
| ImageFocusLayout =>
    [TextBox (mkBox (Inches 1) (Inches 8.2) (Inches 14) (Inches 0.8))
             (first_styled (styled (Pt 14) (Some true) (RGB 102 102 102) (Some PP_ALIGN_CENTER))
                           (shortened 150 text))
             None]
| ConclusionLayout =>
    [TextBox (mkBox (Inches 2) (Inches 2.5) (Inches 12) (Inches 4))
             (all_styled (styled (Pt 20) None (RGB 31 78 121) (Some PP_ALIGN_CENTER)) text)
             None;
     AutoShape ROUNDED_RECTANGLE (mkBox (Inches 7) (Inches 7) (Inches 2) (Inches 0.5))
               (Some (RGB 31 78 121))]
end.

(** Every call of the language model raises. *)
Definition llm_down (E : Env) : Prop :=
forall k prompt, exists e, llm_invoke E k prompt = inl e.

(** The image service yields no image: there is no client, or each call
    raises or returns nothing. *)
Definition image_service_down (E : Env) : Prop :=
match client E with
| Some c => forall k prompt model image, text_to_image c k prompt model <> inr (Some image)
| None => True
end.

(** A slide descriptor with a title and a layout kind that are text and
    key points that are a list of text. *)
Definition well_formed (slide_info : PyVal) : Prop :=
exists d t dt kp,
  slide_info = PyDict d /\ assoc "title" d = Some (PyStr t) /\
  assoc "design_type" d = Some (PyStr dt) /\ assoc "key_points" d = Some (str_list kp).

(** The prompt and the model [generate_image] sends to the service. *)
Definition enhanced (prompt : string) : string :=
prompt +:+ ", high quality, professional, clean design, presentation style, no text".

Definition flux : string := "black-forest-labs/FLUX.1-dev".

(** ** Sample runs *)

Module Sample.
Import PyText.

Definition service_error : Exn := mkExn "ServiceError" "service unavailable".

Definition empty_world : World := mkWorld ∅ [] 0 0 0.

Definition hex : string := "0123456789abcdef0123456789abcdef".

(** White space beyond ASCII, in UTF-8: the no-break space U+00A0 and the
    ideographic space U+3000. *)
Definition nbsp : string := chr 194 +:+ chr 160.
Definition wide_space : string := chr 227 +:+ chr 128 +:+ chr 128.

(** A picture of one grey pixel, as a PNG file. *)
Definition png : list Byte.byte :=
[Byte.x89; Byte.x50; Byte.x4e; Byte.x47; Byte.x0d; Byte.x0a; Byte.x1a; Byte.x0a;
 Byte.x00; Byte.x00; Byte.x00; Byte.x0d; Byte.x49; Byte.x48; Byte.x44; Byte.x52;
 Byte.x00; Byte.x00; Byte.x00; Byte.x01; Byte.x00; Byte.x00; Byte.x00; Byte.x01;
 Byte.x08; Byte.x00; Byte.x00; Byte.x00; Byte.x00; Byte.x3a; Byte.x7e; Byte.x9b;
 Byte.x55; Byte.x00; Byte.x00; Byte.x00; Byte.x0a; Byte.x49; Byte.x44; Byte.x41;
 Byte.x54; Byte.x78; Byte.xda; Byte.x63; Byte.x60; Byte.x00; Byte.x00; Byte.x00;
 Byte.x02; Byte.x00; Byte.x01; Byte.xe5; Byte.x27; Byte.xde; Byte.xfc; Byte.x00;
 Byte.x00; Byte.x00; Byte.x00; Byte.x49; Byte.x45; Byte.x4e; Byte.x44; Byte.xae;
 Byte.x42; Byte.x60; Byte.x82].

Definition pptx : list Byte.byte := [Byte.x50; Byte.x4b; Byte.x03; Byte.x04].

(** An image check that knows this one picture: every other file fails
    to verify. *)
Fixpoint same_bytes (a b : list Byte.byte) : bool :=
match a, b with
| [], [] => true
| x :: a', y :: b' => Byte.eqb x y && same_bytes a' b'
| _, _ => false
end.

Definition verify_png (data : list Byte.byte) : option Exn :=
if same_bytes data png then None
else Some (mkExn "UnidentifiedImageError" "cannot identify image file").

(** An outline of one slide, as a model would write it ... *)
Definition outline_text : string :=
"[{" +:+ dq +:+ "slide_number" +:+ dq +:+ ": 1, "
     +:+ dq +:+ "title" +:+ dq +:+ ": " +:+ dq +:+ "Solar" +:+ dq +:+ ", "
     +:+ dq +:+ "design_type" +:+ dq +:+ ": " +:+ dq +:+ "title" +:+ dq +:+ ", "
     +:+ dq +:+ "key_points" +:+ dq +:+ ": [" +:+ dq +:+ "Sun" +:+ dq +:+ "]}]".

(** ... and the list it encodes. *)
Definition outline : PyVal :=
PyList [PyDict [("slide_number", PyInt 1); ("title", PyStr "Solar");
                ("design_type", PyStr "title"); ("key_points", str_list ["Sun"])]].

(** A JSON reader that knows this one text. *)
Definition loads (s : string) : Exn + PyVal :=
if String.eqb s outline_text then inr outline
else inl (mkExn "JSONDecodeError" "Expecting value: line 1 column 1 (char 0)").

(** The environment in which every service fails and the library and the
    disk work; [c] is the image client. *)
Definition failing (c : option InferenceClient) : Env :=
mkEnv (fun _ _ => inl service_error) c
      (fun _ _ => mkSave (Some png) None)
      (fun _ => hex) loads (fun _ => "?") verify_png
      (fun _ _ => None)
      (fun _ _ => mkSave (Some pptx) None).

Definition broken_client : InferenceClient := mkClient (fun _ _ _ => inl service_error).
Definition silent_client : InferenceClient := mkClient (fun _ _ _ => inr None).

(** The model answers every prompt with [reply]. *)
Definition answering (reply : string) : Env :=
mkEnv (fun _ _ => inr reply) None
      (fun _ _ => mkSave (Some png) None)
      (fun _ => hex) loads (fun _ => "?") verify_png
      (fun _ _ => None)
      (fun _ _ => mkSave (Some pptx) None).

(** The image service returns an image, which [save] writes as [data]. *)
Definition painting (data : list Byte.byte) : Env :=
mkEnv (fun _ _ => inl service_error) (Some (mkClient (fun _ _ _ => inr (Some (PIL 0)))))
      (fun _ _ => mkSave (Some data) None)
      (fun _ => hex) loads (fun _ => "?") verify_png
      (fun _ _ => None)
      (fun _ _ => mkSave (Some pptx) None).

(** Three slide records: an opening slide, a slide around an image that
    is on [disk], and a closing slide without an image. *)
Definition opening : SlideData :=
mkSlideData 1 (PyStr "Solar") (PyStr "title") (PyStr "Energy from the sun.") "a sun" None.

Definition photo : SlideData :=
mkSlideData 2 (PyStr "Panels") (PyStr "image_focus") (PyStr "Panels on a roof.") "a roof"
            (Some "images/roof.png").

Definition closing : SlideData :=
mkSlideData 3 (PyStr "Conclusion") (PyStr "conclusion") (PyStr "Thank you.") "a sunset" None.

Definition disk : gmap string (list Byte.byte) := {[ "static/images/roof.png" := png ]}.

(** The library refuses the text box of the caption and nothing else. *)
Definition caption_box : Box := mkBox (Inches 1) (Inches 8.2) (Inches 14) (Inches 0.8).

Definition refuses_caption (s : Slide) (r : ShapeRequest) : option Exn :=
match r with
| AddTextbox (mkBox l t _ _) =>
    if Qeq_bool l (box_left caption_box) && Qeq_bool t (box_top caption_box)
    then Some (mkExn "ValueError" "forced failure")
    else None
| _ => None
end.

Definition caption_fails : Env :=
mkEnv (fun _ _ => inl service_error) None
      (fun _ _ => mkSave (Some png) None)
      (fun _ => hex) loads (fun _ => "?") verify_png
      refuses_caption
      (fun _ _ => mkSave (Some pptx) None).

End Sample.

(** ** Further notions for statements *)

(** The sentence [generate_slide_content] falls back to, and the prompt
    [generate_image_prompt] falls back to. *)
Definition content_fallback (title topic points : string) : string :=
"Content about " +:+ title +:+ " related to " +:+ topic
+:+ ". This slide covers " +:+ points +:+ ".".

Definition image_prompt_fallback (topic : string) : string :=
"Professional illustration about " +:+ topic
+:+ ", modern design, high quality, business presentation style".

(** The path [generate_image] saves the image of a slide under, when it
    starts in [w]. *)
Definition image_file (E : Env) (slide_number : Z) (w : World) : string :=
"static/images/slide_" +:+ PyText.str_of_Z slide_number +:+ "_"
+:+ PyText.slice_to 8 (uuid4_hex E (uuid_calls w)) +:+ ".png".

(** Every file of [w] is still a file of [w']. *)
Definition keeps_files (w w' : World) : Prop :=
forall p, is_Some (fs w !! p) -> is_Some (fs w' !! p).

Module Extra.

(** The image service returns an image whose [save] writes [data] and
    then raises. *)
Definition disk_full : Exn := mkExn "OSError" "No space left on device".

Definition interrupted (data : list Byte.byte) : Env :=
mkEnv (fun _ _ => inl Sample.service_error)
      (Some (mkClient (fun _ _ _ => inr (Some (PIL 0)))))
      (fun _ _ => mkSave (Some data) (Some disk_full))
      (fun _ => Sample.hex) Sample.loads (fun _ => "?") Sample.verify_png
      (fun _ _ => None)
      (fun _ _ => mkSave (Some Sample.pptx) None).

(** [prs.save] raises and writes nothing. *)
Definition read_only : Env :=
mkEnv (fun _ _ => inl Sample.service_error) None
      (fun _ _ => mkSave (Some Sample.png) None)
      (fun _ => Sample.hex) Sample.loads (fun _ => "?") Sample.verify_png
      (fun _ _ => None)
      (fun _ _ => mkSave None (Some (mkExn "PermissionError" "Permission denied"))).

End Extra.

(** The path [create_powerpoint] saves the document under, when it
    starts in [w]. *)
Definition document_file (E : Env) (topic : string) (w : World) : string :=
"static/presentations/" +:+ ppt_filename topic (uuid4_hex E (uuid_calls w)).

(** The image reference of a slide record, when it has one, names a file
    of [w]. *)
Definition image_on_disk (w : World) (sd : SlideData) : Prop :=
forall ref, image_path sd = Some ref -> is_Some (fs w !! ("static/" +:+ ref)).

(** Two slide records that differ at most in the image reference. *)
Definition same_but_image (sd sd' : SlideData) : Prop :=
slide_number sd' = slide_number sd /\ title sd' = title sd /\
design_type sd' = design_type sd /\ content sd' = content sd /\
image_prompt sd' = image_prompt sd.

(** A picture shows a file of [disk] that is not empty and verifies as an
    image; every other shape passes. *)
Definition valid_picture (E : Env) (disk : gmap string (list Byte.byte)) (s : Shape) : Prop :=
match s with
| Picture path _ =>
    exists data, disk !! path = Some data /\ data <> [] /\ pil_verify E data = None
| _ => True
end.

(** A slide that shows at most one picture, and only pictures of usable
    files. *)
Definition sound_slide (E : Env) (disk : gmap string (list Byte.byte)) (slide : Slide) : Prop :=
Forall (valid_picture E disk) (shapes slide) /\ (length (pictures (shapes slide)) <= 1)%nat.

(** ** The web route [/api/generate-ppt] *)

(** What the route takes from Flask and from the interpreter: the parsed
    body of the request ([request.get_json()], which raises on a body
    that is not JSON), the URL of a static file
    ([url_for('static', filename=p)]) and [int(s)] for a string. *)
Record Host : Type := mkHost {
  get_json : Exn + PyVal;
  url_for : string -> Exn + string;
  int_of_str : string -> Exn + Z }.

(** The JSON document the route answers with: one of its two refusals,
    the dictionary of [generate_presentation] with the URLs the route
    adds to it, or the dictionary of the exception handler. *)
Inductive Response : Type :=
| Refused (error : string)
| Answer (result : Result) (image_urls : list (option string)) (ppt_url : option string)
| ServerError (error : string).

Section Route.
Variable H : Host.
Variable E : Env.
Import PyText.

Definition from_host {A : Type} (r : Exn + A) : M World A := fun w => (r, w).

(** [v.get(key, dflt)]: a method of [dict] only. *)
Definition py_get (v : PyVal) (key : string) (dflt : PyVal) : M World PyVal :=
match v with
| PyDict d => ret (default dflt (assoc key d))
| _ => raise (no_attribute v "get")
end.

(** [int(v)]; a float is truncated towards zero. *)
Definition int_of (v : PyVal) : Exn + Z :=
match v with
| PyInt z => inr z
| PyBool b => inr (if b then 1 else 0)%Z
| PyFloat q => inr (Z.quot (Qnum q) (Zpos (Qden q)))
| PyStr s => int_of_str H s
| _ => inl (TypeError ("int() argument must be a string, a bytes-like object or a real number, "
                       +:+ "not '" +:+ type_name v +:+ "'"))
end.

(** [url_for('static', filename=p)] when [p] is true, otherwise no URL. *)
Definition static_url (p : option string) : M World (option string) :=
if path_given p then
  let* url := from_host (url_for H (default EmptyString p)) in
  ret (Some url)
else ret None.

(** The loop over [result['slides_data']]: the [image_url] each record
    gets. *)
Fixpoint image_urls (slides_data : list SlideData) : M World (list (option string)) :=
match slides_data with
| [] => ret []
| slide :: rest =>
    let* url := static_url (image_path slide) in
    let* urls := image_urls rest in
    ret (url :: urls)
end.

Definition generate_ppt : M World Response :=
try_except
  (let* data := from_host (get_json H) in
   let* topic := (let* t := py_get data "topic" (PyStr EmptyString) in py_strip t) in
   let* slides_count :=
     (let* c := py_get data "slides_count" (PyInt 5) in from_host (int_of c)) in
   if negb (truthy topic) then ret (Refused "Topic is required")
   else if ((slides_count <? 3) || (slides_count >? 20))%Z then
     ret (Refused "Slides count must be between 3 and 20")
   else
     let* _ := print ("Starting presentation generation for topic: " +:+ py_str E topic
                      +:+ ", slides: " +:+ str_of_Z slides_count) in
     let* result := generate_presentation E (py_str E topic) slides_count in
     match result with
     | Generated slides_data ppt_path _ =>
         let* urls := image_urls slides_data in
         let* ppt_url := static_url ppt_path in
         ret (Answer result urls ppt_url)
     | Failed _ _ => ret (Answer result [] None)
     end)
  (fun e =>
     let* _ := print ("Error in generate_ppt endpoint: " +:+ exn_msg e) in
     ret (ServerError (exn_msg e))).

End Route.

(** The fields of a request body, with the defaults of the route. *)
Definition topic_field (d : list (string * PyVal)) : PyVal :=
default (PyStr EmptyString) (assoc "topic" d).

Definition count_field (d : list (string * PyVal)) : PyVal :=
default (PyInt 5) (assoc "slides_count" d).

Module Web.

(** A host that parses decimal digits only and serves static files under
    [/static/]. *)
Definition digits (s : string) : Exn + Z :=
match NilZero.int_of_string s with
| Some i => inr (Z.of_int i)
| None => inl (ValueError ("invalid literal for int() with base 10: '" +:+ s +:+ "'"))
end.

Definition host (body : PyVal) : Host :=
mkHost (inr body) (fun p => inr ("/static/" +:+ p)) digits.

End Web.

(** * Properties *)

Import PyText.

(** ** The outline planner ([StructureBot.create_slide_structure]) *)

Lemma range_length (n : Z) : (0 <= n)%Z -> Z.of_nat (length (range n)) = n.
Proof.
  intros Hn. unfold range. rewrite length_map, length_seq. lia.
Qed.

Lemma range_lookup (n i : Z) :
  (0 <= i < n)%Z -> range n !! Z.to_nat i = Some i.
Proof.
  intros Hi. unfold range.
  rewrite list_lookup_fmap.
  rewrite (lookup_seq_lt 0 (Z.to_nat n) (Z.to_nat i)) by lia.
  simpl. f_equal. lia.
Qed.

Lemma fallback_lookup (topic : string) (n i : Z) :
  (0 <= i < n)%Z ->
  map (fallback_slide topic n) (range n) !! Z.to_nat i = Some (fallback_slide topic n i).
Proof.
  intros Hi. rewrite list_lookup_fmap, range_lookup by lia. reflexivity.
Qed.

(** The [except] block prints two lines and builds the fallback from its
    two arguments alone. *)
Lemma structure_handler_run (topic : string) (n : Z) (response : option string)
    (e : Exn) (w : World) :
  structure_handler topic n response e w =
    (inr (fallback_structure topic n),
     emit ("Raw response: " +:+ default "No response" response)
          (emit ("Error creating slide structure: " +:+ exn_msg e) w)).
Proof. reflexivity. Qed.

(** The first branch of the extraction is always taken, and it raises:
    the result of the first [split] is a list, which has no [split]. *)
Lemma extract_json_raises (structure_text : string) (w : World) :
  extract_json structure_text w =
    (inl (AttributeError "'list' object has no attribute 'split'"), w).
Proof. reflexivity. Qed.

Lemma parse_response_raises (E : Env) (content : string) (w : World) :
  parse_response E content w =
    (inl (AttributeError "'list' object has no attribute 'split'"), w).
Proof. reflexivity. Qed.

Lemma invoke_fs (E : Env) (prompt : string) (w : World) :
  fs (invoke E prompt w).2 = fs w.
Proof. reflexivity. Qed.

(** Whatever the model does, the planner ends in its [except] block. *)
Lemma create_slide_structure_run (E : Env) (topic : string) (n : Z) (w : World) :
  exists w',
    create_slide_structure E topic n w = (inr (fallback_structure topic n), w') /\
    fs w' = fs w.
Proof.
  unfold create_slide_structure.
  destruct (invoke E (structure_prompt topic n) w) as [[e | reply] w1] eqn:Hcall.
  - rewrite structure_handler_run. eexists; split; [reflexivity |].
    pose proof (invoke_fs E (structure_prompt topic n) w) as Hfs.
    rewrite Hcall in Hfs. exact Hfs.
  - unfold try_except. rewrite parse_response_raises, structure_handler_run.
    eexists; split; [reflexivity |].
    pose proof (invoke_fs E (structure_prompt topic n) w) as Hfs.
    rewrite Hcall in Hfs. exact Hfs.
Qed.

(** C3. For a slide count between 3 and 20 the fallback of the outline
    planner has exactly [slides_count] elements; the first has layout
    [title] and points Overview, Objectives, Key Topics; the last has
    layout [conclusion] and points Summary, Key Takeaways, Next Steps;
    every element in between has layout [content] at an odd index and
    [image_focus] at an even one, with points Main concepts, Examples,
    Applications. The [except] block returns this list whatever the
    reply, the exception and the world are, calls no service and leaves
    the disk alone. *)
Theorem fallback_structure_spec (topic : string) (slides_count : Z) :
  (3 <= slides_count <= 20)%Z ->
  exists slides : list PyVal,
    fallback_structure topic slides_count = PyList slides /\
    Z.of_nat (length slides) = slides_count /\
    (exists first,
        slides !! 0%nat = Some first /\
        field "design_type" first = Some (PyStr "title") /\
        field "key_points" first = Some (str_list ["Overview"; "Objectives"; "Key Topics"])) /\
    (exists last,
        slides !! Z.to_nat (slides_count - 1) = Some last /\
        field "design_type" last = Some (PyStr "conclusion") /\
        field "key_points" last = Some (str_list ["Summary"; "Key Takeaways"; "Next Steps"])) /\
    (forall i : Z, (0 < i < slides_count - 1)%Z ->
        exists slide,
          slides !! Z.to_nat i = Some slide /\
          field "design_type" slide =
            Some (PyStr (if Z.odd i then "content" else "image_focus")) /\
          field "key_points" slide =
            Some (str_list ["Main concepts"; "Examples"; "Applications"])) /\
    (forall (response : option string) (e : Exn) (w : World),
        exists w',
          structure_handler topic slides_count response e w = (inr (PyList slides), w') /\
          fs w' = fs w /\ llm_calls w' = llm_calls w /\
          image_calls w' = image_calls w /\ uuid_calls w' = uuid_calls w).
Proof.
  intros Hn.
  exists (map (fallback_slide topic slides_count) (range slides_count)).
  split; [reflexivity |].
  split; [rewrite length_map; apply range_length; lia |].
  split.
  { exists (fallback_slide topic slides_count 0).
    split; [exact (fallback_lookup topic slides_count 0 ltac:(lia)) |].
    split; reflexivity. }
  split.
  { exists (fallback_slide topic slides_count (slides_count - 1)).
    split; [apply fallback_lookup; lia |].
    unfold fallback_slide.
    destruct (slides_count - 1 =? 0)%Z eqn:H0; [apply Z.eqb_eq in H0; lia |].
    rewrite Z.eqb_refl. split; reflexivity. }
  split.
  { intros i Hi.
    exists (fallback_slide topic slides_count i).
    split; [apply fallback_lookup; lia |].
    unfold fallback_slide.
    destruct (i =? 0)%Z eqn:H0; [apply Z.eqb_eq in H0; lia |].
    destruct (i =? slides_count - 1)%Z eqn:H1; [apply Z.eqb_eq in H1; lia |].
    rewrite Zmod_odd.
    destruct (Z.odd i); split; reflexivity. }
  intros response e w. rewrite structure_handler_run.
  eexists; split; [reflexivity |]. repeat split.
Qed.

Lemma fallback_structure_spec_witness :
  exists slides : list PyVal,
    fallback_structure "Renewable Energy" 5 = PyList slides /\
    length slides = 5%nat /\
    (field "design_type" <$> slides) =
      [Some (PyStr "title"); Some (PyStr "content"); Some (PyStr "image_focus");
       Some (PyStr "content"); Some (PyStr "conclusion")].
Proof.
  destruct (fallback_structure_spec "Renewable Energy" 5 ltac:(lia))
    as (slides & Heq & _).
  exists slides. split; [exact Heq |].
  vm_compute in Heq. injection Heq as <-. split; reflexivity.
Defined.

(** C5. For every topic, slide count and behaviour of the model (raising,
    or replying with any text, fenced or not, valid JSON or not), the
    planner does not raise: it returns the fallback list. *)
Theorem create_slide_structure_never_raises
    (E : Env) (topic : string) (slides_count : Z) (w : World) :
  exists w',
    create_slide_structure E topic slides_count w =
      (inr (fallback_structure topic slides_count), w').
Proof.
  destruct (create_slide_structure_run E topic slides_count w) as (w' & Hrun & _).
  exists w'. exact Hrun.
Qed.

(** C10. For every reply of the model, the extraction raises
    [AttributeError] in its first branch, so the [try] block raises before
    it parses anything, and the planner returns the fallback structure,
    with the reply only printed. *)
Theorem model_outline_never_returned
    (E : Env) (topic : string) (slides_count : Z) (w : World) (content : string) :
  llm_invoke E (llm_calls w) (structure_prompt topic slides_count) = inr content ->
  (forall w1, extract_json (strip content) w1 =
                (inl (AttributeError "'list' object has no attribute 'split'"), w1)) /\
  (forall w1, raises (parse_response E content w1)) /\
  exists w',
    create_slide_structure E topic slides_count w =
      (inr (fallback_structure topic slides_count), w') /\
    stdout w' = (stdout w ++
      ["Error creating slide structure: 'list' object has no attribute 'split'";
       "Raw response: " +:+ content])%list.
Proof.
  intros Hreply.
  split; [intros w1; apply extract_json_raises |].
  split; [intros w1; eexists; rewrite parse_response_raises; reflexivity |].
  unfold create_slide_structure, invoke. rewrite Hreply.
  unfold try_except. rewrite parse_response_raises, structure_handler_run.
  eexists; split; [reflexivity |].
  simpl. rewrite <- app_assoc. reflexivity.
Qed.

Lemma model_outline_never_returned_witness :
  exists w',
    create_slide_structure (Sample.answering "[]") "Solar" 3 Sample.empty_world =
      (inr (fallback_structure "Solar" 3), w') /\
    stdout w' =
      ["Error creating slide structure: 'list' object has no attribute 'split'";
       "Raw response: []"].
Proof.
  destruct (model_outline_never_returned (Sample.answering "[]") "Solar" 3
              Sample.empty_world "[]" eq_refl) as (_ & _ & w' & Hrun & Hout).
  exists w'. split; [exact Hrun | exact Hout].
Defined.

(** C1. A reply that wraps a valid JSON array in two fences: the [elif]
    branch would extract the text between the fences, which parses to a
    list that passes the validation, yet the planner returns the
    three-slide fallback instead of that list. *)
Theorem fenced_outline_is_discarded :
  let reply := "```" +:+ Sample.outline_text +:+ "```" in
  let E := Sample.answering reply in
  between_fences reply = Sample.outline_text /\
  json_loads E Sample.outline_text = inr Sample.outline /\
  (validate_structure Sample.outline Sample.empty_world).1 = inr tt /\
  (create_slide_structure E "Solar" 3 Sample.empty_world).1
    = inr (fallback_structure "Solar" 3) /\
  fallback_structure "Solar" 3 <> Sample.outline.
Proof.
  cbv zeta. repeat split; try (vm_compute; reflexivity).
  vm_compute. discriminate.
Qed.

(** ** Running computations step by step *)

Lemma bind_run {S A B : Type} (m : M S A) (k : A -> M S B) (s : S) :
  bind m k s = match m s with (inr a, s') => k a s' | (inl e, s') => (inl e, s') end.
Proof. reflexivity. Qed.

Lemma print_run {S : Type} `{Console S} (line : string) (s : S) :
  print line s = (inr tt, emit line s).
Proof. reflexivity. Qed.

Lemma ret_run {S A : Type} (a : A) (s : S) : ret a s = (inr a, s).
Proof. reflexivity. Qed.

Lemma gets_run {S A : Type} (f : S -> A) (s : S) : gets f s = (inr (f s), s).
Proof. reflexivity. Qed.

Lemma modify_run {S : Type} (f : S -> S) (s : S) : modify f s = (inr tt, f s).
Proof. reflexivity. Qed.

Lemma raise_run {S A : Type} (e : Exn) (s : S) : @raise S A e s = (inl e, s).
Proof. reflexivity. Qed.

Lemma try_except_run {S A : Type} (body : M S A) (handler : Exn -> M S A) (s : S) :
  try_except body handler s =
    match body s with (inl e, s') => handler e s' | (inr a, s') => (inr a, s') end.
Proof. reflexivity. Qed.

Lemma uuid4_run (E : Env) (w : World) :
  uuid4 E w = (inr (uuid4_hex E (uuid_calls w)),
               mkWorld (fs w) (stdout w) (llm_calls w) (image_calls w) (S (uuid_calls w))).
Proof. reflexivity. Qed.

Lemma save_file_run (o : SaveOutcome) (path : string) (w : World) :
  save_file o path w =
    (match save_error o with Some e => inl e | None => inr tt end,
     mkWorld (match written o with Some data => <[path := data]> (fs w) | None => fs w end)
             (stdout w) (llm_calls w) (image_calls w) (uuid_calls w)).
Proof. reflexivity. Qed.

Lemma exists_lookup (disk : gmap string (list Byte.byte)) (p : string) :
  os.exists_ disk p = true -> exists data, disk !! p = Some data.
Proof.
  unfold os.exists_. intros H. apply bool_decide_eq_true in H. exact H.
Qed.

Lemma lookup_exists (disk : gmap string (list Byte.byte)) (p : string) (data : list Byte.byte) :
  disk !! p = Some data -> os.exists_ disk p = true.
Proof.
  intros H. unfold os.exists_. apply bool_decide_eq_true. rewrite H. eauto.
Qed.

(** One step of a computation: the next [bind], [print], [ret] ... is run
    and the projections of the new state are reduced. *)
Ltac run :=
  repeat (rewrite ?bind_run, ?print_run, ?ret_run, ?gets_run, ?modify_run, ?raise_run,
            ?uuid4_run, ?save_file_run;
          cbv beta iota delta [emit World_console Canvas_console];
          cbn [fs stdout llm_calls image_calls uuid_calls on_slide cv_out slide_no shapes
               fst snd]).

(** ** The image acquirer ([PPTBot.generate_image]) *)

(** A reference is only returned for a file that is on the disk when
    [generate_image] returns. *)
Lemma generate_image_some (E : Env) (prompt : string) (n : Z) (w w' : World) (ref : string) :
  generate_image E prompt n w = (inr (Some ref), w') ->
  exists fname data,
    ref = "images/" +:+ "slide_" +:+ fname /\ fs w' !! ("static/" +:+ ref) = Some data.
Proof.
  unfold generate_image, try_except.
  destruct (client E) as [c |]; [| run; discriminate].
  run. unfold call_text_to_image at 1.
  destruct (text_to_image c _ _ _) as [e | [image |]]; run; try discriminate.
  set (fname := "slide_" +:+ _).
  set (o := image_save E image _).
  destruct (save_error o); run; [discriminate |].
  destruct (os.exists_ _ _) eqn:Hex; run; [| discriminate].
  apply exists_lookup in Hex. destruct Hex as [data Hdata].
  unfold os.getsize. rewrite Hdata. run.
  intros [= <- <-]. eexists _, data. split; [reflexivity |].
  exact Hdata.
Qed.

(** Without an image from the service there is no reference and no
    change on the disk. *)
Lemma generate_image_no_client (E : Env) (prompt : string) (n : Z) (w : World) :
  client E = None ->
  generate_image E prompt n w = (inr None, emit "Image client not available" w).
Proof.
  intros Hc. unfold generate_image, try_except. rewrite Hc. reflexivity.
Qed.

Lemma generate_image_no_image (E : Env) (c : InferenceClient) (prompt : string) (n : Z)
    (w : World) :
  client E = Some c ->
  (forall image, text_to_image c (image_calls w) (enhanced prompt) flux <> inr (Some image)) ->
  exists w', generate_image E prompt n w = (inr None, w') /\ fs w' = fs w.
Proof.
  intros Hc Hno. unfold generate_image, try_except. rewrite Hc.
  run. unfold call_text_to_image at 1. run.
  fold (enhanced prompt). fold flux.
  destruct (text_to_image c (image_calls w) (enhanced prompt) flux) as [e | [image |]] eqn:Hcall.
  - run. eexists; split; reflexivity.
  - exfalso. exact (Hno image eq_refl).
  - run. eexists; split; reflexivity.
Qed.

(** C7. [generate_image] never raises: whatever the environment does, it
    returns. Without a client it returns nothing, reports that the client
    is not available and no error, and leaves the disk as it was; and when
    the service yields no image (it returns nothing, or it raises) it
    returns nothing and leaves the disk as it was. *)
Theorem generate_image_never_raises (E : Env) (prompt : string) (slide_number : Z) (w : World) :
  (exists r w', generate_image E prompt slide_number w = (inr r, w')) /\
  (client E = None ->
     exists w',
       generate_image E prompt slide_number w = (inr None, w') /\ fs w' = fs w /\
       stdout w' = stdout w ++ ["Image client not available"]) /\
  (forall c, client E = Some c ->
     (forall image, text_to_image c (image_calls w) (enhanced prompt) flux <> inr (Some image)) ->
     exists w', generate_image E prompt slide_number w = (inr None, w') /\ fs w' = fs w).
Proof.
  split; [| split].
  - unfold generate_image. rewrite try_except_run.
    match goal with |- context [match ?body w with _ => _ end] =>
      destruct (body w) as [[e | r] w1] end.
    + run. eauto.
    + eauto.
  - intros Hc. rewrite (generate_image_no_client E prompt slide_number w Hc).
    eexists; repeat split; reflexivity.
  - intros c Hc Hno. exact (generate_image_no_image E c prompt slide_number w Hc Hno).
Qed.

Lemma generate_image_never_raises_witness :
  (exists r w',
      generate_image (Sample.painting Sample.png) "sun" 1 Sample.empty_world = (inr r, w')) /\
  (exists w',
      generate_image (Sample.failing None) "sun" 1 Sample.empty_world = (inr None, w') /\
      fs w' = ∅) /\
  (exists w',
      generate_image (Sample.failing (Some Sample.silent_client)) "sun" 1 Sample.empty_world
        = (inr None, w') /\
      fs w' = ∅) /\
  (exists w',
      generate_image (Sample.failing (Some Sample.broken_client)) "sun" 1 Sample.empty_world
        = (inr None, w') /\
      fs w' = ∅).
Proof.
  split; [| split; [| split]].
  - exact (proj1 (generate_image_never_raises (Sample.painting Sample.png) "sun" 1
                    Sample.empty_world)).
  - destruct (proj1 (proj2 (generate_image_never_raises (Sample.failing None) "sun" 1
                              Sample.empty_world)) eq_refl) as (w' & Hrun & Hfs & _).
    exists w'. split; assumption.
  - apply (generate_image_never_raises (Sample.failing (Some Sample.silent_client)) "sun" 1
             Sample.empty_world) with (c := Sample.silent_client);
      [reflexivity | intros image; discriminate].
  - apply (generate_image_never_raises (Sample.failing (Some Sample.broken_client)) "sun" 1
             Sample.empty_world) with (c := Sample.broken_client);
      [reflexivity | intros image; discriminate].
Defined.

(** ** The layout routines *)

Lemma add_shape_request_run (E : Env) (r : ShapeRequest) (c : Canvas) :
  add_shape_request E r c =
    match pptx_fault E (on_slide c) r with
    | Some e => (inl e, c)
    | None =>
        (inr (length (shapes (on_slide c))),
         mkCanvas (mkSlide (slide_no (on_slide c)) (shapes (on_slide c) ++ [new_shape r]))
                  (cv_out c))
    end.
Proof. reflexivity. Qed.

Lemma update_shape_run (h : nat) (f : Shape -> Shape) (c : Canvas) :
  update_shape h f c =
    (inr tt, mkCanvas (mkSlide (slide_no (on_slide c)) (alter f h (shapes (on_slide c))))
                      (cv_out c)).
Proof. reflexivity. Qed.

Lemma alter_last {A : Type} (f : A -> A) (l : list A) (x : A) :
  alter f (length l) (l ++ [x]) = l ++ [f x].
Proof.
  rewrite <- (Nat.add_0_r (length l)) at 1. rewrite alter_app_r. reflexivity.
Qed.

Ltac draw :=
  repeat (run; rewrite ?add_shape_request_run, ?update_shape_run, ?try_except_run, ?alter_last).

(** What [add_image_to_slide] does to a slide: it returns, and the slide
    gains one picture or nothing; a picture only for a file that exists,
    is not empty and verifies. *)
Lemma add_image_to_slide_spec (E : Env) (disk : gmap string (list Byte.byte))
    (ip : option string) (box : Box) (no : nat) (shs : list Shape) (out : list string) :
  exists b pics out',
    add_image_to_slide E disk ip box (mkCanvas (mkSlide no shs) out)
      = (inr b, mkCanvas (mkSlide no (shs ++ pics)) out') /\
    (pics = [] \/
     exists p data,
       ip = Some p /\ pics = [Picture (full_image_path p) box] /\
       disk !! full_image_path p = Some data /\ data <> [] /\ pil_verify E data = None).
Proof.
  unfold add_image_to_slide. rewrite try_except_run.
  destruct ip as [p |].
  2: { draw. exists false, [], (out ++ ["No image path provided"])%list.
       rewrite app_nil_r. auto. }
  destruct (String.eqb p EmptyString).
  { draw. eexists false, [], _. rewrite app_nil_r. split; [reflexivity | auto]. }
  cbv zeta.
  destruct (os.exists_ disk (full_image_path p)) eqn:Hex; cbn [negb].
  2: { draw. eexists false, [], _. rewrite app_nil_r. split; [reflexivity | auto]. }
  apply exists_lookup in Hex. destruct Hex as [data Hdata].
  unfold os.getsize. rewrite Hdata. draw.
  destruct (Z.of_nat (length data) =? 0)%Z eqn:Hsize.
  { draw. eexists false, [], _. rewrite app_nil_r. split; [reflexivity | auto]. }
  cbn [default from_option id].
  destruct (pil_verify E data) as [img_error |] eqn:Hverify.
  { draw. eexists false, [], _. rewrite app_nil_r. split; [reflexivity | auto]. }
  draw.
  destruct (pptx_fault E _ _) as [e |].
  { draw. eexists false, [], _. rewrite app_nil_r. split; [reflexivity | auto]. }
  draw. eexists true, _, _. split; [reflexivity |].
  right. exists p, data. repeat split; try assumption.
  intros ->. simpl in Hsize. discriminate.
Qed.

Lemma place_image_spec (E : Env) (disk : gmap string (list Byte.byte))
    (ip : option string) (box : Box) (no : nat) (shs : list Shape) (out : list string) :
  exists pics out',
    (if path_given ip
     then (let* _ := add_image_to_slide E disk ip box in ret tt)
     else ret tt) (mkCanvas (mkSlide no shs) out)
      = (inr tt, mkCanvas (mkSlide no (shs ++ pics)) out') /\
    (pics = [] \/
     exists p data,
       ip = Some p /\ pics = [Picture (full_image_path p) box] /\
       disk !! full_image_path p = Some data /\ data <> [] /\ pil_verify E data = None).
Proof.
  destruct (path_given ip).
  - destruct (add_image_to_slide_spec E disk ip box no shs out) as (b & pics & out' & Hrun & Hp).
    exists pics, out'. split; [| exact Hp].
    rewrite bind_run, Hrun. reflexivity.
  - exists [], out. rewrite app_nil_r. split; [reflexivity | auto].
Qed.

Ltac place :=
  match goal with
  | |- context [(if path_given ?ip
                 then (bind (add_image_to_slide ?E ?disk ?ip ?box) _)
                 else _) (mkCanvas (mkSlide ?no ?shs) ?out)] =>
      let pics := fresh "pics" in
      let out' := fresh "out" in
      let Hrun := fresh "Hrun" in
      let Hp := fresh "Hpics" in
      destruct (place_image_spec E disk ip box no shs out) as (pics & out' & Hrun & Hp);
      rewrite Hrun; clear Hrun
  end.

Ltac request :=
  match goal with
  | |- context [pptx_fault ?E ?s ?r] =>
      let e := fresh "e" in
      let Hf := fresh "Hfault" in
      destruct (pptx_fault E s r) as [e |] eqn:Hf
  end.

(** Cutting a value of the record changes nothing on the slide; text is
    cut after [n] characters. *)
Lemma py_shortened_frame (n : nat) (v : PyVal) (c : Canvas) :
  exists r, py_shortened n v c = (r, c).
Proof.
  unfold py_shortened, py_len, py_shorten.
  destruct v; run; try (eexists; reflexivity);
    match goal with |- context [(?a <? ?b)%Z] => destruct (a <? b)%Z end;
    run; eexists; reflexivity.
Qed.

Lemma py_shortened_text (n : nat) (text : string) (c : Canvas) :
  py_shortened n (PyStr text) c = (inr (PyStr (shortened n text)), c).
Proof.
  unfold py_shortened, py_len, py_shorten, shortened. run.
  destruct (Nat.ltb_spec n (len text)) as [Hlt | Hge].
  - assert (Hz : (Z.of_nat n <? Z.of_nat (len text))%Z = true) by (apply Z.ltb_lt; lia).
    rewrite Hz. reflexivity.
  - assert (Hz : (Z.of_nat n <? Z.of_nat (len text))%Z = false) by (apply Z.ltb_ge; lia).
    rewrite Hz. reflexivity.
Qed.

(** Setting the text of the shape that was added last. *)
Lemma assign_text_last (v : PyVal) (no : nat) (shs : list Shape) (x : Shape)
    (out : list string) :
  assign_text (length shs) v (mkCanvas (mkSlide no (shs ++ [x])) out) =
    match v with
    | PyStr text => (inr tt, mkCanvas (mkSlide no (shs ++ [set_text text x])) out)
    | _ => (inl (no_attribute v "split"), mkCanvas (mkSlide no (shs ++ [clear_content x])) out)
    end.
Proof.
  unfold assign_text. destruct v; draw; reflexivity.
Qed.

Ltac shorten :=
  match goal with
  | |- context [py_shortened ?n ?v ?c] =>
      let r := fresh "r" in
      let Hr := fresh "Hshort" in
      destruct (py_shortened_frame n v c) as [r Hr]; rewrite Hr; clear Hr;
      destruct r as [? | ?]
  end.

Ltac assign :=
  rewrite assign_text_last;
  match goal with
  | |- context [match ?v with PyNone => _ | _ => _ end] => destruct v
  end.

Lemma valid_pics (E : Env) (disk : gmap string (list Byte.byte)) (ip : option string)
    (box : Box) (pics : list Shape) :
  (pics = [] \/
   exists p data,
     ip = Some p /\ pics = [Picture (full_image_path p) box] /\
     disk !! full_image_path p = Some data /\ data <> [] /\ pil_verify E data = None) ->
  Forall (valid_picture E disk) pics /\ (length (pictures pics) <= 1)%nat.
Proof.
  intros [-> | (p & data & _ & -> & Hd & Hne & Hv)].
  - split; [constructor | cbn; lia].
  - split; [| cbn; lia]. constructor; [| constructor]. cbn. eauto.
Qed.

Ltac settle Hpics :=
  eexists _, _, _;
  (split; [rewrite <- ?app_assoc; reflexivity |]);
  let Hvalid := fresh "Hvalid" in
  let Hcount := fresh "Hcount" in
  destruct (valid_pics _ _ _ _ _ Hpics) as [Hvalid Hcount];
  unfold pictures in *;
  rewrite ?Forall_app, ?List.filter_app, ?length_app;
  cbn [List.filter is_picture new_shape set_text clear_content format_first format_all
       set_word_wrap set_fill negb length app Nat.add];
  (split; [repeat split; try exact Hvalid; repeat constructor | lia]).

Ltac settle_plain :=
  eexists _, (@nil Shape), _;
  (split; [rewrite app_nil_r; reflexivity |]);
  split; [constructor | cbn; lia].

Ltac settle_box :=
  eexists _, [_], _;
  (split; [reflexivity |]);
  split; [repeat constructor | cbn; lia].

(** Whatever a layout routine does, it only adds shapes to the slide; the
    shapes it adds hold at most one picture, and only of a usable file. *)
Lemma run_layout_pictures (E : Env) (r : LayoutRoutine) (disk : gmap string (list Byte.byte))
    (sd : SlideData) (no : nat) (shs : list Shape) (out : list string) :
  exists res added out',
    run_layout E r disk sd (mkCanvas (mkSlide no shs) out)
      = (res, mkCanvas (mkSlide no (shs ++ added)) out') /\
    Forall (valid_picture E disk) added /\
    (length (pictures added) <= 1)%nat.
Proof.
  destruct r; unfold run_layout, add_default_slide.
  - unfold add_title_slide_content. draw.
    request; [settle_plain |].
    draw. shorten; [draw; settle_box |].
    draw. assign; draw; try settle_box.
    place. settle Hpics.
  - unfold add_content_slide. draw.
    request; [settle_plain |].
    draw. assign; draw; try settle_box.
    place. settle Hpics.
  - unfold add_image_focus_slide. draw. place. draw.
    request; [settle Hpics |].
    draw. shorten; [draw; settle Hpics |].
    draw. assign; draw; settle Hpics.
  - unfold add_conclusion_slide. draw.
    request; [settle_plain |].
    draw. assign; draw; try settle_box.
    place. draw.
    request; draw; settle Hpics.
  - unfold add_content_slide. draw.
    request; [settle_plain |].
    draw. assign; draw; try settle_box.
    place. settle Hpics.
Qed.

Lemma pictures_of_pics (E : Env) (disk : gmap string (list Byte.byte)) (ip : option string)
    (box : Box) (pics : list Shape) :
  (pics = [] \/
   exists p data,
     ip = Some p /\ pics = [Picture (full_image_path p) box] /\
     disk !! full_image_path p = Some data /\ data <> [] /\ pil_verify E data = None) ->
  non_pictures pics = [].
Proof.
  intros [-> | (p & data & _ & -> & _)]; reflexivity.
Qed.

(** The paragraphs of a text box that has got its text and its format. *)
Lemma format_first_text (f : Paragraph -> Paragraph) (text : string) (box : Box) :
  format_first f (set_text text (new_shape (AddTextbox box)))
    = TextBox box (first_styled (fun line => f (plain line)) text) None.
Proof.
  cbn [new_shape set_text format_first]. unfold first_styled.
  destruct (split text nl) as [| line lines]; reflexivity.
Qed.

Lemma format_all_text (f : Paragraph -> Paragraph) (text : string) (box : Box)
    (ww : option bool) :
  format_all f (set_text text (TextBox box [empty_paragraph] ww))
    = TextBox box (all_styled (fun line => f (plain line)) text) ww.
Proof.
  cbn [set_text format_all]. unfold all_styled. rewrite List.map_map. reflexivity.
Qed.

Lemma rendering_no_picture (r : LayoutRoutine) (text : string) :
  pictures (rendering r text) = [] /\ non_pictures (rendering r text) = rendering r text.
Proof. destruct r; split; reflexivity. Qed.

(** The routines draw what [rendering] lists, and a picture before,
    between or after when there is a usable image. *)
Lemma run_layout_rendering (E : Env) (r : LayoutRoutine) (disk : gmap string (list Byte.byte))
    (sd : SlideData) (text : string) (no : nat) (shs : list Shape) (out : list string) :
  content sd = PyStr text ->
  (forall s q, pptx_fault E s q = None) ->
  exists before after out',
    run_layout E r disk sd (mkCanvas (mkSlide no shs) out)
      = (inr tt, mkCanvas (mkSlide no (shs ++ before ++ after)) out') /\
    non_pictures (before ++ after) = rendering r text /\
    (path_given (image_path sd) = false ->
     before ++ after = rendering r text /\ out' = out).
Proof.
  intros Htext Hnf.
  assert (Hplace : forall ip box no0 shs0 out0,
            exists pics out1,
              (if path_given ip
               then (let* _ := add_image_to_slide E disk ip box in ret tt)
               else ret tt) (mkCanvas (mkSlide no0 shs0) out0)
                = (inr tt, mkCanvas (mkSlide no0 (shs0 ++ pics)) out1) /\
              non_pictures pics = [] /\
              (path_given ip = false -> pics = [] /\ out1 = out0)).
  { intros ip box no0 shs0 out0.
    destruct (place_image_spec E disk ip box no0 shs0 out0) as (pics & out1 & Hrun & Hpics).
    destruct (path_given ip) eqn:Hgiven.
    - exists pics, out1. split; [exact Hrun |].
      split; [exact (pictures_of_pics E disk ip box pics Hpics) | discriminate].
    - exists [], out0. rewrite app_nil_r. split; [reflexivity |]. split; [reflexivity | auto]. }
  destruct r; unfold run_layout, add_default_slide, add_title_slide_content,
    add_content_slide, add_image_focus_slide, add_conclusion_slide; rewrite Htext.
  - draw. rewrite Hnf. draw. rewrite py_shortened_text. draw.
    rewrite assign_text_last. draw. rewrite format_first_text.
    match goal with |- context [(if path_given ?ip then _ else _) (mkCanvas (mkSlide ?n ?l) ?o)] =>
      destruct (Hplace ip (mkBox (Inches 6) (Inches 4) (Inches 4) (Inches 3)) n l o)
        as (pics & out1 & Hrun & Hnone & Hempty); rewrite Hrun end.
    eexists [_], pics, out1. rewrite <- app_assoc. split; [reflexivity |].
    split.
    + unfold non_pictures in *. rewrite List.filter_app, Hnone. reflexivity.
    + intros Hgiven. destruct (Hempty Hgiven) as [-> ->]. split; reflexivity.
  - draw. rewrite Hnf. draw. rewrite assign_text_last. draw.
    change (set_word_wrap true (set_text text (new_shape (AddTextbox ?b))))
      with (set_text text (TextBox b [empty_paragraph] (Some true))).
    cbn [new_shape set_text set_word_wrap].
    match goal with |- context [(if path_given ?ip then _ else _) (mkCanvas (mkSlide ?n ?l) ?o)] =>
      destruct (Hplace ip (mkBox (Inches 8.5) (Inches 2) (Inches 6.5) (Inches 5)) n l o)
        as (pics & out1 & Hrun & Hnone & Hempty); rewrite Hrun end.
    eexists [_], pics, out1. rewrite <- app_assoc. split; [reflexivity |].
    split.
    + unfold non_pictures in *. rewrite List.filter_app, Hnone.
      cbn [format_all]. unfold rendering, all_styled. rewrite List.map_map. reflexivity.
    + intros Hgiven. destruct (Hempty Hgiven) as [-> ->].
      cbn [format_all]. unfold rendering, all_styled. rewrite List.map_map.
      split; reflexivity.
  - match goal with |- context [(if path_given ?ip then _ else _)] =>
      destruct (Hplace ip (mkBox (Inches 2) (Inches 2) (Inches 12) (Inches 6)) no shs out)
        as (pics & out1 & Hrun & Hnone & Hempty) end.
    rewrite bind_run, Hrun. draw. rewrite Hnf. draw. rewrite py_shortened_text. draw.
    rewrite assign_text_last. draw. rewrite format_first_text.
    eexists pics, [_], out1. rewrite <- app_assoc. split; [reflexivity |].
    split.
    + unfold non_pictures in *. rewrite List.filter_app, Hnone. reflexivity.
    + intros Hgiven. destruct (Hempty Hgiven) as [-> ->]. split; reflexivity.
  - draw. rewrite Hnf. draw. rewrite assign_text_last. draw.
    cbn [new_shape set_text format_all]. rewrite List.map_map.
    match goal with |- context [(if path_given ?ip then _ else _) (mkCanvas (mkSlide ?n ?l) ?o)] =>
      destruct (Hplace ip (mkBox (Inches 6) (Inches 6.5) (Inches 4) (Inches 2)) n l o)
        as (pics & out1 & Hrun & Hnone & Hempty); rewrite Hrun end.
    draw. rewrite Hnf. draw. rewrite <- !app_assoc.
    eexists [_], (pics ++ [_]), out1. split; [reflexivity |].
    split.
    + unfold non_pictures in *. rewrite !List.filter_app, Hnone. reflexivity.
    + intros Hgiven. destruct (Hempty Hgiven) as [-> ->]. split; reflexivity.
  - draw. rewrite Hnf. draw. rewrite assign_text_last. draw.
    cbn [new_shape set_text set_word_wrap format_all]. rewrite List.map_map.
    match goal with |- context [(if path_given ?ip then _ else _) (mkCanvas (mkSlide ?n ?l) ?o)] =>
      destruct (Hplace ip (mkBox (Inches 8.5) (Inches 2) (Inches 6.5) (Inches 5)) n l o)
        as (pics & out1 & Hrun & Hnone & Hempty); rewrite Hrun end.
    eexists [_], pics, out1. rewrite <- app_assoc. split; [reflexivity |].
    split.
    + unfold non_pictures in *. rewrite List.filter_app, Hnone. reflexivity.
    + intros Hgiven. destruct (Hempty Hgiven) as [-> ->]. split; reflexivity.
Qed.

(** C8. For a slide record without an image reference whose content is
    text, each of the five layout routines returns without raising when
    the library draws what it is asked to, and prints nothing. It renders
    the elements of its layout and no picture: the slide gains exactly
    the shapes of [rendering], that is the subtitle (the content cut
    after 100 characters, 24 pt, grey, centred), the body (the content,
    16 pt, wrapped), the caption (the content cut after 150 characters,
    14 pt, italic, centred) or the closing text (20 pt, blue, centred)
    with the blue rounded rectangle. These are also exactly the shapes
    other than pictures that the routine draws for the same record with
    an image reference. *)
Theorem layout_without_image (E : Env) (r : LayoutRoutine)
    (disk : gmap string (list Byte.byte)) (sd : SlideData) (text : string) (c : Canvas) :
  path_given (image_path sd) = false ->
  content sd = PyStr text ->
  (forall s q, pptx_fault E s q = None) ->
  run_layout E r disk sd c
    = (inr tt, mkCanvas (mkSlide (slide_no (on_slide c))
                                 (shapes (on_slide c) ++ rendering r text))
                        (cv_out c)) /\
  pictures (rendering r text) = [] /\
  forall ip, exists c1,
    run_layout E r disk (with_image sd ip) c = (inr tt, c1) /\
    non_pictures (shapes (on_slide c1))
      = non_pictures (shapes (on_slide c)) ++ rendering r text.
Proof.
  intros Hnone Htext Hnf.
  destruct c as [[no shs] out]. cbn [on_slide slide_no shapes cv_out].
  split; [| split].
  - destruct (run_layout_rendering E r disk sd text no shs out Htext Hnf)
      as (before & after & out' & Hrun & _ & Hplain).
    destruct (Hplain Hnone) as [Hshapes ->]. rewrite Hrun, Hshapes. reflexivity.
  - apply rendering_no_picture.
  - intros ip.
    destruct (run_layout_rendering E r disk (with_image sd ip) text no shs out Htext Hnf)
      as (before & after & out' & Hrun & Hshapes & _).
    eexists. split; [exact Hrun |].
    cbn [on_slide shapes]. unfold non_pictures in *.
    rewrite List.filter_app, Hshapes. reflexivity.
Qed.

Lemma layout_without_image_witness :
  run_layout (Sample.failing None) ConclusionLayout ∅ Sample.closing
             (mkCanvas (mkSlide 0 []) [])
    = (inr tt,
       mkCanvas
         (mkSlide 0
            [TextBox (mkBox (Inches 2) (Inches 2.5) (Inches 12) (Inches 4))
                     [mkParagraph "Thank you."
                                  (mkFont (Some 20%Z) None None (Some (RGB 31 78 121)))
                                  (Some PP_ALIGN_CENTER)]
                     None;
             AutoShape ROUNDED_RECTANGLE (mkBox (Inches 7) (Inches 7) (Inches 2) (Inches 0.5))
                       (Some (RGB 31 78 121))])
         []) /\
  run_layout (Sample.failing None) TitleLayout ∅ Sample.opening
             (mkCanvas (mkSlide 0 []) [])
    = (inr tt,
       mkCanvas
         (mkSlide 0
            [TextBox (mkBox (Inches 2) (Inches 2.5) (Inches 12) (Inches 1))
                     [mkParagraph "Energy from the sun."
                                  (mkFont (Some 24%Z) None None (Some (RGB 89 89 89)))
                                  (Some PP_ALIGN_CENTER)]
                     None])
         []).
Proof.
  split.
  - exact (proj1 (layout_without_image (Sample.failing None) ConclusionLayout ∅ Sample.closing
                    "Thank you." (mkCanvas (mkSlide 0 []) []) eq_refl eq_refl
                    (fun _ _ => eq_refl))).
  - exact (proj1 (layout_without_image (Sample.failing None) TitleLayout ∅ Sample.opening
                    "Energy from the sun." (mkCanvas (mkSlide 0 []) []) eq_refl eq_refl
                    (fun _ _ => eq_refl))).
Defined.

(** ** What an image reference guarantees *)

(** C4, as a counterexample. A service image that is saved as a file of
    zero bytes is returned as a reference all the same. *)
Lemma zero_byte_image_is_returned :
  ~ (forall (E : Env) (prompt : string) (n : Z) (w w' : World) (ref : string),
        generate_image E prompt n w = (inr (Some ref), w') ->
        exists data,
          fs w' !! ("static/" +:+ ref) = Some data /\ data <> [] /\ pil_verify E data = None).
Proof.
  intros Hclaim.
  pose (run := generate_image (Sample.painting []) "sun" 1 Sample.empty_world).
  assert (Hrun : run = (inr (Some "images/slide_1_01234567.png"), run.2)).
  { assert (Hres : run.1 = inr (Some "images/slide_1_01234567.png"))
      by (vm_compute; reflexivity).
    rewrite <- Hres. apply surjective_pairing. }
  destruct (Hclaim (Sample.painting []) "sun" 1%Z Sample.empty_world run.2
              "images/slide_1_01234567.png" Hrun) as (data & Hfile & Hne & _).
  vm_compute in Hfile. injection Hfile as <-. exact (Hne eq_refl).
Qed.

(** C4, amended. A reference that [generate_image] returns names a file
    that is on the disk when it returns. Its size and its content are not
    examined there: [add_image_to_slide] examines them when the image is
    placed, and puts the picture on the slide only if the file exists, is
    not empty and verifies as an image; it never raises. *)
Theorem image_reference_guarantee
    (E : Env) (prompt : string) (n : Z) (w w' : World) (ref : string) :
  generate_image E prompt n w = (inr (Some ref), w') ->
  is_Some (fs w' !! ("static/" +:+ ref)) /\
  forall (disk : gmap string (list Byte.byte)) (box : Box) (c : Canvas),
    exists b c',
      add_image_to_slide E disk (Some ref) box c = (inr b, c') /\
      (shapes (on_slide c') = shapes (on_slide c) \/
       (shapes (on_slide c') = shapes (on_slide c) ++ [Picture ("static/" +:+ ref) box] /\
        exists data,
          disk !! ("static/" +:+ ref) = Some data /\ data <> [] /\ pil_verify E data = None)).
Proof.
  intros Hrun.
  destruct (generate_image_some E prompt n w w' ref Hrun) as (fname & data & -> & Hfile).
  split; [rewrite Hfile; eauto |].
  intros disk box [[no shs] out].
  destruct (add_image_to_slide_spec E disk (Some ("images/" +:+ "slide_" +:+ fname)) box
              no shs out) as (b & pics & out' & Hadd & Hpics).
  exists b. eexists. split; [exact Hadd |].
  cbn [on_slide shapes].
  destruct Hpics as [-> | (p & data' & [= <-] & -> & Hd & Hne & Hv)].
  - left. apply app_nil_r.
  - right. split; [reflexivity |]. exists data'. auto.
Qed.

Lemma image_reference_guarantee_witness :
  exists w',
    generate_image (Sample.painting Sample.png) "sun" 1 Sample.empty_world
      = (inr (Some "images/slide_1_01234567.png"), w') /\
    is_Some (fs w' !! "static/images/slide_1_01234567.png").
Proof.
  pose (run := generate_image (Sample.painting Sample.png) "sun" 1 Sample.empty_world).
  assert (Hrun : run = (inr (Some "images/slide_1_01234567.png"), run.2)).
  { assert (Hres : run.1 = inr (Some "images/slide_1_01234567.png"))
      by (vm_compute; reflexivity).
    rewrite <- Hres. apply surjective_pairing. }
  exists run.2. split; [exact Hrun |].
  exact (proj1 (image_reference_guarantee (Sample.painting Sample.png) "sun" 1%Z
                  Sample.empty_world run.2 "images/slide_1_01234567.png" Hrun)).
Defined.

(** ** The choice of the layout routine *)

Lemma is_str_true (s : string) (v : PyVal) : is_str s v = true <-> v = PyStr s.
Proof.
  destruct v; simpl; try (split; [discriminate | intros [=]]).
  rewrite String.eqb_eq. split; [intros -> | intros [=]]; congruence.
Qed.

Lemma is_str_false (s : string) (v : PyVal) : is_str s v = false -> v <> PyStr s.
Proof.
  intros Hf Heq. apply is_str_true in Heq. congruence.
Qed.

(** C9. The inner [try] of the loop runs exactly one of the five layout
    routines on the slide, chosen by the layout kind of the record:
    [add_title_slide_content] for [title], [add_content_slide] for
    [content], [add_image_focus_slide] for [image_focus],
    [add_conclusion_slide] for [conclusion], and [add_default_slide] for
    every other value. The default routine is the content routine, so a
    slide of another kind is drawn exactly as the same record of kind
    [content]. *)
Theorem layout_dispatch (E : Env) (disk : gmap string (list Byte.byte))
    (total i : nat) (sd : SlideData) :
  add_default_slide E disk sd = add_content_slide E disk sd /\
  ((design_type sd = PyStr "title" /\
    add_content E disk i sd = guarded i (add_title_slide_content E disk sd)) \/
   (design_type sd = PyStr "content" /\
    add_content E disk i sd = guarded i (add_content_slide E disk sd)) \/
   (design_type sd = PyStr "image_focus" /\
    add_content E disk i sd = guarded i (add_image_focus_slide E disk sd)) \/
   (design_type sd = PyStr "conclusion" /\
    add_content E disk i sd = guarded i (add_conclusion_slide E disk sd)) \/
   ((design_type sd ∉ [PyStr "title"; PyStr "content"; PyStr "image_focus"; PyStr "conclusion"]) /\
    add_content E disk i sd = guarded i (add_default_slide E disk sd) /\
    add_content E disk i sd = guarded i (add_content_slide E disk sd) /\
    create_slide E disk total i sd = create_slide E disk total i (as_content sd))).
Proof.
  split; [reflexivity |].
  unfold add_content, guarded, select_layout.
  destruct (is_str "title" (design_type sd)) eqn:H1;
    [left; split; [apply is_str_true; exact H1 | reflexivity] | right].
  destruct (is_str "content" (design_type sd)) eqn:H2;
    [left; split; [apply is_str_true; exact H2 | reflexivity] | right].
  destruct (is_str "image_focus" (design_type sd)) eqn:H3;
    [left; split; [apply is_str_true; exact H3 | reflexivity] | right].
  destruct (is_str "conclusion" (design_type sd)) eqn:H4;
    [left; split; [apply is_str_true; exact H4 | reflexivity] | right].
  split.
  { apply is_str_false in H1, H2, H3, H4.
    rewrite !elem_of_cons, elem_of_nil. tauto. }
  split; [reflexivity |]. split; [reflexivity |].
  unfold create_slide, add_content, select_layout. rewrite H1, H2, H3, H4.
  reflexivity.
Qed.

(** ** The document assembler ([PPTBot.create_powerpoint]) *)

Lemma prefix_slash (c : ascii) (s : string) :
  c <> "/"%char -> String.prefix "/" (String c s) = false.
Proof.
  intros Hc. change (String.prefix "/" (String c s))
    with (if ascii_dec "/" c then String.prefix EmptyString s else false).
  destruct (ascii_dec "/" c); [congruence | reflexivity].
Qed.

Lemma ppt_filename_relative (topic hex : string) : os.isabs (ppt_filename topic hex) = false.
Proof.
  unfold os.isabs, ppt_filename.
  destruct topic as [| a topic]; [reflexivity |].
  cbn [replace_char append].
  destruct (Ascii.eqb a " "); [reflexivity |].
  destruct (Ascii.eqb a "/") eqn:Ha; [reflexivity |].
  apply Ascii.eqb_neq in Ha.
  apply prefix_slash. exact Ha.
Qed.

Lemma ppt_path_is (topic hex : string) :
  os.join PPT_FOLDER (ppt_filename topic hex)
    = "static/" +:+ "presentations/" +:+ ppt_filename topic hex.
Proof.
  unfold os.join. rewrite ppt_filename_relative. reflexivity.
Qed.

(** One slide: with a title that is text and a title box that the
    library grants, the body of the loop returns, whatever the layout
    routine does. *)
Lemma create_slide_run (E : Env) (disk : gmap string (list Byte.byte)) (total i : nat)
    (sd : SlideData) (text : string) :
  title sd = PyStr text ->
  pptx_fault E (mkSlide i []) (AddTextbox title_box) = None ->
  exists c,
    create_slide E disk total i sd (mkCanvas (mkSlide i []) []) = (inr tt, c) /\
    drawn_from E disk i sd (cv_out c) (on_slide c).
Proof.
  intros Htitle Hbox.
  unfold create_slide, add_title, assign_text. rewrite Htitle.
  draw. rewrite Hbox. draw. cbn [app length].
  change (alter (set_text text) 0%nat [new_shape (AddTextbox title_box)])
    with [set_text text (new_shape (AddTextbox title_box))].
  cbn [alter list_alter]. fold (drawn_title text).
  unfold add_content. rewrite try_except_run, bind_run.
  match goal with |- context [run_layout E ?r disk sd (mkCanvas (mkSlide i ?shs) ?out)] =>
    destruct (run_layout_pictures E r disk sd i shs out) as (res & added & out1 & Hrun & _);
    rewrite Hrun
  end.
  destruct res as [e | []].
  - draw. eexists; split; [reflexivity |].
    cbn [on_slide cv_out]. exists text, added, (inl e). do 2 eexists.
    split; [exact Htitle |]. split; [reflexivity |]. split; [exact Hrun |].
    apply elem_of_app; right; apply list_elem_of_singleton; reflexivity.
  - draw. eexists; split; [reflexivity |].
    cbn [on_slide cv_out]. exists text, added, (inr tt). do 2 eexists.
    split; [exact Htitle |]. split; [reflexivity |]. split; [exact Hrun |].
    apply elem_of_app; right; apply list_elem_of_singleton; reflexivity.
Qed.

Lemma drawn_from_log (E : Env) (disk : gmap string (list Byte.byte)) (i : nat)
    (sd : SlideData) (log before after : list string) (slide : Slide) :
  drawn_from E disk i sd log slide -> drawn_from E disk i sd (before ++ log ++ after) slide.
Proof.
  intros (text & added & res & out0 & out1 & Ht & Hs & Hrun & Hlog).
  exists text, added, res, out0, out1. repeat (split; [assumption |]).
  apply elem_of_app. right. apply elem_of_app. left. exact Hlog.
Qed.

(** The loop: every record becomes a slide, in order, whether its layout
    routine raised or not; the disk and the counters stay as they were. *)
Lemma add_slides_run (E : Env) (total : nat) (slides_data : list SlideData) :
  forall (i : nat) (prs : Presentation) (w : World),
    (forall sd, sd ∈ slides_data -> exists text, title sd = PyStr text) ->
    (forall k, pptx_fault E (mkSlide k []) (AddTextbox title_box) = None) ->
    exists drawn log,
      add_slides E total i slides_data prs w
        = (inr (mkPresentation (slide_width prs) (slide_height prs) (slides prs ++ drawn)),
           mkWorld (fs w) (stdout w ++ log) (llm_calls w) (image_calls w) (uuid_calls w)) /\
      length drawn = length slides_data /\
      forall j sd, slides_data !! j = Some sd ->
        exists slide, drawn !! j = Some slide /\ drawn_from E (fs w) (i + j) sd log slide.
Proof.
  induction slides_data as [| sd rest IH]; intros i prs w Htitles Hbox.
  - exists [], []. cbn [add_slides]. rewrite ret_run, !app_nil_r.
    destruct prs, w. split; [reflexivity |]. split; [reflexivity |].
    intros j sd Hj. rewrite lookup_nil in Hj. discriminate.
  - destruct (Htitles sd) as [text Htext]; [apply elem_of_cons; auto |].
    destruct (create_slide_run E (fs w) total i sd text Htext (Hbox i)) as (c & Hc & Hdrawn).
    cbn [add_slides]. rewrite bind_run. unfold on_canvas at 1. rewrite Hc.
    cbv beta iota. cbn [snd].
    set (w1 := mkWorld (fs w) (stdout w ++ cv_out c) (llm_calls w) (image_calls w)
                       (uuid_calls w)).
    destruct (IH (S i) (with_slide prs (on_slide c)) w1) as (drawn & log & Hrest & Hlen & Hall).
    { intros sd' Hin. apply Htitles. apply elem_of_cons. auto. }
    { exact Hbox. }
    exists (on_slide c :: drawn), (cv_out c ++ log).
    rewrite Hrest. unfold with_slide, w1.
    cbn [slide_width slide_height slides fs stdout llm_calls image_calls uuid_calls].
    rewrite <- !app_assoc. split; [reflexivity |].
    split; [cbn [length]; rewrite Hlen; reflexivity |].
    intros [| j] sd' Hj.
    + cbn in Hj. injection Hj as <-. exists (on_slide c). split; [reflexivity |].
      rewrite Nat.add_0_r.
      pose proof (drawn_from_log E (fs w) i sd (cv_out c) [] log (on_slide c) Hdrawn) as H.
      exact H.
    + cbn in Hj. destruct (Hall j sd' Hj) as (slide & Hslide & Hfrom).
      exists slide. split; [exact Hslide |].
      replace (i + S j)%nat with (S i + j)%nat by lia.
      pose proof (drawn_from_log E (fs w) (S i + j) sd' log (cv_out c) [] slide Hfrom) as H.
      rewrite app_nil_r in H. exact H.
Qed.

(** With titles that are text, title boxes that the library grants and a
    [save] that writes the file, [create_powerpoint] returns the reference
    of the saved document, which holds one slide per record. *)
Lemma create_powerpoint_run (E : Env) (slides_data : list SlideData) (topic : string)
    (w : World) :
  (forall sd, sd ∈ slides_data -> exists text, title sd = PyStr text) ->
  (forall k, pptx_fault E (mkSlide k []) (AddTextbox title_box) = None) ->
  (forall prs path, exists data, prs_save E prs path = mkSave (Some data) None) ->
  exists prs data log,
    let ref := "presentations/" +:+ ppt_filename topic (uuid4_hex E (uuid_calls w)) in
    create_powerpoint E slides_data topic w
      = (inr (Some ref),
         mkWorld (<["static/" +:+ ref := data]> (fs w)) (stdout w ++ log)
                 (llm_calls w) (image_calls w) (S (uuid_calls w))) /\
    (add_slides E (length slides_data) 0 slides_data
                (mkPresentation (Inches 16) (Inches 9) []) w).1 = inr prs /\
    prs_save E prs ("static/" +:+ ref) = mkSave (Some data) None /\
    length (slides prs) = length slides_data /\
    forall j sd, slides_data !! j = Some sd ->
      exists slide, slides prs !! j = Some slide /\ drawn_from E (fs w) j sd log slide.
Proof.
  intros Htitles Hbox Hsave.
  destruct (add_slides_run E (length slides_data) slides_data 0
              (mkPresentation (Inches 16) (Inches 9) []) w Htitles Hbox)
    as (drawn & log & Hloop & Hlen & Hall).
  cbn [slide_width slide_height slides app] in Hloop.
  set (prs := mkPresentation (Inches 16) (Inches 9) drawn) in *.
  set (ref := "presentations/" +:+ ppt_filename topic (uuid4_hex E (uuid_calls w))).
  destruct (Hsave prs ("static/" +:+ ref)) as [data Hdata].
  exists prs, data. eexists. cbv zeta. fold ref.
  split; [| split; [rewrite Hloop; reflexivity | split; [exact Hdata | split; [exact Hlen |]]]].
  - unfold create_powerpoint. rewrite try_except_run, bind_run, Hloop.
    run. rewrite ppt_path_is. fold ref. rewrite Hdata. cbn [save_error written].
    run. rewrite (lookup_exists _ _ data) by apply lookup_insert_eq.
    unfold os.getsize. rewrite lookup_insert_eq. run.
    rewrite <- app_assoc. reflexivity.
  - intros j sd Hj. destruct (Hall j sd Hj) as (slide & Hslide & Hfrom).
    exists slide. split; [exact Hslide |].
    cbn [Nat.add] in Hfrom.
    exact (drawn_from_log E (fs w) j sd log [] _ slide Hfrom).
Qed.

(** C6, as a counterexample. One [image_focus] record whose image is a
    PNG file on the disk, and a library that refuses the text box of the
    caption: the layout routine raises after it has placed the picture,
    the document is saved, and the failed slide holds its title and the
    picture, not its title alone. *)
Lemma failed_slide_keeps_its_picture :
  let E := Sample.caption_fails in
  let w := mkWorld Sample.disk [] 0 0 0 in
  (exists e c,
      run_layout E (select_layout (design_type Sample.photo)) (fs w) Sample.photo
                 (mkCanvas (mkSlide 0 [drawn_title "Panels"]) []) = (inl e, c)) /\
  (exists prs w1,
      add_slides E 1 0 [Sample.photo] (mkPresentation (Inches 16) (Inches 9) []) w
        = (inr prs, w1) /\
      map shapes (slides prs) =
        [[drawn_title "Panels";
          Picture "static/images/roof.png"
                  (mkBox (Inches 2) (Inches 2) (Inches 12) (Inches 6))]] /\
      map shapes (slides prs) <> [[drawn_title "Panels"]]) /\
  (create_powerpoint E [Sample.photo] "Solar" w).1
    = inr (Some "presentations/Solar_01234567.pptx").
Proof.
  cbv zeta. split; [| split].
  - do 2 eexists. vm_compute. reflexivity.
  - do 2 eexists. split; [vm_compute; reflexivity |].
    split; [vm_compute; reflexivity | vm_compute; discriminate].
  - vm_compute. reflexivity.
Qed.

(** C6, amended. When the titles of the records are text, the library
    grants the title boxes and [save] writes the file, [create_powerpoint]
    returns the reference of the saved document whatever the layout
    routines do. The document is the presentation [prs] that the loop has
    built and [save] has written; it holds one slide per record, in
    order. Each slide starts with its title and continues with what its
    layout routine had added when it returned or raised: nothing is taken
    back from a slide whose routine raised, and the failure is reported
    on the console. *)
Theorem create_powerpoint_isolates_failures
    (E : Env) (slides_data : list SlideData) (topic : string) (w : World) :
  (forall sd, sd ∈ slides_data -> exists text, title sd = PyStr text) ->
  (forall k, pptx_fault E (mkSlide k []) (AddTextbox title_box) = None) ->
  (forall prs path, exists data, prs_save E prs path = mkSave (Some data) None) ->
  exists (prs : Presentation) (data : list Byte.byte) (ref : string) (w' : World),
    create_powerpoint E slides_data topic w = (inr (Some ref), w') /\
    (add_slides E (length slides_data) 0 slides_data
                (mkPresentation (Inches 16) (Inches 9) []) w).1 = inr prs /\
    prs_save E prs ("static/" +:+ ref) = mkSave (Some data) None /\
    fs w' !! ("static/" +:+ ref) = Some data /\
    length (slides prs) = length slides_data /\
    forall j sd, slides_data !! j = Some sd ->
      exists slide,
        slides prs !! j = Some slide /\
        drawn_from E (fs w) j sd
                   (drop (length (stdout w)) (stdout w')) slide.
Proof.
  intros Htitles Hbox Hsave.
  destruct (create_powerpoint_run E slides_data topic w Htitles Hbox Hsave)
    as (prs & data & log & Hrun & Hloop & Hdata & Hlen & Hall).
  cbv zeta in Hrun, Hdata.
  exists prs, data. do 2 eexists.
  split; [exact Hrun |]. split; [exact Hloop |]. split; [exact Hdata |].
  split; [cbn [fs]; apply lookup_insert_eq |].
  split; [exact Hlen |].
  cbn [stdout]. rewrite drop_app_length. exact Hall.
Qed.

Lemma create_powerpoint_isolates_failures_witness :
  exists (prs : Presentation) (ref : string) (w' : World),
    create_powerpoint Sample.caption_fails
                      [Sample.opening; Sample.photo;
                       mkSlideData 3 (PyStr "Costs") (PyStr "content") (PyInt 5) "coins" None]
                      "Solar" (mkWorld Sample.disk [] 0 0 0)
      = (inr (Some ref), w') /\
    is_Some (fs w' !! ("static/" +:+ ref)) /\
    map (fun slide => length (shapes slide)) (slides prs) = [2; 2; 2]%nat /\
    (slides prs !! 1%nat
       = Some (mkSlide 1 [drawn_title "Panels";
                          Picture "static/images/roof.png"
                                  (mkBox (Inches 2) (Inches 2) (Inches 12) (Inches 6))])) /\
    (slides prs !! 2%nat
       = Some (mkSlide 2 [drawn_title "Costs";
                          TextBox (mkBox (Inches 0.5) (Inches 2) (Inches 7) (Inches 6))
                                  [] None])) /\
    ("Error creating slide 2: forced failure" ∈ stdout w') /\
    ("Error creating slide 3: 'int' object has no attribute 'split'" ∈ stdout w').
Proof.
  destruct (create_powerpoint_isolates_failures Sample.caption_fails
              [Sample.opening; Sample.photo;
               mkSlideData 3 (PyStr "Costs") (PyStr "content") (PyInt 5) "coins" None]
              "Solar" (mkWorld Sample.disk [] 0 0 0))
    as (prs & data & ref & w' & Hrun & Hloop & _ & Hfile & _ & _).
  - intros sd Hin.
    repeat (apply elem_of_cons in Hin; destruct Hin as [-> | Hin]); [eexists; reflexivity .. |].
    apply elem_of_nil in Hin. destruct Hin.
  - intros k. reflexivity.
  - intros prs path. eexists. reflexivity.
  - exists prs, ref, w'. split; [exact Hrun |].
    split; [rewrite Hfile; eauto |].
    vm_compute in Hloop. injection Hloop as <-.
    assert (Hout : (create_powerpoint Sample.caption_fails
                      [Sample.opening; Sample.photo;
                       mkSlideData 3 (PyStr "Costs") (PyStr "content") (PyInt 5) "coins" None]
                      "Solar" (mkWorld Sample.disk [] 0 0 0)).2 = w')
      by (rewrite Hrun; reflexivity).
    split; [reflexivity |]. split; [reflexivity |]. split; [reflexivity |].
    rewrite <- Hout.
    split; apply list_elem_of_In; vm_compute; tauto.
Defined.

(** ** The pipeline ([PPTBot.generate_presentation]) *)

Lemma invoke_fails (E : Env) (prompt : string) (w : World) :
  llm_down E ->
  exists e,
    invoke E prompt w
      = (inl e, mkWorld (fs w) (stdout w) (S (llm_calls w)) (image_calls w) (uuid_calls w)).
Proof.
  intros Hdown. destruct (Hdown (llm_calls w) prompt) as [e He].
  exists e. unfold invoke. rewrite He. reflexivity.
Qed.

Lemma all_str_strs (i : Z) (l : list string) : all_str i (map PyStr l) = inr l.
Proof.
  revert i. induction l as [| s l IH]; intros i; [reflexivity |].
  cbn [map all_str]. rewrite IH. reflexivity.
Qed.

Lemma generate_slide_content_fallback (E : Env) (d : list (string * PyVal))
    (t dt : string) (kp : list string) (topic : string) (w : World) :
  llm_down E ->
  assoc "title" d = Some (PyStr t) ->
  assoc "design_type" d = Some (PyStr dt) ->
  assoc "key_points" d = Some (str_list kp) ->
  exists w',
    generate_slide_content E (PyDict d) topic w
      = (inr ("Content about " +:+ t +:+ " related to " +:+ topic
              +:+ ". This slide covers " +:+ join ", " kp +:+ "."), w') /\
    fs w' = fs w.
Proof.
  intros Hdown Ht Hdt Hkp.
  unfold generate_slide_content, py_getitem, py_join, py_iter, str_list in *.
  rewrite Ht, Hdt, Hkp. run. rewrite all_str_strs. run.
  rewrite try_except_run, bind_run.
  match goal with |- context [invoke E ?p ?w0] =>
    destruct (invoke_fails E p w0 Hdown) as [e He]; rewrite He end.
  run. rewrite all_str_strs. run.
  eexists; split; reflexivity.
Qed.

Lemma generate_image_prompt_fallback (E : Env) (d : list (string * PyVal))
    (t dt : string) (topic : string) (w : World) :
  llm_down E ->
  assoc "title" d = Some (PyStr t) ->
  assoc "design_type" d = Some (PyStr dt) ->
  exists w',
    generate_image_prompt E (PyDict d) topic w
      = (inr ("Professional illustration about " +:+ topic
              +:+ ", modern design, high quality, business presentation style"), w') /\
    fs w' = fs w.
Proof.
  intros Hdown Ht Hdt.
  unfold generate_image_prompt, py_getitem.
  rewrite Ht, Hdt. run.
  rewrite try_except_run, bind_run.
  match goal with |- context [invoke E ?p ?w0] =>
    destruct (invoke_fails E p w0 Hdown) as [e He]; rewrite He end.
  run. eexists; split; reflexivity.
Qed.

Lemma fallback_slide_well_formed (topic : string) (n i : Z) :
  well_formed (fallback_slide topic n i).
Proof.
  unfold fallback_slide, well_formed.
  destruct (i =? 0)%Z; [| destruct (i =? n - 1)%Z; [| destruct (i mod 2 =? 1)%Z]];
    eexists _, _, _, _; (split; [reflexivity |]); repeat split;
    try reflexivity; instantiate (1 := [_; _; _]); reflexivity.
Qed.

Lemma write_slides_run (E : Env) (topic : string) (items : list PyVal) :
  llm_down E ->
  Forall well_formed items ->
  forall (i : Z) (w : World),
    exists slides_data w',
      write_slides E topic i items w = (inr slides_data, w') /\
      fs w' = fs w /\
      map design_type slides_data = map (fun si => default PyNone (field "design_type" si)) items /\
      Forall (fun sd => image_path sd = None) slides_data /\
      (forall sd, sd ∈ slides_data -> exists text, title sd = PyStr text).
Proof.
  intros Hdown Hwf. induction Hwf as [| si rest Hsi Hrest IH]; intros i w.
  - exists [], w. cbn [write_slides]. rewrite ret_run.
    repeat split; try constructor. intros sd Hin. apply elem_of_nil in Hin. destruct Hin.
  - destruct Hsi as (d & t & dt & kp & -> & Ht & Hdt & Hkp).
    cbn [write_slides]. rewrite bind_run.
    destruct (generate_slide_content_fallback E d t dt kp topic w Hdown Ht Hdt Hkp)
      as (w1 & Hc & Hfs1).
    rewrite Hc, bind_run.
    destruct (generate_image_prompt_fallback E d t dt topic w1 Hdown Ht Hdt)
      as (w2 & Hp & Hfs2).
    rewrite Hp. unfold py_getitem at 1 2. rewrite Ht, Hdt. run.
    destruct (IH (i + 1)%Z w2) as (slides_data & w3 & Hrun & Hfs3 & Hdts & Hnone & Htext).
    rewrite Hrun. run.
    do 2 eexists. split; [reflexivity |].
    split; [congruence |].
    split; [cbn [map design_type field]; rewrite Hdt, Hdts; reflexivity |].
    split; [constructor; [reflexivity | exact Hnone] |].
    intros sd Hin. apply elem_of_cons in Hin. destruct Hin as [-> | Hin]; [| auto].
    eexists; reflexivity.
Qed.

Lemma generate_image_down (E : Env) (prompt : string) (n : Z) (w : World) :
  image_service_down E ->
  exists w', generate_image E prompt n w = (inr None, w') /\ fs w' = fs w.
Proof.
  unfold image_service_down. intros Hdown.
  destruct (client E) as [c |] eqn:Hc.
  - apply (generate_image_no_image E c prompt n w Hc). intros image. apply Hdown.
  - rewrite (generate_image_no_client E prompt n w Hc). eexists; split; reflexivity.
Qed.

Lemma make_images_run (E : Env) (total : nat) (slides_data : list SlideData) :
  image_service_down E ->
  Forall (fun sd => image_path sd = None) slides_data ->
  forall w : World,
    exists w', make_images E total slides_data w = (inr slides_data, w') /\ fs w' = fs w.
Proof.
  intros Hdown Hnone. induction Hnone as [| sd rest Hsd Hrest IH]; intros w.
  - exists w. split; reflexivity.
  - cbn [make_images]. run.
    destruct (client E) as [c |] eqn:Hc.
    + rewrite bind_run.
      match goal with |- context [generate_image E ?p ?n ?w0] =>
        destruct (generate_image_down E p n w0 Hdown) as (w1 & Hg & Hfs1); rewrite Hg end.
      run.
      match goal with |- context [make_images E total rest ?w0] =>
        destruct (IH w0) as (w2 & Hm & Hfs2); rewrite Hm end.
      run. destruct sd as [sn ti dt co ipr ip]. cbn in Hsd. subst ip.
      eexists; split; [reflexivity |]. cbn in *. congruence.
    + run.
      match goal with |- context [make_images E total rest ?w0] =>
        destruct (IH w0) as (w2 & Hm & Hfs2); rewrite Hm end.
      run. eexists; split; [reflexivity |]. cbn in *. congruence.
Qed.

(** C2. Topic "Renewable Energy", three slides, and every service
    failing: each call of the language model raises and the image service
    yields no image. When python-pptx grants the title boxes and [save]
    writes the file, [generate_presentation] returns a result with
    [success] true and three slide records of layout kinds [title],
    [content], [conclusion], none with an image reference, and the
    reference of the saved document, which is on the disk. *)
Theorem pipeline_survives_failing_services (E : Env) (w : World) :
  llm_down E ->
  image_service_down E ->
  (forall k, pptx_fault E (mkSlide k []) (AddTextbox title_box) = None) ->
  (forall prs path, exists data, prs_save E prs path = mkSave (Some data) None) ->
  exists slides_data ref message w',
    generate_presentation E "Renewable Energy" 3 w
      = (inr (Generated slides_data (Some ref) message), w') /\
    success (Generated slides_data (Some ref) message) = true /\
    map design_type slides_data = [PyStr "title"; PyStr "content"; PyStr "conclusion"] /\
    Forall (fun sd => image_path sd = None) slides_data /\
    ref <> EmptyString /\
    is_Some (fs w' !! ("static/" +:+ ref)).
Proof.
  intros Hllm Himg Hbox Hsave.
  unfold generate_presentation. rewrite try_except_run. run.
  match goal with |- context [create_slide_structure E ?t ?n ?w0] =>
    destruct (create_slide_structure_run E t n w0) as (w1 & Hplan & Hfs1); rewrite Hplan end.
  run. unfold fallback_structure, py_iter. run.
  match goal with |- context [write_slides E ?t ?i0 ?items ?w0] =>
    assert (Hwf : Forall well_formed items)
      by (apply Forall_forall; intros si Hin; apply list_elem_of_fmap in Hin;
          destruct Hin as (i' & -> & _); apply fallback_slide_well_formed);
    destruct (write_slides_run E t items Hllm Hwf i0 w0)
      as (slides_data & w2 & Hwrite & Hfs2 & Hdts & Hnone & Htext);
    rewrite Hwrite end.
  run.
  match goal with |- context [make_images E ?n slides_data ?w0] =>
    destruct (make_images_run E n slides_data Himg Hnone w0) as (w3 & Himages & Hfs3);
    rewrite Himages end.
  run.
  match goal with |- context [create_powerpoint E slides_data ?t ?w0] =>
    destruct (create_powerpoint_run E slides_data t w0 Htext Hbox Hsave)
      as (prs & data & log & Hppt & _); cbv zeta in Hppt; rewrite Hppt end.
  run.
  do 4 eexists. split; [reflexivity |].
  split; [reflexivity |].
  split; [rewrite Hdts; reflexivity |].
  split; [exact Hnone |].
  split; [discriminate |].
  cbn [fs]. rewrite lookup_insert_eq. eauto.
Qed.

Lemma pipeline_survives_failing_services_witness :
  exists slides_data ref message w',
    generate_presentation (Sample.failing (Some Sample.broken_client)) "Renewable Energy" 3
                          Sample.empty_world
      = (inr (Generated slides_data (Some ref) message), w') /\
    map design_type slides_data = [PyStr "title"; PyStr "content"; PyStr "conclusion"] /\
    is_Some (fs w' !! ("static/" +:+ ref)).
Proof.
  destruct (pipeline_survives_failing_services (Sample.failing (Some Sample.broken_client))
              Sample.empty_world)
    as (slides_data & ref & message & w' & Hrun & _ & Hkinds & _ & _ & Hfile).
  - intros k prompt. eexists. reflexivity.
  - intros k prompt model image. discriminate.
  - intros k. reflexivity.
  - intros prs path. eexists. reflexivity.
  - exists slides_data, ref, message, w'. split; [exact Hrun |]. split; assumption.
Defined.

(** * Further properties *)

(** ** The fallback outline *)

Lemma fallback_slide_keys (topic : string) (n i : Z) (w : World) :
  all_keys_in ["slide_number"; "title"; "design_type"; "key_points"]
              (fallback_slide topic n i) w = (inr true, w).
Proof.
  unfold fallback_slide.
  destruct (i =? 0)%Z; [| destruct (i =? n - 1)%Z]; reflexivity.
Qed.

(** X1. The fallback outline satisfies the validation that the planner
    applies to an outline of the model: [validate_structure] accepts it,
    for every topic and every slide count. *)
Theorem fallback_passes_validation (topic : string) (slides_count : Z) (w : World) :
  validate_structure (fallback_structure topic slides_count) w = (inr tt, w).
Proof.
  unfold fallback_structure, validate_structure.
  induction (range slides_count) as [| i l IH]; [reflexivity |].
  cbn [map for_each]. rewrite bind_run, bind_run.
  rewrite fallback_slide_keys. cbv beta iota.
  rewrite ret_run. exact IH.
Qed.

(** X2. For every integer slide count the fallback outline has as many
    elements as the count says (none for a count of zero or less), and
    they are numbered from 1 in order. The layout [title] is at the first
    position and nowhere else; [conclusion] is at the last position of an
    outline of two or more slides and nowhere else, so that an outline of
    one slide is a title slide without a conclusion. *)
Theorem fallback_numbering (topic : string) (slides_count : Z) :
  exists slides,
    fallback_structure topic slides_count = PyList slides /\
    length slides = Z.to_nat slides_count /\
    forall i : Z, (0 <= i < slides_count)%Z ->
      exists slide,
        slides !! Z.to_nat i = Some slide /\
        field "slide_number" slide = Some (PyInt (i + 1)) /\
        (field "design_type" slide = Some (PyStr "title") <-> i = 0%Z) /\
        (field "design_type" slide = Some (PyStr "conclusion")
           <-> (i <> 0 /\ i = slides_count - 1)%Z).
Proof.
  exists (map (fallback_slide topic slides_count) (range slides_count)).
  split; [reflexivity |].
  split; [unfold range; rewrite !length_map, length_seq; reflexivity |].
  intros i Hi. exists (fallback_slide topic slides_count i).
  split; [apply fallback_lookup; exact Hi |].
  unfold fallback_slide.
  destruct (i =? 0)%Z eqn:H0.
  { apply Z.eqb_eq in H0. subst i. cbn.
    split; [reflexivity |]. split; [tauto |]. split; [discriminate | lia]. }
  apply Z.eqb_neq in H0.
  destruct (i =? slides_count - 1)%Z eqn:H1.
  { apply Z.eqb_eq in H1. cbn.
    split; [reflexivity |]. split; [split; [discriminate | lia] |]. tauto. }
  apply Z.eqb_neq in H1.
  destruct (i mod 2 =? 1)%Z; cbn;
    (split; [reflexivity |]); (split; split; try discriminate; lia).
Qed.

Lemma fallback_numbering_witness :
  (exists slide,
      fallback_structure "Solar" 1 = PyList [slide] /\
      field "slide_number" slide = Some (PyInt 1) /\
      field "design_type" slide = Some (PyStr "title")) /\
  fallback_structure "Solar" (-2) = PyList [].
Proof.
  split.
  - destruct (fallback_numbering "Solar" 1) as (slides & Heq & _ & Hall).
    destruct (Hall 0%Z ltac:(lia)) as (slide & Hlook & Hnum & Htitle & _).
    exists slide. vm_compute in Heq. injection Heq as <-.
    cbn in Hlook. injection Hlook as <-.
    split; [reflexivity |]. split; [exact Hnum | apply Htitle; reflexivity].
  - destruct (fallback_numbering "Solar" (-2)) as (slides & Heq & Hlen & _).
    rewrite Heq. destruct slides; [reflexivity | discriminate Hlen].
Defined.

(** ** The content writer ([ContentBot]) *)

Lemma generate_slide_content_run (E : Env) (d : list (string * PyVal))
    (t dt : PyVal) (kp : list string) (topic : string) (w : World) :
  assoc "title" d = Some t ->
  assoc "design_type" d = Some dt ->
  assoc "key_points" d = Some (str_list kp) ->
  exists text w',
    generate_slide_content E (PyDict d) topic w = (inr text, w') /\
    fs w' = fs w /\ llm_calls w' = S (llm_calls w) /\
    image_calls w' = image_calls w /\ uuid_calls w' = uuid_calls w /\
    match llm_invoke E (llm_calls w)
            (content_prompt topic (py_str E t) (py_str E dt) (join ", " kp)) with
    | inr reply => text = strip reply /\ stdout w' = stdout w
    | inl e =>
        text = content_fallback (py_str E t) topic (join ", " kp) /\
        stdout w' = stdout w ++ ["Error generating slide content: " +:+ exn_msg e]
    end.
Proof.
  intros Ht Hdt Hkp.
  unfold generate_slide_content, py_getitem, py_join, py_iter, str_list in *.
  rewrite Ht, Hdt, Hkp. run. rewrite all_str_strs. run.
  rewrite try_except_run, bind_run. unfold invoke at 1.
  destruct (llm_invoke E (llm_calls w) _) as [e | reply].
  - run. rewrite all_str_strs. run. eexists _, _. split; [reflexivity |].
    cbn. repeat split.
  - run. eexists _, _. split; [reflexivity |]. cbn. repeat split.
Qed.

(** X3. For a slide descriptor that has a title, a design type and key
    points that are a list of text, [generate_slide_content] never
    raises: it calls the model exactly once, leaves the disk and the
    other services alone, and returns the reply of the model without the
    white space around it, or, when the model raises, the sentence built
    from the title, the topic and the key points, after printing the
    failure. *)
Theorem generate_slide_content_outcome (E : Env) (d : list (string * PyVal))
    (t dt : PyVal) (kp : list string) (topic : string) (w : World) :
  assoc "title" d = Some t ->
  assoc "design_type" d = Some dt ->
  assoc "key_points" d = Some (str_list kp) ->
  exists text w',
    generate_slide_content E (PyDict d) topic w = (inr text, w') /\
    fs w' = fs w /\ llm_calls w' = S (llm_calls w) /\
    image_calls w' = image_calls w /\ uuid_calls w' = uuid_calls w /\
    match llm_invoke E (llm_calls w)
            (content_prompt topic (py_str E t) (py_str E dt) (join ", " kp)) with
    | inr reply => text = strip reply /\ stdout w' = stdout w
    | inl e =>
        text = content_fallback (py_str E t) topic (join ", " kp) /\
        stdout w' = stdout w ++ ["Error generating slide content: " +:+ exn_msg e]
    end.
Proof.
  intros Ht Hdt Hkp. exact (generate_slide_content_run E d t dt kp topic w Ht Hdt Hkp).
Qed.

Lemma generate_slide_content_outcome_witness :
  (exists w',
     generate_slide_content (Sample.failing None)
       (PyDict [("title", PyStr "Solar"); ("design_type", PyStr "title");
                ("key_points", str_list ["Sun"; "Wind"])])
       "Energy" Sample.empty_world
     = (inr "Content about Solar related to Energy. This slide covers Sun, Wind.", w') /\
     llm_calls w' = 1%nat) /\
  (exists w',
     generate_slide_content
       (Sample.answering (Sample.wide_space +:+ "The sun shines. " +:+ Sample.nbsp))
       (PyDict [("title", PyStr "Solar"); ("design_type", PyStr "title");
                ("key_points", str_list ["Sun"; "Wind"])])
       "Energy" Sample.empty_world
     = (inr "The sun shines.", w') /\
     llm_calls w' = 1%nat).
Proof.
  split.
  - destruct (generate_slide_content_outcome (Sample.failing None)
                [("title", PyStr "Solar"); ("design_type", PyStr "title");
                 ("key_points", str_list ["Sun"; "Wind"])]
                (PyStr "Solar") (PyStr "title") ["Sun"; "Wind"] "Energy" Sample.empty_world
                eq_refl eq_refl eq_refl)
      as (text & w' & Hrun & _ & Hcalls & _ & _ & Hcase).
    cbn in Hcase. destruct Hcase as [-> _].
    exists w'. split; [exact Hrun | exact Hcalls].
  - destruct (generate_slide_content_outcome
                (Sample.answering (Sample.wide_space +:+ "The sun shines. " +:+ Sample.nbsp))
                [("title", PyStr "Solar"); ("design_type", PyStr "title");
                 ("key_points", str_list ["Sun"; "Wind"])]
                (PyStr "Solar") (PyStr "title") ["Sun"; "Wind"] "Energy" Sample.empty_world
                eq_refl eq_refl eq_refl)
      as (text & w' & Hrun & _ & Hcalls & _ & _ & Hcase).
    cbn in Hcase. destruct Hcase as [-> _].
    exists w'. split; [exact Hrun | exact Hcalls].
Defined.

(** X4. A slide descriptor that lacks the title, the design type or the
    key points makes [generate_slide_content] raise [KeyError] for a key
    that is missing: the prompt is built before the [try], so the model
    is not called and nothing is printed. *)
Theorem generate_slide_content_missing_key (E : Env) (d : list (string * PyVal))
    (topic : string) (w : World) :
  assoc "title" d = None \/ assoc "design_type" d = None \/ assoc "key_points" d = None ->
  exists key,
    generate_slide_content E (PyDict d) topic w = (inl (KeyError ("'" +:+ key +:+ "'")), w) /\
    In key ["title"; "design_type"; "key_points"] /\ assoc key d = None.
Proof.
  intros Hmiss.
  unfold generate_slide_content, py_getitem.
  destruct (assoc "title" d) as [t |] eqn:Ht.
  2: { exists "title". run. repeat split; [simpl; auto | exact Ht]. }
  destruct (assoc "design_type" d) as [dt |] eqn:Hdt.
  2: { exists "design_type". run. repeat split; [simpl; auto | exact Hdt]. }
  destruct (assoc "key_points" d) as [kp |] eqn:Hkp.
  2: { exists "key_points". run. repeat split; [simpl; auto | exact Hkp]. }
  destruct Hmiss as [H | [H | H]]; discriminate.
Qed.

Lemma generate_slide_content_missing_key_witness :
  generate_slide_content (Sample.answering "text")
    (PyDict [("title", PyStr "Solar"); ("design_type", PyStr "title")])
    "Energy" Sample.empty_world
  = (inl (KeyError "'key_points'"), Sample.empty_world).
Proof.
  destruct (generate_slide_content_missing_key (Sample.answering "text")
              [("title", PyStr "Solar"); ("design_type", PyStr "title")]
              "Energy" Sample.empty_world (or_intror (or_intror eq_refl)))
    as (key & Hrun & Hin & Hnone).
  rewrite Hrun. cbn in Hin.
  destruct Hin as [<- | [<- | [<- | []]]]; try discriminate Hnone. reflexivity.
Defined.

Lemma generate_image_prompt_run (E : Env) (d : list (string * PyVal))
    (t dt : PyVal) (topic : string) (w : World) :
  assoc "title" d = Some t ->
  assoc "design_type" d = Some dt ->
  exists text w',
    generate_image_prompt E (PyDict d) topic w = (inr text, w') /\
    fs w' = fs w /\ llm_calls w' = S (llm_calls w) /\
    image_calls w' = image_calls w /\ uuid_calls w' = uuid_calls w /\
    match llm_invoke E (llm_calls w)
            (image_prompt_prompt topic (py_str E t) (py_str E dt)) with
    | inr reply => text = strip reply /\ stdout w' = stdout w
    | inl e =>
        text = image_prompt_fallback topic /\
        stdout w' = stdout w ++ ["Error generating image prompt: " +:+ exn_msg e]
    end.
Proof.
  intros Ht Hdt.
  unfold generate_image_prompt, py_getitem.
  rewrite Ht, Hdt. run.
  rewrite try_except_run, bind_run. unfold invoke at 1.
  destruct (llm_invoke E (llm_calls w) _) as [e | reply]; run;
    (eexists _, _; split; [reflexivity |]; cbn; repeat split).
Qed.

(** X5. For a slide descriptor that has a title and a design type, of
    whatever value, [generate_image_prompt] never raises: it calls the
    model exactly once, leaves the disk and the other services alone, and
    returns the reply of the model without the white space around it, or,
    when the model raises, a prompt that names the topic only, after
    printing the failure. It does not read the key points. *)
Theorem generate_image_prompt_outcome (E : Env) (d : list (string * PyVal))
    (t dt : PyVal) (topic : string) (w : World) :
  assoc "title" d = Some t ->
  assoc "design_type" d = Some dt ->
  exists text w',
    generate_image_prompt E (PyDict d) topic w = (inr text, w') /\
    fs w' = fs w /\ llm_calls w' = S (llm_calls w) /\
    image_calls w' = image_calls w /\ uuid_calls w' = uuid_calls w /\
    match llm_invoke E (llm_calls w)
            (image_prompt_prompt topic (py_str E t) (py_str E dt)) with
    | inr reply => text = strip reply /\ stdout w' = stdout w
    | inl e =>
        text = image_prompt_fallback topic /\
        stdout w' = stdout w ++ ["Error generating image prompt: " +:+ exn_msg e]
    end.
Proof.
  intros Ht Hdt. exact (generate_image_prompt_run E d t dt topic w Ht Hdt).
Qed.

Lemma generate_image_prompt_outcome_witness :
  exists w',
    generate_image_prompt
      (Sample.answering (Sample.nbsp +:+ " a bright sun" +:+ Sample.wide_space +:+ nl))
      (PyDict [("title", PyStr "Solar"); ("design_type", PyInt 7)])
      "Energy" Sample.empty_world
    = (inr "a bright sun", w') /\
    llm_calls w' = 1%nat.
Proof.
  destruct (generate_image_prompt_outcome
              (Sample.answering (Sample.nbsp +:+ " a bright sun" +:+ Sample.wide_space +:+ nl))
              [("title", PyStr "Solar"); ("design_type", PyInt 7)]
              (PyStr "Solar") (PyInt 7) "Energy" Sample.empty_world eq_refl eq_refl)
    as (text & w' & Hrun & _ & Hcalls & _ & _ & Hcase).
  cbn in Hcase. destruct Hcase as [-> _].
  exists w'. split; [exact Hrun | exact Hcalls].
Defined.

(** ** The image acquirer, further *)

Lemma insert_keeps (disk : gmap string (list Byte.byte)) (path : string)
    (data : list Byte.byte) (p : string) :
  is_Some (disk !! p) -> is_Some (<[path := data]> disk !! p).
Proof.
  intros H. destruct (decide (path = p)) as [-> | Hne].
  - rewrite lookup_insert_eq. eauto.
  - rewrite lookup_insert_ne by exact Hne. exact H.
Qed.

Lemma image_path_is (E : Env) (slide_number : Z) (w : World) :
  os.join IMAGES_FOLDER
    ("slide_" +:+ str_of_Z slide_number +:+ "_"
     +:+ slice_to 8 (uuid4_hex E (uuid_calls w)) +:+ ".png")
  = image_file E slide_number w.
Proof. reflexivity. Qed.

Lemma generate_image_frame_run (E : Env) (prompt : string) (slide_number : Z) (w : World) :
  exists r w',
    generate_image E prompt slide_number w = (inr r, w') /\
    llm_calls w' = llm_calls w /\
    image_calls w' = (if client E is Some _ then S (image_calls w) else image_calls w) /\
    (forall p, p <> image_file E slide_number w -> fs w' !! p = fs w !! p) /\
    keeps_files w w'.
Proof.
  unfold generate_image, keeps_files. rewrite try_except_run.
  destruct (client E) as [c |]; [| run; eexists _, _; split; [reflexivity | auto]].
  run. unfold call_text_to_image at 1.
  destruct (text_to_image c _ _ _) as [e | [image |]]; run;
    [eexists _, _; split; [reflexivity | auto] | | eexists _, _; split; [reflexivity | auto]].
  rewrite image_path_is.
  set (path := image_file E slide_number w).
  set (o := image_save E image path).
  assert (Hframe : forall p, p <> path ->
            match written o with Some data => <[path := data]> (fs w) | None => fs w end !! p
            = fs w !! p).
  { intros p Hp. destruct (written o); [apply lookup_insert_ne; congruence | reflexivity]. }
  assert (Hkeep : forall p, is_Some (fs w !! p) ->
            is_Some (match written o with Some data => <[path := data]> (fs w) | None => fs w end
                     !! p)).
  { intros p Hp. destruct (written o); [apply insert_keeps; exact Hp | exact Hp]. }
  destruct (save_error o); run; [eexists _, _; split; [reflexivity | auto] |].
  destruct (os.exists_ _ _) eqn:Hex; run; [| eexists _, _; split; [reflexivity | auto]].
  apply exists_lookup in Hex. destruct Hex as [data Hdata].
  unfold os.getsize. rewrite Hdata. run. eexists _, _; split; [reflexivity | auto].
Qed.

(** X6. Whatever the services do, [generate_image] changes at most one
    file, the one it names after the slide number and the identifier;
    every other path of the disk is as before and no file disappears. It
    never calls the language model, and it calls the image service once
    when there is a client and not at all otherwise. *)
Theorem generate_image_frame (E : Env) (prompt : string) (slide_number : Z) (w : World) :
  let w' := (generate_image E prompt slide_number w).2 in
  llm_calls w' = llm_calls w /\
  image_calls w' = (if client E is Some _ then S (image_calls w) else image_calls w) /\
  (forall p, p <> image_file E slide_number w -> fs w' !! p = fs w !! p) /\
  keeps_files w w'.
Proof.
  destruct (generate_image_frame_run E prompt slide_number w) as (r & w' & Hrun & Hprops).
  cbv zeta. rewrite Hrun. exact Hprops.
Qed.

(** X7. When [image.save] has written bytes and then raises,
    [generate_image] returns no reference, yet the file it has written
    stays on the disk. *)
Theorem generate_image_partial_file (E : Env) (c : InferenceClient) (image : PILImage)
    (data : list Byte.byte) (e : Exn) (prompt : string) (slide_number : Z) (w : World) :
  client E = Some c ->
  text_to_image c (image_calls w) (enhanced prompt) flux = inr (Some image) ->
  image_save E image (image_file E slide_number w) = mkSave (Some data) (Some e) ->
  exists w',
    generate_image E prompt slide_number w = (inr None, w') /\
    fs w' !! image_file E slide_number w = Some data.
Proof.
  intros Hc Hcall Hsave.
  unfold generate_image. rewrite try_except_run, Hc.
  run. unfold call_text_to_image at 1. run.
  fold (enhanced prompt). fold flux. rewrite Hcall. run.
  rewrite image_path_is, Hsave. cbn [save_error written]. run.
  eexists; split; [reflexivity |]. cbn [fs]. apply lookup_insert_eq.
Qed.

Lemma generate_image_partial_file_witness :
  exists w',
    generate_image (Extra.interrupted Sample.png) "sun" 1 Sample.empty_world = (inr None, w') /\
    fs w' !! "static/images/slide_1_01234567.png" = Some Sample.png.
Proof.
  exact (generate_image_partial_file (Extra.interrupted Sample.png)
           (mkClient (fun _ _ _ => inr (Some (PIL 0)))) (PIL 0) Sample.png Extra.disk_full
           "sun" 1 Sample.empty_world eq_refl eq_refl eq_refl).
Defined.

(** What [add_image_to_slide] returns tells what it did: [true] with the
    picture added last, [false] with the shapes as they were. *)
Lemma add_image_to_slide_result (E : Env) (disk : gmap string (list Byte.byte))
    (ip : option string) (box : Box) (no : nat) (shs : list Shape) (out : list string) :
  exists (b : bool) (out' : list string),
    add_image_to_slide E disk ip box (mkCanvas (mkSlide no shs) out)
      = (inr b,
         mkCanvas (mkSlide no (shs ++ if b : bool
                                      then [Picture (full_image_path (default EmptyString ip)) box]
                                      else []))
                  out') /\
    (b = true ->
     exists p data,
       ip = Some p /\ p <> EmptyString /\
       disk !! full_image_path p = Some data /\ data <> [] /\
       pil_verify E data = None /\
       pptx_fault E (mkSlide no shs) (AddPicture (full_image_path p) box) = None).
Proof.
  unfold add_image_to_slide. rewrite try_except_run.
  destruct ip as [p |].
  2: { draw. exists false; eexists; rewrite app_nil_r. split; [reflexivity | discriminate]. }
  destruct (String.eqb p EmptyString) eqn:Hp.
  { draw. exists false; eexists; rewrite app_nil_r. split; [reflexivity | discriminate]. }
  apply String.eqb_neq in Hp.
  cbv zeta.
  destruct (os.exists_ disk (full_image_path p)) eqn:Hex; cbn [negb].
  2: { draw. exists false; eexists; rewrite app_nil_r. split; [reflexivity | discriminate]. }
  apply exists_lookup in Hex. destruct Hex as [data Hdata].
  unfold os.getsize. rewrite Hdata. draw.
  destruct (Z.of_nat (length data) =? 0)%Z eqn:Hsize.
  { draw. exists false; eexists; rewrite app_nil_r. split; [reflexivity | discriminate]. }
  cbn [default from_option id].
  destruct (pil_verify E data) as [img_error |] eqn:Hverify.
  { draw. exists false; eexists; rewrite app_nil_r. split; [reflexivity | discriminate]. }
  draw.
  destruct (pptx_fault E _ _) as [e |] eqn:Hfault.
  { draw. exists false; eexists; rewrite app_nil_r. split; [reflexivity | discriminate]. }
  draw. exists true; eexists. split; [reflexivity |].
  intros _. exists p, data. repeat split; try assumption.
  intros ->. simpl in Hsize. discriminate.
Qed.

(** X8. [add_image_to_slide] never raises, and what it returns tells
    what it did: when it returns [True] the slide has gained exactly the
    picture of the file, which has a path that is not empty, exists, is
    not empty and verifies; when it returns [False] the shapes of the
    slide are as they were. *)
Theorem add_image_to_slide_return (E : Env) (disk : gmap string (list Byte.byte))
    (ip : option string) (box : Box) (c : Canvas) :
  exists (b : bool) (c' : Canvas),
    add_image_to_slide E disk ip box c = (inr b, c') /\
    slide_no (on_slide c') = slide_no (on_slide c) /\
    if b
    then exists p data,
           ip = Some p /\ p <> EmptyString /\
           shapes (on_slide c') = shapes (on_slide c) ++ [Picture (full_image_path p) box] /\
           disk !! full_image_path p = Some data /\ data <> [] /\ pil_verify E data = None
    else shapes (on_slide c') = shapes (on_slide c).
Proof.
  destruct c as [[no shs] out].
  destruct (add_image_to_slide_result E disk ip box no shs out) as (b & out' & Hrun & Htrue).
  exists b. eexists. split; [exact Hrun |]. cbn [on_slide slide_no shapes].
  split; [reflexivity |].
  destruct b.
  - destruct (Htrue eq_refl) as (p & data & -> & Hp & Hd & Hne & Hv & _).
    exists p, data. cbn [default from_option id]. auto 10.
  - apply app_nil_r.
Qed.

(** X9. The reference that [generate_image] returns resolves, in
    [add_image_to_slide], to the file that [generate_image] has written:
    when that file is not empty and verifies and python-pptx accepts the
    picture, the image is placed and [True] is returned. *)
Theorem acquired_image_is_placed (E : Env) (prompt : string) (n : Z) (w w' : World)
    (ref : string) (data : list Byte.byte) (box : Box) (c : Canvas) :
  generate_image E prompt n w = (inr (Some ref), w') ->
  fs w' !! ("static/" +:+ ref) = Some data ->
  data <> [] ->
  pil_verify E data = None ->
  pptx_fault E (on_slide c) (AddPicture ("static/" +:+ ref) box) = None ->
  exists c',
    add_image_to_slide E (fs w') (Some ref) box c = (inr true, c') /\
    shapes (on_slide c') = shapes (on_slide c) ++ [Picture ("static/" +:+ ref) box].
Proof.
  intros Hrun Hfile Hne Hverify Hfault.
  destruct (generate_image_some E prompt n w w' ref Hrun) as (fname & data' & -> & _).
  destruct c as [[no shs] out]. cbn [on_slide] in Hfault.
  unfold add_image_to_slide. rewrite try_except_run.
  change (String.eqb ("images/" +:+ "slide_" +:+ fname) EmptyString) with false.
  cbv iota zeta.
  change (full_image_path ("images/" +:+ "slide_" +:+ fname))
    with ("static/" +:+ "images/" +:+ "slide_" +:+ fname).
  rewrite (lookup_exists _ _ data Hfile). cbn [negb].
  unfold os.getsize. rewrite Hfile. draw.
  destruct (Z.of_nat (length data) =? 0)%Z eqn:Hsize.
  { apply Z.eqb_eq in Hsize. destruct data; [congruence | cbn in Hsize; lia]. }
  cbn [default from_option id]. rewrite Hverify. draw. rewrite Hfault. draw.
  eexists; split; reflexivity.
Qed.

Lemma acquired_image_is_placed_witness :
  exists w' c',
    generate_image (Sample.painting Sample.png) "sun" 1 Sample.empty_world
      = (inr (Some "images/slide_1_01234567.png"), w') /\
    add_image_to_slide (Sample.painting Sample.png) (fs w')
      (Some "images/slide_1_01234567.png") Sample.caption_box (mkCanvas (mkSlide 0 []) [])
      = (inr true, c') /\
    shapes (on_slide c') = [Picture "static/images/slide_1_01234567.png" Sample.caption_box].
Proof.
  pose (run := generate_image (Sample.painting Sample.png) "sun" 1 Sample.empty_world).
  assert (Hrun : run = (inr (Some "images/slide_1_01234567.png"), run.2)).
  { assert (Hres : run.1 = inr (Some "images/slide_1_01234567.png"))
      by (vm_compute; reflexivity).
    rewrite <- Hres. apply surjective_pairing. }
  destruct (acquired_image_is_placed (Sample.painting Sample.png) "sun" 1%Z
              Sample.empty_world run.2 "images/slide_1_01234567.png" Sample.png
              Sample.caption_box (mkCanvas (mkSlide 0 []) []) Hrun)
    as (c' & Hadd & Hshapes).
  - vm_compute. reflexivity.
  - discriminate.
  - reflexivity.
  - reflexivity.
  - exists run.2, c'. split; [exact Hrun |]. split; [exact Hadd | exact Hshapes].
Defined.

(** ** The document assembler, further *)

(** The loop over the records touches nothing but the console, whether
    it ends or raises. *)
Lemma add_slides_world (E : Env) (total : nat) (slides_data : list SlideData) :
  forall (i : nat) (prs : Presentation) (w : World),
    exists r log,
      add_slides E total i slides_data prs w
        = (r, mkWorld (fs w) (stdout w ++ log) (llm_calls w) (image_calls w) (uuid_calls w)).
Proof.
  induction slides_data as [| sd rest IH]; intros i prs w.
  - exists (inr prs), []. cbn [add_slides]. rewrite ret_run, app_nil_r.
    destruct w. reflexivity.
  - cbn [add_slides]. rewrite bind_run. unfold on_canvas at 1.
    destruct (create_slide E (fs w) total i sd (mkCanvas (mkSlide i []) [])) as [[e | []] c].
    + eexists (inl e), _. reflexivity.
    + cbv beta iota. cbn [snd].
      match goal with |- context [add_slides E total (S i) rest ?p ?w1] =>
        destruct (IH (S i) p w1) as (r & log & Hrest); rewrite Hrest end.
      cbn [fs stdout llm_calls image_calls uuid_calls].
      rewrite <- app_assoc. eexists r, _. reflexivity.
Qed.

Lemma create_powerpoint_frame_run (E : Env) (slides_data : list SlideData) (topic : string)
    (w : World) :
  exists r w',
    create_powerpoint E slides_data topic w = (inr r, w') /\
    llm_calls w' = llm_calls w /\
    image_calls w' = image_calls w /\
    (forall p, p <> document_file E topic w -> fs w' !! p = fs w !! p) /\
    keeps_files w w' /\
    (forall ref, r = Some ref ->
       "static/" +:+ ref = document_file E topic w /\
       is_Some (fs w' !! document_file E topic w)).
Proof.
  unfold create_powerpoint, keeps_files. rewrite try_except_run, bind_run.
  destruct (add_slides_world E (length slides_data) slides_data 0
              (mkPresentation (Inches 16) (Inches 9) []) w) as (r & log & Hloop).
  rewrite Hloop. destruct r as [e | prs].
  { run. eexists _, _. split; [reflexivity |]. repeat split; auto; discriminate. }
  run. rewrite ppt_path_is.
  change ("static/" +:+ "presentations/" +:+ ppt_filename topic (uuid4_hex E (uuid_calls w)))
    with (document_file E topic w).
  set (path := document_file E topic w).
  set (o := prs_save E prs path).
  assert (Hframe : forall p, p <> path ->
            match written o with Some data => <[path := data]> (fs w) | None => fs w end !! p
            = fs w !! p).
  { intros p Hp. destruct (written o); [apply lookup_insert_ne; congruence | reflexivity]. }
  assert (Hkeep : forall p, is_Some (fs w !! p) ->
            is_Some (match written o with Some data => <[path := data]> (fs w) | None => fs w end
                     !! p)).
  { intros p Hp. destruct (written o); [apply insert_keeps; exact Hp | exact Hp]. }
  destruct (save_error o); run.
  { eexists _, _. split; [reflexivity |]. repeat split; auto; discriminate. }
  destruct (os.exists_ _ _) eqn:Hex; run.
  2: { eexists _, _. split; [reflexivity |]. repeat split; auto; discriminate. }
  apply exists_lookup in Hex. destruct Hex as [data Hdata].
  unfold os.getsize. rewrite Hdata. run.
  eexists _, _. split; [reflexivity |]. cbn [fs llm_calls image_calls].
  split; [reflexivity |]. split; [reflexivity |]. split; [exact Hframe |].
  split; [exact Hkeep |].
  intros ref [= <-]. split; [reflexivity |]. rewrite Hdata. eauto.
Qed.

(** X10. [create_powerpoint] never raises, whatever python-pptx and the
    disk do. It calls no service, changes at most the one file it names
    after the topic and the identifier, and removes no file. A reference
    that it returns names that file, which is then on the disk. *)
Theorem create_powerpoint_frame (E : Env) (slides_data : list SlideData) (topic : string)
    (w : World) :
  exists r w',
    create_powerpoint E slides_data topic w = (inr r, w') /\
    llm_calls w' = llm_calls w /\
    image_calls w' = image_calls w /\
    (forall p, p <> document_file E topic w -> fs w' !! p = fs w !! p) /\
    keeps_files w w' /\
    match r with
    | Some ref =>
        "static/" +:+ ref = document_file E topic w /\
        is_Some (fs w' !! document_file E topic w)
    | None => True
    end.
Proof.
  destruct (create_powerpoint_frame_run E slides_data topic w)
    as (r & w' & Hrun & Hllm & Himg & Hframe & Hkeep & Hret).
  exists r, w'. repeat (split; [assumption |]).
  destruct r as [ref |]; [apply Hret; reflexivity | exact I].
Qed.

(** A record whose title is not text stops the loop. *)
Lemma create_slide_bad_title (E : Env) (disk : gmap string (list Byte.byte)) (total i : nat)
    (sd : SlideData) (c : Canvas) :
  (forall text, title sd <> PyStr text) ->
  exists e c', create_slide E disk total i sd c = (inl e, c').
Proof.
  intros Hbad. unfold create_slide, add_title. draw.
  destruct (pptx_fault E _ _) as [e |]; [eexists _, _; reflexivity |].
  draw. unfold assign_text.
  destruct (title sd) as [| b | z | q | s | l | d] eqn:Ht;
    try (draw; eexists _, _; reflexivity).
  exfalso. exact (Hbad s eq_refl).
Qed.

Lemma add_slides_bad_title (E : Env) (total : nat) (slides_data : list SlideData) :
  forall (i : nat) (prs : Presentation) (w : World),
    (exists sd, sd ∈ slides_data /\ forall text, title sd <> PyStr text) ->
    exists e w', add_slides E total i slides_data prs w = (inl e, w') /\ fs w' = fs w.
Proof.
  induction slides_data as [| sd rest IH]; intros i prs w (bad & Hin & Hbad).
  - apply elem_of_nil in Hin. destruct Hin.
  - cbn [add_slides]. rewrite bind_run. unfold on_canvas at 1.
    destruct (create_slide E (fs w) total i sd (mkCanvas (mkSlide i []) []))
      as [[e | []] c] eqn:Hslide.
    + eexists _, _. split; reflexivity.
    + cbv beta iota. cbn [snd].
      apply elem_of_cons in Hin. destruct Hin as [-> | Hin].
      * destruct (create_slide_bad_title E (fs w) total i sd (mkCanvas (mkSlide i []) []) Hbad)
          as (e & c' & Hraise).
        rewrite Hraise in Hslide. discriminate.
      * match goal with |- context [add_slides E total (S i) rest ?p ?w1] =>
          destruct (IH (S i) p w1) as (e & w' & Hrest & Hfs); [eauto |]; rewrite Hrest end.
        eexists _, _. split; [reflexivity | exact Hfs].
Qed.

(** X11. The failure of a title is not isolated: when the title of one
    record is not text, [create_powerpoint] returns no reference for the
    whole document and writes nothing, whatever the other records are. *)
Theorem create_powerpoint_bad_title (E : Env) (slides_data : list SlideData)
    (topic : string) (w : World) (sd : SlideData) :
  sd ∈ slides_data ->
  (forall text, title sd <> PyStr text) ->
  exists w', create_powerpoint E slides_data topic w = (inr None, w') /\ fs w' = fs w.
Proof.
  intros Hin Hbad.
  unfold create_powerpoint. rewrite try_except_run, bind_run.
  destruct (add_slides_bad_title E (length slides_data) slides_data 0
              (mkPresentation (Inches 16) (Inches 9) []) w) as (e & w1 & Hloop & Hfs);
    [eauto |].
  rewrite Hloop. run. eexists; split; [reflexivity | exact Hfs].
Qed.

Lemma create_powerpoint_bad_title_witness :
  exists w',
    create_powerpoint (Sample.failing None)
      [Sample.opening; mkSlideData 2 (PyInt 7) (PyStr "content") (PyStr "text") "prompt" None]
      "Solar" Sample.empty_world = (inr None, w') /\
    fs w' = ∅.
Proof.
  apply (create_powerpoint_bad_title (Sample.failing None)
           [Sample.opening; mkSlideData 2 (PyInt 7) (PyStr "content") (PyStr "text") "prompt" None]
           "Solar" Sample.empty_world
           (mkSlideData 2 (PyInt 7) (PyStr "content") (PyStr "text") "prompt" None)).
  - apply elem_of_cons. right. apply elem_of_cons. left. reflexivity.
  - intros text. discriminate.
Defined.

Lemma create_powerpoint_save_raises_run (E : Env) (slides_data : list SlideData)
    (topic : string) (w : World) :
  (forall prs path, exists e, save_error (prs_save E prs path) = Some e) ->
  exists w' e,
    create_powerpoint E slides_data topic w = (inr None, w') /\
    last (stdout w') = Some ("Error creating PowerPoint: " +:+ exn_msg e).
Proof.
  intros Hsave.
  unfold create_powerpoint. rewrite try_except_run, bind_run.
  destruct (add_slides_world E (length slides_data) slides_data 0
              (mkPresentation (Inches 16) (Inches 9) []) w) as (r & log & Hloop).
  rewrite Hloop. destruct r as [e | prs].
  { run. eexists _, e. split; [reflexivity |]. cbn [stdout]. apply last_snoc. }
  run. rewrite ppt_path_is.
  match goal with |- context [prs_save E prs ?path] =>
    destruct (Hsave prs path) as [e He]; rewrite He end.
  run. eexists _, e. split; [reflexivity |]. cbn [stdout]. apply last_snoc.
Qed.

(** X12. When [prs.save] raises, [create_powerpoint] returns no
    reference, and the last line it prints is the line of its [except]
    block, 'Error creating PowerPoint: ...'. *)
Theorem create_powerpoint_save_raises (E : Env) (slides_data : list SlideData)
    (topic : string) (w : World) :
  (forall prs path, exists e, save_error (prs_save E prs path) = Some e) ->
  exists w' e,
    create_powerpoint E slides_data topic w = (inr None, w') /\
    last (stdout w') = Some ("Error creating PowerPoint: " +:+ exn_msg e).
Proof.
  exact (create_powerpoint_save_raises_run E slides_data topic w).
Qed.

Lemma create_powerpoint_save_raises_witness :
  exists w',
    create_powerpoint (Extra.read_only) [Sample.opening] "Solar" Sample.empty_world
      = (inr None, w').
Proof.
  destruct (create_powerpoint_save_raises Extra.read_only [Sample.opening] "Solar"
              Sample.empty_world) as (w' & e & Hrun & _).
  - intros prs path. eexists. reflexivity.
  - exists w'. exact Hrun.
Defined.

(** ** The name of the document *)

Lemma prefix_empty (s : string) : String.prefix EmptyString s = true.
Proof. destruct s; reflexivity. Qed.

Lemma contains_char_cons (c x : ascii) (s : string) :
  contains (String c EmptyString) (String x s)
  = (if ascii_dec c x then true else false) || contains (String c EmptyString) s.
Proof.
  cbn [contains]. f_equal.
  change (String.prefix (String c EmptyString) (String x s))
    with (if ascii_dec c x then String.prefix EmptyString s else false).
  rewrite prefix_empty. reflexivity.
Qed.

Lemma contains_char_app (c : ascii) (a b : string) :
  contains (String c EmptyString) (a +:+ b)
  = contains (String c EmptyString) a || contains (String c EmptyString) b.
Proof.
  induction a as [| x a IH].
  - cbn [append]. destruct b; reflexivity.
  - change (String x a +:+ b) with (String x (a +:+ b)).
    rewrite !contains_char_cons, IH. apply orb_assoc.
Qed.

Lemma replace_char_removes (a b : ascii) (s : string) :
  a <> b -> contains (String a EmptyString) (replace_char a b s) = false.
Proof.
  intros Hab. induction s as [| x s IH]; [reflexivity |].
  cbn [replace_char]. rewrite contains_char_cons, IH, orb_false_r.
  destruct (Ascii.eqb x a) eqn:Hx.
  - destruct (ascii_dec a b); [congruence | reflexivity].
  - apply Ascii.eqb_neq in Hx. destruct (ascii_dec a x); [congruence | reflexivity].
Qed.

Lemma replace_char_keeps_out (c a b : ascii) (s : string) :
  c <> b ->
  contains (String c EmptyString) s = false ->
  contains (String c EmptyString) (replace_char a b s) = false.
Proof.
  intros Hcb. induction s as [| x s IH]; [reflexivity |].
  cbn [replace_char]. rewrite !contains_char_cons.
  intros H. apply orb_false_iff in H. destruct H as [Hx Hs].
  rewrite (IH Hs), orb_false_r.
  destruct (Ascii.eqb x a); [| exact Hx].
  destruct (ascii_dec c b); [congruence | reflexivity].
Qed.

(** X13. Whatever the topic is, the name of the document holds no path
    separator and no space when the identifier holds none: the spaces and
    the slashes of the topic are replaced, so that the document is saved
    in the presentations folder itself, never below or outside it. *)
Theorem ppt_filename_safe (topic hex : string) :
  contains "/" (slice_to 8 hex) = false ->
  contains " " (slice_to 8 hex) = false ->
  contains "/" (ppt_filename topic hex) = false /\
  contains " " (ppt_filename topic hex) = false /\
  os.join PPT_FOLDER (ppt_filename topic hex)
    = "static/presentations/" +:+ ppt_filename topic hex.
Proof.
  intros Hslash Hspace. unfold ppt_filename.
  split; [| split].
  - rewrite !contains_char_app, Hslash.
    rewrite replace_char_removes by discriminate. reflexivity.
  - rewrite !contains_char_app, Hspace.
    rewrite replace_char_keeps_out;
      [reflexivity | discriminate | apply replace_char_removes; discriminate].
  - apply ppt_path_is.
Qed.

Lemma ppt_filename_safe_witness :
  contains "/" (ppt_filename "../etc/pass wd" Sample.hex) = false /\
  ppt_filename "../etc/pass wd" Sample.hex = ".._etc_pass_wd_01234567.pptx".
Proof.
  split; [| reflexivity].
  apply (ppt_filename_safe "../etc/pass wd" Sample.hex); reflexivity.
Defined.

(** ** The pipeline, further *)

Lemma keeps_files_refl (w w' : World) : fs w' = fs w -> keeps_files w w'.
Proof. intros Hfs p Hp. rewrite Hfs. exact Hp. Qed.

Lemma keeps_files_trans (w1 w2 w3 : World) :
  keeps_files w1 w2 -> keeps_files w2 w3 -> keeps_files w1 w3.
Proof. intros H12 H23 p Hp. apply H23, H12, Hp. Qed.

Lemma create_slide_structure_calls (E : Env) (topic : string) (n : Z) (w : World) :
  exists w',
    create_slide_structure E topic n w = (inr (fallback_structure topic n), w') /\
    fs w' = fs w /\ llm_calls w' = S (llm_calls w) /\
    image_calls w' = image_calls w /\ uuid_calls w' = uuid_calls w.
Proof.
  unfold create_slide_structure, invoke.
  destruct (llm_invoke E (llm_calls w) (structure_prompt topic n)) as [e | reply].
  - rewrite structure_handler_run. eexists; split; [reflexivity |]. repeat split.
  - unfold try_except. rewrite parse_response_raises, structure_handler_run.
    eexists; split; [reflexivity |]. repeat split.
Qed.

Lemma write_slides_total (E : Env) (topic : string) (items : list PyVal) :
  Forall well_formed items ->
  forall (i : Z) (w : World),
    exists slides_data w',
      write_slides E topic i items w = (inr slides_data, w') /\
      fs w' = fs w /\
      llm_calls w' = (llm_calls w + 2 * length items)%nat /\
      image_calls w' = image_calls w /\
      map (fun sd => Some (title sd)) slides_data = map (field "title") items /\
      map (fun sd => Some (design_type sd)) slides_data = map (field "design_type") items /\
      map slide_number slides_data
        = map (fun k => (i + 1 + Z.of_nat k)%Z) (seq 0 (length items)) /\
      Forall (fun sd => image_path sd = None) slides_data.
Proof.
  intros Hwf. induction Hwf as [| si rest Hsi Hrest IH]; intros i w.
  - exists [], w. cbn [write_slides]. rewrite ret_run.
    repeat split; try constructor. cbn. lia.
  - destruct Hsi as (d & t & dt & kp & -> & Ht & Hdt & Hkp).
    cbn [write_slides]. rewrite bind_run.
    destruct (generate_slide_content_run E d (PyStr t) (PyStr dt) kp topic w Ht Hdt Hkp)
      as (text & w1 & Hc & Hfs1 & Hllm1 & Himg1 & _ & _).
    rewrite Hc, bind_run.
    destruct (generate_image_prompt_run E d (PyStr t) (PyStr dt) topic w1 Ht Hdt)
      as (prompt & w2 & Hp & Hfs2 & Hllm2 & Himg2 & _ & _).
    rewrite Hp. unfold py_getitem at 1 2. rewrite Ht, Hdt. run.
    destruct (IH (i + 1)%Z w2)
      as (slides_data & w3 & Hrun & Hfs3 & Hllm3 & Himg3 & Htitles & Hdts & Hnums & Hnone).
    rewrite Hrun. run.
    do 2 eexists. split; [reflexivity |].
    split; [congruence |].
    split; [cbn [length]; lia |].
    split; [congruence |].
    split; [cbn [map title field]; rewrite Ht, Htitles; reflexivity |].
    split; [cbn [map design_type field]; rewrite Hdt, Hdts; reflexivity |].
    split; [| constructor; [reflexivity | exact Hnone]].
    cbn [map slide_number length seq]. rewrite Hnums, <- seq_shift, map_map.
    f_equal; [lia |]. apply map_ext. intros k. lia.
Qed.

Lemma generate_image_total (E : Env) (prompt : string) (n : Z) (w : World) :
  exists r w',
    generate_image E prompt n w = (inr r, w') /\
    llm_calls w' = llm_calls w /\
    image_calls w' = (if client E is Some _ then S (image_calls w) else image_calls w) /\
    keeps_files w w' /\
    forall ref, r = Some ref -> is_Some (fs w' !! ("static/" +:+ ref)).
Proof.
  destruct (generate_image_frame_run E prompt n w)
    as (r & w' & Hrun & Hllm & Himg & _ & Hkeep).
  exists r, w'. repeat (split; [assumption |]).
  intros ref ->.
  destruct (generate_image_some E prompt n w w' ref Hrun) as (fname & data & _ & Hfile).
  rewrite Hfile. eauto.
Qed.

Lemma make_images_total (E : Env) (total : nat) (slides_data : list SlideData) :
  Forall (fun sd => image_path sd = None) slides_data ->
  forall w : World,
    exists out w',
      make_images E total slides_data w = (inr out, w') /\
      Forall2 same_but_image slides_data out /\
      llm_calls w' = llm_calls w /\
      image_calls w'
        = (image_calls w + if client E is Some _ then length slides_data else 0)%nat /\
      keeps_files w w' /\
      Forall (image_on_disk w') out.
Proof.
  intros Hnone. induction Hnone as [| sd rest Hsd Hrest IH]; intros w.
  - exists [], w. cbn [make_images]. rewrite ret_run.
    repeat split; try constructor.
    + destruct (client E); cbn; lia.
    + apply keeps_files_refl. reflexivity.
  - cbn [make_images]. run.
    destruct (client E) as [c |] eqn:Hc.
    + rewrite bind_run.
      match goal with |- context [generate_image E ?p ?n ?w0] =>
        destruct (generate_image_total E p n w0)
          as (r & w1 & Hg & Hllm1 & Himg1 & Hkeep1 & Hfile1); rewrite Hg end.
      rewrite Hc in Himg1. run.
      match goal with |- context [make_images E total rest ?w0] =>
        destruct (IH w0) as (out & w2 & Hm & Hsame & Hllm2 & Himg2 & Hkeep2 & Hdisk2);
        rewrite Hm end.
      run. do 2 eexists. split; [reflexivity |].
      split; [constructor; [repeat split | exact Hsame] |].
      split; [cbn in *; congruence |].
      split; [cbn in *; lia |].
      split.
      { intros p Hp. apply Hkeep2. cbn [fs]. apply Hkeep1. exact Hp. }
      constructor; [| exact Hdisk2].
      intros ref Href. cbn [image_path] in Href.
      apply Hkeep2. cbn [fs]. apply Hfile1. exact Href.
    + run.
      match goal with |- context [make_images E total rest ?w0] =>
        destruct (IH w0) as (out & w2 & Hm & Hsame & Hllm2 & Himg2 & Hkeep2 & Hdisk2);
        rewrite Hm end.
      run. do 2 eexists. split; [reflexivity |].
      split; [constructor; [repeat split | exact Hsame] |].
      split; [cbn in *; congruence |].
      split; [cbn in *; lia |].
      split; [exact Hkeep2 |].
      constructor; [| exact Hdisk2].
      intros ref Href. rewrite Hsd in Href. discriminate.
Qed.

Lemma same_but_image_maps (l out : list SlideData) :
  Forall2 same_but_image l out ->
  length out = length l /\
  map slide_number out = map slide_number l /\
  map (fun sd => Some (title sd)) out = map (fun sd => Some (title sd)) l /\
  map (fun sd => Some (design_type sd)) out = map (fun sd => Some (design_type sd)) l.
Proof.
  induction 1 as [| sd sd' l out (Hn & Ht & Hd & _) Hrest IH]; [repeat split |].
  destruct IH as (Hlen & Hnums & Htitles & Hdts).
  cbn [length map]. rewrite Hlen, Hnums, Htitles, Hdts, Hn, Ht, Hd. repeat split.
Qed.

(** The whole run, for every environment. *)
Lemma generate_presentation_run (E : Env) (topic : string) (n : Z) (w : World) :
  exists slides_data ppt_path w',
    generate_presentation E topic n w
      = (inr (Generated slides_data ppt_path "Presentation generated successfully!"), w') /\
    length slides_data = Z.to_nat n /\
    map slide_number slides_data = map (fun i => (i + 1)%Z) (range n) /\
    map (fun sd => Some (title sd)) slides_data
      = map (fun i => field "title" (fallback_slide topic n i)) (range n) /\
    map (fun sd => Some (design_type sd)) slides_data
      = map (fun i => field "design_type" (fallback_slide topic n i)) (range n) /\
    llm_calls w' = (llm_calls w + 1 + 2 * Z.to_nat n)%nat /\
    image_calls w' = (image_calls w + if client E is Some _ then Z.to_nat n else 0)%nat /\
    keeps_files w w' /\
    Forall (image_on_disk w') slides_data /\
    (forall ref, ppt_path = Some ref -> is_Some (fs w' !! ("static/" +:+ ref))) /\
    (exists w0, create_powerpoint E slides_data topic w0 = (inr ppt_path, w')).
Proof.
  unfold generate_presentation. rewrite try_except_run. run.
  match goal with |- context [create_slide_structure E ?t ?k ?w0] =>
    destruct (create_slide_structure_calls E t k w0)
      as (w1 & Hplan & Hfs1 & Hllm1 & Himg1 & _); rewrite Hplan end.
  cbn [fs llm_calls image_calls] in Hfs1, Hllm1, Himg1.
  run. unfold fallback_structure, py_iter. run.
  match goal with |- context [write_slides E ?t ?i0 ?items ?w0] =>
    assert (Hwf : Forall well_formed items)
      by (apply Forall_forall; intros si Hin; apply list_elem_of_fmap in Hin;
          destruct Hin as (i' & -> & _); apply fallback_slide_well_formed);
    destruct (write_slides_total E t items Hwf i0 w0)
      as (slides0 & w2 & Hwrite & Hfs2 & Hllm2 & Himg2 & Htitles & Hdts & Hnums & Hnone);
    rewrite Hwrite end.
  cbn [fs llm_calls image_calls] in Hfs2, Hllm2, Himg2.
  rewrite length_map in Hllm2, Hnums.
  assert (Hlen_range : length (range n) = Z.to_nat n)
    by (unfold range; rewrite length_map, length_seq; reflexivity).
  run.
  match goal with |- context [make_images E ?k slides0 ?w0] =>
    destruct (make_images_total E k slides0 Hnone w0)
      as (slides_data & w3 & Himages & Hsame & Hllm3 & Himg3 & Hkeep3 & Hdisk3);
    rewrite Himages end.
  cbn [fs llm_calls image_calls] in Hllm3, Himg3.
  destruct (same_but_image_maps slides0 slides_data Hsame) as (Hlen & Hn & Ht & Hd).
  run.
  match goal with |- context [create_powerpoint E slides_data ?t ?w0] =>
    destruct (create_powerpoint_frame_run E slides_data t w0)
      as (ppt_path & w4 & Hppt & Hllm4 & Himg4 & _ & Hkeep4 & Hret); rewrite Hppt end.
  cbn [fs llm_calls image_calls] in Hllm4, Himg4.
  run.
  assert (Hlen0 : length slides0 = Z.to_nat n).
  { rewrite <- Hlen_range, <- (length_map (fun sd => Some (title sd)) slides0), Htitles.
    rewrite !length_map. reflexivity. }
  exists slides_data, ppt_path. eexists. split; [reflexivity |].
  split; [congruence |].
  split.
  { rewrite Hn, Hnums, Hlen_range. unfold range. rewrite map_map.
    apply map_ext. intros k. lia. }
  split; [rewrite Ht, Htitles, map_map; reflexivity |].
  split; [rewrite Hd, Hdts, map_map; reflexivity |].
  split; [cbn [llm_calls]; lia |].
  split; [cbn [image_calls]; rewrite Hlen0 in Himg3; destruct (client E); lia |].
  split.
  { intros p Hp. cbn [fs]. apply Hkeep4. cbn [fs]. apply Hkeep3. cbn [fs].
    rewrite Hfs2, Hfs1. exact Hp. }
  split.
  { eapply Forall_impl; [exact Hdisk3 |].
    intros sd Hsd ref Href. cbn [fs]. apply Hkeep4. cbn [fs]. exact (Hsd ref Href). }
  split.
  { intros ref ->. cbn [fs].
    destruct (Hret ref eq_refl) as (Hpath & Hfile). rewrite Hpath. exact Hfile. }
  eexists. exact Hppt.
Qed.

(** X14. [generate_presentation] always answers with [success] true,
    whatever the language model, the image service, python-pptx and the
    disk do: its [except] block is never reached. The result holds one
    record per requested slide, numbered from 1, with the titles and the
    layout kinds of the fallback outline; an outline of the model is
    never used. *)
Theorem generate_presentation_always_succeeds (E : Env) (topic : string)
    (slides_count : Z) (w : World) :
  exists slides_data ppt_path message w',
    generate_presentation E topic slides_count w
      = (inr (Generated slides_data ppt_path message), w') /\
    success (Generated slides_data ppt_path message) = true /\
    length slides_data = Z.to_nat slides_count /\
    map slide_number slides_data = map (fun i => (i + 1)%Z) (range slides_count) /\
    map (fun sd => Some (title sd)) slides_data
      = map (fun i => field "title" (fallback_slide topic slides_count i))
            (range slides_count) /\
    map (fun sd => Some (design_type sd)) slides_data
      = map (fun i => field "design_type" (fallback_slide topic slides_count i))
            (range slides_count).
Proof.
  destruct (generate_presentation_run E topic slides_count w)
    as (slides_data & ppt_path & w' & Hrun & Hlen & Hn & Ht & Hd & _).
  exists slides_data, ppt_path. do 2 eexists.
  split; [exact Hrun |]. split; [reflexivity |]. auto.
Qed.

(** X15. One run of [generate_presentation] calls the language model
    once for the outline and twice for each slide, and the image service
    once for each slide when there is a client and never otherwise,
    whatever the calls answer. *)
Theorem generate_presentation_calls (E : Env) (topic : string) (slides_count : Z)
    (w : World) :
  let w' := (generate_presentation E topic slides_count w).2 in
  llm_calls w' = (llm_calls w + 1 + 2 * Z.to_nat slides_count)%nat /\
  image_calls w'
    = (image_calls w + if client E is Some _ then Z.to_nat slides_count else 0)%nat.
Proof.
  destruct (generate_presentation_run E topic slides_count w)
    as (slides_data & ppt_path & w' & Hrun & _ & _ & _ & _ & Hllm & Himg & _).
  cbv zeta. rewrite Hrun. split; assumption.
Qed.

(** X16. A run of [generate_presentation] removes no file, and what it
    returns is on the disk when it returns: the image reference of every
    record that has one, and the reference of the document when there is
    one. *)
Theorem generate_presentation_files (E : Env) (topic : string) (slides_count : Z)
    (w : World) :
  exists slides_data ppt_path message w',
    generate_presentation E topic slides_count w
      = (inr (Generated slides_data ppt_path message), w') /\
    keeps_files w w' /\
    Forall (image_on_disk w') slides_data /\
    match ppt_path with
    | Some ref => is_Some (fs w' !! ("static/" +:+ ref))
    | None => True
    end.
Proof.
  destruct (generate_presentation_run E topic slides_count w)
    as (slides_data & ppt_path & w' & Hrun & _ & _ & _ & _ & _ & _ & Hkeep & Hdisk & Hppt & _).
  exists slides_data, ppt_path. do 2 eexists.
  split; [exact Hrun |]. split; [exact Hkeep |]. split; [exact Hdisk |].
  destruct ppt_path as [ref |]; [apply Hppt; reflexivity | exact I].
Qed.

(** X17. A document that could not be saved is still reported as a
    success: when [prs.save] raises, [generate_presentation] answers with
    [success] true and no document reference. *)
Theorem unsaved_document_is_a_success (E : Env) (topic : string) (slides_count : Z)
    (w : World) :
  (forall prs path, exists e, save_error (prs_save E prs path) = Some e) ->
  exists slides_data message w',
    generate_presentation E topic slides_count w
      = (inr (Generated slides_data None message), w') /\
    success (Generated slides_data None message) = true.
Proof.
  intros Hsave.
  destruct (generate_presentation_run E topic slides_count w)
    as (slides_data & ppt_path & w' & Hrun & _ & _ & _ & _ & _ & _ & _ & _ & _ & w0 & Hppt).
  destruct (create_powerpoint_save_raises_run E slides_data topic w0 Hsave)
    as (w1 & e & Hnone & _).
  rewrite Hnone in Hppt. injection Hppt as <- _.
  exists slides_data. do 2 eexists. split; [exact Hrun | reflexivity].
Qed.

Lemma unsaved_document_is_a_success_witness :
  exists slides_data message w',
    generate_presentation Extra.read_only "Solar" 3 Sample.empty_world
      = (inr (Generated slides_data None message), w').
Proof.
  destruct (unsaved_document_is_a_success Extra.read_only "Solar" 3 Sample.empty_world)
    as (slides_data & message & w' & Hrun & _).
  - intros prs path. eexists. reflexivity.
  - exists slides_data, message, w'. exact Hrun.
Defined.

(** X25. When python-pptx grants the title boxes and [save] writes the
    file, [generate_presentation] returns the reference of a document,
    whatever the language model and the image service do: the file under
    that reference holds what [save] wrote for a presentation of exactly
    [slides_count] slides, and slide [i] starts with the title of the
    fallback outline at that position. *)
Theorem generate_presentation_document (E : Env) (topic : string) (slides_count : Z)
    (w : World) :
  (forall k, pptx_fault E (mkSlide k []) (AddTextbox title_box) = None) ->
  (forall prs path, exists data, prs_save E prs path = mkSave (Some data) None) ->
  exists slides_data hex prs data message w',
    generate_presentation E topic slides_count w
      = (inr (Generated slides_data (Some ("presentations/" +:+ ppt_filename topic hex))
                        message), w') /\
    fs w' !! ("static/" +:+ "presentations/" +:+ ppt_filename topic hex) = Some data /\
    prs_save E prs ("static/" +:+ "presentations/" +:+ ppt_filename topic hex)
      = mkSave (Some data) None /\
    length (slides prs) = Z.to_nat slides_count /\
    forall i, (0 <= i < slides_count)%Z ->
      exists slide text added,
        slides prs !! Z.to_nat i = Some slide /\
        field "title" (fallback_slide topic slides_count i) = Some (PyStr text) /\
        shapes slide = drawn_title text :: added.
Proof.
  intros Hbox Hsave.
  destruct (generate_presentation_run E topic slides_count w)
    as (slides_data & ppt_path & w' & Hrun & Hlen & _ & Ht & _ & _ & _ & _ & _ & _ & w0 & Hdoc).
  assert (Htitles : forall sd, sd ∈ slides_data -> exists text, title sd = PyStr text).
  { intros sd Hin.
    assert (Hsome : Some (title sd) ∈ map (fun sd => Some (title sd)) slides_data)
      by (apply list_elem_of_fmap; exists sd; auto).
    rewrite Ht in Hsome. apply list_elem_of_fmap in Hsome. destruct Hsome as (i & Hi & _).
    destruct (fallback_slide_well_formed topic slides_count i)
      as (d & t & dt & kp & Hd & Htitle & _).
    rewrite Hd in Hi. cbn [field] in Hi. rewrite Htitle in Hi. injection Hi as ->.
    exists t. reflexivity. }
  destruct (create_powerpoint_run E slides_data topic w0 Htitles Hbox Hsave)
    as (prs & data & log & Hppt & _ & Hdata & Hslides & Hall).
  cbv zeta in Hppt. rewrite Hppt in Hdoc. injection Hdoc as <- <-.
  exists slides_data, (uuid4_hex E (uuid_calls w0)), prs, data. do 2 eexists.
  split; [exact Hrun |].
  split; [cbn [fs]; apply lookup_insert_eq |].
  split; [exact Hdata |].
  split; [congruence |].
  intros i Hi.
  destruct (lookup_lt_is_Some_2 slides_data (Z.to_nat i)) as [sd Hsd]; [lia |].
  destruct (Hall _ _ Hsd) as (slide & Hslide & text & added & res & out0 & out1 & Htext & -> & _).
  exists (mkSlide (Z.to_nat i) (drawn_title text :: added)), text, added.
  split; [exact Hslide |]. split; [| reflexivity].
  assert (Hlook : map (fun sd => Some (title sd)) slides_data !! Z.to_nat i
                  = Some (Some (title sd)))
    by (rewrite list_lookup_fmap, Hsd; reflexivity).
  rewrite Ht, list_lookup_fmap, range_lookup in Hlook by lia.
  cbn [fmap option_fmap option_map] in Hlook. injection Hlook as Hlook.
  rewrite Hlook, Htext. reflexivity.
Qed.

Lemma generate_presentation_document_witness :
  exists slides_data prs data message w',
    generate_presentation (Sample.painting Sample.png) "Solar" 3 Sample.empty_world
      = (inr (Generated slides_data (Some "presentations/Solar_01234567.pptx") message), w') /\
    fs w' !! "static/presentations/Solar_01234567.pptx" = Some data /\
    length (slides prs) = 3%nat.
Proof.
  destruct (generate_presentation_document (Sample.painting Sample.png) "Solar" 3
              Sample.empty_world)
    as (slides_data & hex & prs & data & message & w' & Hrun & Hfile & _ & Hlen & _).
  - intros k. reflexivity.
  - intros prs path. eexists. reflexivity.
  - assert (Hres : (generate_presentation (Sample.painting Sample.png) "Solar" 3
                      Sample.empty_world).1
                   = inr (Generated slides_data
                            (Some ("presentations/" +:+ ppt_filename "Solar" hex)) message))
      by (rewrite Hrun; reflexivity).
    vm_compute in Hres. injection Hres as _ Hname _.
    assert (Hpath : "presentations/" +:+ ppt_filename "Solar" hex
                    = "presentations/Solar_01234567.pptx")
      by (vm_compute; rewrite <- Hname; reflexivity).
    rewrite Hpath in Hrun. 
    change ("static/" +:+ "presentations/" +:+ ppt_filename "Solar" hex)
      with ("static/" +:+ ("presentations/" +:+ ppt_filename "Solar" hex)) in Hfile.
    rewrite Hpath in Hfile.
    exists slides_data, prs, data, message, w'.
    split; [exact Hrun |]. split; [exact Hfile | exact Hlen].
Defined.

(** ** The pictures of the document *)

Lemma create_slide_pictures (E : Env) (disk : gmap string (list Byte.byte)) (total i : nat)
    (sd : SlideData) :
  exists r c,
    create_slide E disk total i sd (mkCanvas (mkSlide i []) []) = (r, c) /\
    sound_slide E disk (on_slide c).
Proof.
  unfold create_slide, add_title, sound_slide. draw.
  request.
  { eexists _, _. split; [reflexivity |]. cbn. split; [constructor | lia]. }
  draw. unfold assign_text.
  destruct (title sd) as [| b | z | q | text | l | d];
    try (draw; eexists _, _; split; [reflexivity |]; cbn; split; [repeat constructor | lia]).
  draw. cbn [app length].
  unfold add_content. rewrite try_except_run, bind_run.
  match goal with |- context [run_layout E ?r disk sd (mkCanvas (mkSlide i ?shs) ?out)] =>
    destruct (run_layout_pictures E r disk sd i shs out)
      as (res & added & out1 & Hrun & Hvalid & Hcount);
    rewrite Hrun
  end.
  destruct res as [e | []]; draw;
    (eexists _, _; split; [reflexivity |]);
    cbn [on_slide shapes]; unfold pictures in *;
    (split; [apply Forall_app; split; [repeat constructor | exact Hvalid]
            | rewrite List.filter_app, length_app; cbn; exact Hcount]).
Qed.

Lemma add_slides_pictures (E : Env) (total : nat) (slides_data : list SlideData) :
  forall (i : nat) (prs prs' : Presentation) (w w' : World),
    Forall (sound_slide E (fs w)) (slides prs) ->
    add_slides E total i slides_data prs w = (inr prs', w') ->
    Forall (sound_slide E (fs w)) (slides prs').
Proof.
  induction slides_data as [| sd rest IH]; intros i prs prs' w w' Hprs.
  - cbn [add_slides]. rewrite ret_run. intros [= <- _]. exact Hprs.
  - cbn [add_slides]. rewrite bind_run. unfold on_canvas at 1.
    destruct (create_slide_pictures E (fs w) total i sd) as (r & c & Hslide & Hsound).
    rewrite Hslide. destruct r as [e | []]; [discriminate |].
    cbv beta iota. cbn [snd]. intros Hrest.
    refine (IH (S i) (with_slide prs (on_slide c)) prs' _ w' _ Hrest).
    cbn [fs slides with_slide]. apply Forall_app. split; [exact Hprs |].
    constructor; [exact Hsound | constructor].
Qed.

(** X18. Every slide of the presentation that [create_powerpoint] builds
    shows at most one picture, and a picture on a slide is always the
    picture of a file that is on the disk, is not empty and verifies as
    an image, whatever the image references of the records are. *)
Theorem document_pictures_are_valid (E : Env) (slides_data : list SlideData)
    (w w' : World) (prs : Presentation) :
  add_slides E (length slides_data) 0 slides_data
             (mkPresentation (Inches 16) (Inches 9) []) w = (inr prs, w') ->
  Forall (sound_slide E (fs w)) (slides prs).
Proof.
  intros Hloop.
  exact (add_slides_pictures E (length slides_data) slides_data 0
           (mkPresentation (Inches 16) (Inches 9) []) prs w w' (List.Forall_nil _) Hloop).
Qed.

Lemma document_pictures_are_valid_witness :
  exists prs,
    (add_slides Sample.caption_fails 2 0
       [Sample.photo; mkSlideData 2 (PyStr "Lost") (PyStr "content") (PyStr "text") "prompt"
                                  (Some "images/missing.png")]
       (mkPresentation (Inches 16) (Inches 9) []) (mkWorld Sample.disk [] 0 0 0)).1
      = inr prs /\
    map (fun s => length (pictures (shapes s))) (slides prs) = [1%nat; 0%nat] /\
    Forall (sound_slide Sample.caption_fails Sample.disk) (slides prs).
Proof.
  pose (run := add_slides Sample.caption_fails 2 0
                 [Sample.photo; mkSlideData 2 (PyStr "Lost") (PyStr "content") (PyStr "text") "prompt"
                                            (Some "images/missing.png")]
                 (mkPresentation (Inches 16) (Inches 9) []) (mkWorld Sample.disk [] 0 0 0)).
  destruct run.1 as [e | prs] eqn:Hres; [vm_compute in Hres; discriminate |].
  exists prs. split; [exact Hres |].
  assert (Hrun : run = (inr prs, run.2)) by (rewrite <- Hres; apply surjective_pairing).
  split.
  - vm_compute in Hres. injection Hres as <-. reflexivity.
  - exact (document_pictures_are_valid Sample.caption_fails
             [Sample.photo; mkSlideData 2 (PyStr "Lost") (PyStr "content") (PyStr "text") "prompt"
                                        (Some "images/missing.png")]
             (mkWorld Sample.disk [] 0 0 0) run.2 prs Hrun).
Defined.

(** ** The web route *)

Lemma from_host_run {A : Type} (r : Exn + A) (w : World) : from_host r w = (r, w).
Proof. reflexivity. Qed.

Lemma static_url_world (H : Host) (p : option string) (w : World) :
  exists r, static_url H p w = (r, w).
Proof.
  unfold static_url. destruct (path_given p).
  - rewrite bind_run, from_host_run. destruct (url_for H _); eexists; reflexivity.
  - eexists. reflexivity.
Qed.

Lemma image_urls_world (H : Host) (slides_data : list SlideData) (w : World) :
  exists r, image_urls H slides_data w = (r, w).
Proof.
  induction slides_data as [| sd rest IH]; cbn [image_urls].
  - eexists. reflexivity.
  - rewrite bind_run. destruct (static_url_world H (image_path sd) w) as [r ->].
    destruct r as [e | u]; [eexists; reflexivity |].
    rewrite bind_run. destruct IH as [r ->].
    destruct r; eexists; reflexivity.
Qed.


Ltac read_request Hjson Htopic :=
  unfold generate_ppt, topic_field, count_field in *;
  rewrite try_except_run, bind_run, from_host_run, Hjson;
  cbn [py_get]; rewrite !bind_run, !ret_run, Htopic; cbn [py_strip];
  repeat (rewrite ?bind_run, ?ret_run, ?from_host_run; cbv beta iota).

(** X19. A request whose topic is missing, empty or blank is refused
    with 'Topic is required' when its slide count converts to a number,
    whatever that number is: no service is called and nothing is
    printed or written. *)
Theorem generate_ppt_requires_topic (H : Host) (E : Env) (d : list (string * PyVal))
    (s : string) (n : Z) (w : World) :
  get_json H = inr (PyDict d) ->
  topic_field d = PyStr s ->
  strip s = EmptyString ->
  int_of H (count_field d) = inr n ->
  generate_ppt H E w = (inr (Refused "Topic is required"), w).
Proof.
  intros Hjson Htopic Hblank Hcount.
  read_request Hjson Htopic. rewrite Hcount, Hblank. reflexivity.
Qed.

Lemma generate_ppt_requires_topic_witness :
  generate_ppt (Web.host (PyDict [("topic", PyStr (" " +:+ Sample.nbsp +:+ Sample.wide_space));
                                  ("slides_count", PyInt 300)]))
               (Sample.failing None) Sample.empty_world
    = (inr (Refused "Topic is required"), Sample.empty_world).
Proof.
  apply (generate_ppt_requires_topic _ _
           [("topic", PyStr (" " +:+ Sample.nbsp +:+ Sample.wide_space));
            ("slides_count", PyInt 300)]
           (" " +:+ Sample.nbsp +:+ Sample.wide_space) 300);
    reflexivity.
Defined.



(** X21. The slide count is converted before the topic is looked at: a
    request whose count does not convert is answered by the exception
    handler with the message of the conversion error, also when its
    topic is blank; one line is printed, no service is called and
    nothing is written. *)
Theorem generate_ppt_count_converted_first (H : Host) (E : Env) (d : list (string * PyVal))
    (s : string) (e : Exn) (w : World) :
  get_json H = inr (PyDict d) ->
  topic_field d = PyStr s ->
  int_of H (count_field d) = inl e ->
  generate_ppt H E w
    = (inr (ServerError (exn_msg e)),
       mkWorld (fs w) (stdout w ++ ["Error in generate_ppt endpoint: " +:+ exn_msg e])
               (llm_calls w) (image_calls w) (uuid_calls w)).
Proof.
  intros Hjson Htopic Hcount.
  read_request Hjson Htopic. rewrite Hcount. reflexivity.
Qed.

Lemma generate_ppt_count_converted_first_witness :
  (generate_ppt (Web.host (PyDict [("topic", PyStr ""); ("slides_count", PyNone)]))
                (Sample.failing None) Sample.empty_world).1
    = inr (ServerError ("int() argument must be a string, a bytes-like object or a real "
                        +:+ "number, not 'NoneType'")).
Proof.
  rewrite (generate_ppt_count_converted_first
             (Web.host (PyDict [("topic", PyStr ""); ("slides_count", PyNone)]))
             (Sample.failing None) [("topic", PyStr ""); ("slides_count", PyNone)] ""
             (TypeError ("int() argument must be a string, a bytes-like object or a real "
                         +:+ "number, not 'NoneType'")) Sample.empty_world);
    reflexivity.
Defined.

(** X22. A body that is JSON but not an object (null, a list, a number,
    a string) is answered by the exception handler: the route calls
    [get] on it, which only a dictionary has. *)
Theorem generate_ppt_body_not_object (H : Host) (E : Env) (v : PyVal) (w : World) :
  get_json H = inr v ->
  (forall d, v <> PyDict d) ->
  (generate_ppt H E w).1
    = inr (ServerError ("'" +:+ type_name v +:+ "' object has no attribute 'get'")) /\
  fs (generate_ppt H E w).2 = fs w /\
  llm_calls (generate_ppt H E w).2 = llm_calls w /\
  image_calls (generate_ppt H E w).2 = image_calls w.
Proof.
  intros Hjson Hnot.
  unfold generate_ppt. rewrite try_except_run, bind_run, from_host_run, Hjson.
  destruct v; try (repeat split; reflexivity).
  exfalso. exact (Hnot _ eq_refl).
Qed.

Lemma generate_ppt_body_not_object_witness :
  (generate_ppt (Web.host PyNone) (Sample.failing None) Sample.empty_world).1
    = inr (ServerError "'NoneType' object has no attribute 'get'").
Proof.
  apply (generate_ppt_body_not_object (Web.host PyNone) (Sample.failing None) PyNone
           Sample.empty_world); [reflexivity | discriminate].
Defined.




(** X24. The route answers every request in every environment: no
    exception leaves it, a generated presentation is always reported as
    a success, and no file that was on the disk is lost. *)
Theorem generate_ppt_always_answers (H : Host) (E : Env) (w : World) :
  exists resp w',
    generate_ppt H E w = (inr resp, w') /\
    keeps_files w w' /\
    match resp with
    | Answer result urls _ =>
        success result = true /\
        exists slides_data ppt_path message,
          result = Generated slides_data ppt_path message /\ length urls = length slides_data
    | _ => True
    end.
Proof.
  unfold generate_ppt. rewrite try_except_run, bind_run, from_host_run.
  assert (Hsame : forall (resp : Response) (w' : World),
            fs w' = fs w ->
            match resp with Answer _ _ _ => False | _ => True end ->
            keeps_files w w' /\
            match resp with
            | Answer result urls _ =>
                success result = true /\
                exists slides_data ppt_path message,
                  result = Generated slides_data ppt_path message /\
                  length urls = length slides_data
            | _ => True
            end).
  { intros resp w' Hfs Hresp. split; [apply keeps_files_refl; exact Hfs |].
    destruct resp; [exact I | contradiction | exact I]. }
  destruct (get_json H) as [e | v].
  { run. eexists _, _. split; [reflexivity |]. apply Hsame; [reflexivity | exact I]. }
  destruct v as [| b | z | q | t | l | d];
    try (run; eexists _, _; split; [reflexivity |]; apply Hsame; [reflexivity | exact I]).
  cbn [py_get]. rewrite !bind_run, !ret_run.
  destruct (default (PyStr EmptyString) (assoc "topic" d)) as [| b | z | q | s | l | d'];
    try (run; eexists _, _; split; [reflexivity |]; apply Hsame; [reflexivity | exact I]).
  cbn [py_strip]. repeat (rewrite ?bind_run, ?ret_run, ?from_host_run; cbv beta iota).
  destruct (int_of H (default (PyInt 5) (assoc "slides_count" d))) as [e | n].
  { run. eexists _, _. split; [reflexivity |]. apply Hsame; [reflexivity | exact I]. }
  destruct (negb (truthy (PyStr (strip s)))).
  { run. eexists _, _. split; [reflexivity |]. apply Hsame; [reflexivity | exact I]. }
  destruct ((n <? 3) || (n >? 20))%Z.
  { run. eexists _, _. split; [reflexivity |]. apply Hsame; [reflexivity | exact I]. }
  run. cbn [py_str].
  match goal with |- context [generate_presentation E ?t n ?w0] =>
    destruct (generate_presentation_run E t n w0)
      as (slides_data & ppt_path & w1 & Hgen & _ & _ & _ & _ & _ & _ & Hkeep & _);
    rewrite Hgen
  end.
  assert (Hkeep1 : keeps_files w w1).
  { intros p Hp. apply Hkeep. exact Hp. }
  cbv beta iota. rewrite bind_run.
  destruct (image_urls_world H slides_data w1) as [r Hurls].
  rewrite Hurls. destruct r as [e | urls].
  { run. eexists _, _. split; [reflexivity |]. split; [| exact I].
    intros p Hp. apply Hkeep1. exact Hp. }
  rewrite bind_run.
  destruct (static_url_world H ppt_path w1) as [r Hppt].
  rewrite Hppt. destruct r as [e | ppt_url].
  { run. eexists _, _. split; [reflexivity |]. split; [| exact I].
    intros p Hp. apply Hkeep1. exact Hp. }
  run. eexists _, _. split; [reflexivity |]. split; [exact Hkeep1 |].
  split; [reflexivity |]. eexists _, _, _. split; [reflexivity |].
  clear -Hurls. revert urls w1 Hurls.
  induction slides_data as [| sd rest IH]; intros urls w1; cbn [image_urls].
  - rewrite ret_run. intros [= <-]. reflexivity.
  - rewrite bind_run. destruct (static_url_world H (image_path sd) w1) as [r ->].
    destruct r as [e | u]; [discriminate |].
    rewrite bind_run. destruct (image_urls_world H rest w1) as [r Hrest].
    rewrite Hrest. destruct r as [e | us]; [discriminate |].
    rewrite ret_run. intros [= <-]. cbn [length]. f_equal. exact (IH us w1 Hrest).
Qed.
